(** * ICM-42688 driver and acquisition pipeline: a shallow embedding

    The development follows [icm42688.c] (register transport, bring-up,
    frame decoding, ioctl surface), the acquisition loop of
    [icm42688_test_main] and the LED utility of [led_control_main.c].
    Machine integers are [Z] with the wrap-around written out, bus buffers
    are lists of bytes, the I2C master and the operating-system services
    are an explicit world that every function threads through a small
    state monad, and C [float] is an interface with the IEEE-754 binary32
    operations as its instance. *)

From Stdlib Require Import ZArith List Bool Lia.
From Stdlib Require Import Strings.Byte.
From Stdlib Require Strings.String Strings.Ascii.
From Stdlib Require Import Floats.SpecFloat.
From Stdlib Require Import Reals Lra.
Import ListNotations.

Local Open Scope Z_scope.

(* ===================================================================== *)
(** * 1. Machine integers and bytes *)
(* ===================================================================== *)

Module Int.

(** Value of a [uint8_t] bus byte after integer promotion. *)
Definition u8 (b : byte) : Z := Z.of_N (Byte.to_N b).

(** Conversion to [int16_t]: reduction modulo 2^16 into [-32768, 32767]. *)
Definition to_int16 (z : Z) : Z := (z + 32768) mod 65536 - 32768.

(** Conversion to [uint32_t]. *)
Definition to_uint32 (z : Z) : Z := z mod 4294967296.

(** [(int16_t)((hi << 8) | lo)]: a big-endian 16-bit word read as signed. *)
Definition be16 (hi lo : byte) : Z :=
  to_int16 (Z.lor (Z.shiftl (u8 hi) 8) (u8 lo)).

(** [(int16_t)(x >> 1)] on a signed operand: arithmetic shift. *)
Definition asr1 (x : Z) : Z := to_int16 (Z.shiftr x 1).

(** [buf[i]] of a byte buffer. *)
Definition at_ (buf : list byte) (i : nat) : byte := nth i buf x00.

Definition int16_range (z : Z) : Prop := -32768 <= z <= 32767.

End Int.

(* ===================================================================== *)
(** * 2. Error numbers *)
(* ===================================================================== *)

Module Errno.
Definition OK : Z := 0.
Definition EIO : Z := 5.
Definition EAGAIN : Z := 11.
Definition ENOMEM : Z := 12.
Definition ENODEV : Z := 19.
Definition EINVAL : Z := 22.
Definition ENOTTY : Z := 25.
End Errno.
Import Errno.

(* ===================================================================== *)
(** * 3. Single-precision arithmetic *)
(* ===================================================================== *)

(** The operations the C sources apply to [float] values. *)
Class FloatOps (F : Type) : Type := {
  fadd : F -> F -> F;
  fsub : F -> F -> F;
  fmul : F -> F -> F;
  fdiv : F -> F -> F;
  fsqrt : F -> F;          (* sqrtf *)
  fabs : F -> F;           (* fabsf *)
  fltb : F -> F -> bool;   (* < *)
  fleb : F -> F -> bool;   (* <= *)
  of_int : Z -> F          (* (float)n for an integer n *)
}.

Declare Scope flt_scope.
Delimit Scope flt_scope with flt.
Infix "+" := fadd : flt_scope.
Infix "-" := fsub : flt_scope.
Infix "*" := fmul : flt_scope.
Infix "/" := fdiv : flt_scope.
Infix "<?" := fltb : flt_scope.
Infix "<=?" := fleb : flt_scope.

Section FloatDerived.
Context {F : Type} `{FloatOps F}.

(** A decimal literal [n/d] with [n], [d] small integers: the quotient of
    two exactly representable values, correctly rounded, is the [float]
    nearest to the decimal, which is what the literal denotes. *)
Definition dec (n d : Z) : F := fdiv (of_int n) (of_int d).

(** [a > b] and [a >= b] *)
Definition fgtb (a b : F) : bool := fltb b a.
Definition fgeb (a b : F) : bool := fleb b a.
End FloatDerived.

(** IEEE-754 binary32, round to nearest even. *)
Module Binary32.
Definition prec : Z := 24.
Definition emax : Z := 128.
Definition float32 : Type := spec_float.

Definition of_Z (z : Z) : float32 := binary_normalize prec emax z 0 false.

Definition is_nan (x : float32) : bool :=
  match x with S754_nan => true | _ => false end.

#[global] Instance ops : FloatOps float32 := {|
  fadd := SFadd prec emax;
  fsub := SFsub prec emax;
  fmul := SFmul prec emax;
  fdiv := SFdiv prec emax;
  fsqrt := SFsqrt prec emax;
  fabs := SFabs;
  fltb := SFltb;
  fleb := SFleb;
  of_int := of_Z
|}.
End Binary32.

(* ===================================================================== *)
(** * 4. The world outside the driver *)
(* ===================================================================== *)

(** Message flags of [struct i2c_msg_s]. *)
Inductive i2c_flag : Type :=
| I2C_M_WRITE     (* flags = 0 *)
| I2C_M_NOSTOP
| I2C_M_READ.

(** [struct i2c_msg_s]; [buffer] holds the bytes sent by a write message. *)
Record i2c_msg_s : Type := {
  frequency : Z;
  addr : Z;
  flags : i2c_flag;
  buffer : list byte;
  length : nat
}.

(** [struct icm42688_sample_s] *)
Record icm42688_sample_s : Type := {
  accel_x : Z;
  accel_y : Z;
  accel_z : Z;
  gyro_x : Z;
  gyro_y : Z;
  gyro_z : Z
}.

(** [struct icm42688_dev_s]; the mutex carries no data and is left out. *)
Record icm42688_dev_s : Type := {
  i2c : nat;          (* I2C master *)
  i2c_freq : Z;       (* I2C frequency (Hz) *)
  i2c_addr : Z;       (* 7-bit address *)
  buf : icm42688_sample_s;
  bufpos : Z
}.

(** [struct icm42688_config_s]; [cfg_i2c = None] is the NULL master. *)
Record icm42688_config_s : Type := {
  cfg_i2c : option nat;
  cfg_addr : Z;
  cfg_freq : Z
}.

(** What the driver calls and does not implement: the bus transfer, the
    clock, the allocator and the device-node registry.  [I2C_TRANSFER]
    gives the result code and the bytes delivered to the read message. *)
Class World (W : Type) : Type := {
  I2C_TRANSFER : nat -> list i2c_msg_s -> W -> (Z * list byte) * W;
  usleep : Z -> W -> unit * W;
  kmm_malloc : W -> bool * W;
  register_driver : icm42688_dev_s -> W -> Z * W
}.

(** State monad over the world. *)
Definition M (W A : Type) : Type := W -> A * W.

Definition ret {W A : Type} (a : A) : M W A := fun w => (a, w).

Definition bind {W A B : Type} (c : M W A) (k : A -> M W B) : M W B :=
  fun w => let (a, w') := c w in k a w'.

Declare Scope io_scope.
Delimit Scope io_scope with io.
Notation "x <- c ;; k" := (bind c (fun x => k))
  (at level 61, c at next level, right associativity) : io_scope.
Notation "' p <- c ;; k" := (bind c (fun x => let p := x in k))
  (at level 61, p pattern, c at next level, right associativity) : io_scope.
Notation "c ;;; k" := (bind c (fun _ => k))
  (at level 61, right associativity) : io_scope.

(** A receive buffer of [len] bytes after a transfer that delivered [data]:
    bytes the transfer did not deliver read as zero. *)
Definition fill (len : nat) (data : list byte) : list byte :=
  firstn len (data ++ repeat x00 len).

(* ===================================================================== *)
(** * 5. The driver, [icm42688.c] *)
(* ===================================================================== *)

Module Reg.
Definition ICM_WHOAMI_EXPECTED : byte := x47.
Definition ICM_REG_WHO_AM_I : byte := x75.
Definition ICM_REG_DEVICE_CONFIG : byte := x11.
Definition ICM_REG_PWR_MGMT0 : byte := x4e.
Definition ICM_REG_GYRO_CONFIG0 : byte := x4f.
Definition ICM_REG_ACCEL_CONFIG0 : byte := x50.
Definition ICM_REG_ACCEL_DATA_X1 : byte := x1f.
Definition ICM_REG_FIFO_CONFIG_INIT : byte := x16.
Definition ICM_REG_FIFO_CONFIGURATION : byte := x5f.
Definition ICM_REG_FIFO_DATA : byte := x30.
Definition ICM_FIFO_READ_LEN : nat := 16.
Definition ICM_BURST_READ_LEN : nat := 12.
Definition ICM_PWR_LN_GYRO_ACCEL : byte := x0f.
End Reg.
Import Reg.

Module Cmd.
Definition ICM_IOCTL_GET_SAMPLE : Z := 0x1001.
Definition ICM_IOCTL_GET_ACCEL_FS : Z := 0x1101.
Definition ICM_IOCTL_GET_GYRO_FS : Z := 0x1102.
Definition ICM_IOCTL_GET_ACCEL_CONFIG0_RAW : Z := 0x1201.
Definition ICM_IOCTL_GET_GYRO_CONFIG0_RAW : Z := 0x1202.
Definition ICM_IOCTL_GET_SCALES : Z := 0x1301.
End Cmd.
Import Cmd.

(** What an ioctl leaves behind its [arg] pointer. *)
Inductive ioctl_out : Type :=
| OutNone
| OutSample (s : icm42688_sample_s)
| OutScales (accel_lsb_per_g gyro_lsb_per_dps_times10 : Z)
| OutInt (fs_sel : Z)
| OutByte (raw : byte).

Definition sizeof_sample : Z := 12.

Definition sample_zero : icm42688_sample_s :=
  {| accel_x := 0; accel_y := 0; accel_z := 0;
     gyro_x := 0; gyro_y := 0; gyro_z := 0 |}.

(** Accel table of [ICM_IOCTL_GET_SCALES], [switch (acc_fs_sel)]. *)
Definition accel_scale_of_sel (acc_fs_sel : Z) : Z :=
  match acc_fs_sel with
  | 0 => 16384
  | 1 => 8192
  | 2 => 16384
  | 3 => 2048
  | _ => 16384
  end.

(** Gyro table of [ICM_IOCTL_GET_SCALES], [switch (gyr_fs_sel)]. *)
Definition gyro_scale_of_sel (gyr_fs_sel : Z) : Z :=
  match gyr_fs_sel with
  | 0 => 164
  | 1 => 328
  | 2 => 656
  | 3 => 1310
  | _ => 164
  end.

(** [(v >> 4) & 0x03] *)
Definition fs_sel_of (v : byte) : Z := Z.land (Z.shiftr (Int.u8 v) 4) 3.

(** [icm_parse_fifo_sample]: the frame starts at [fifo_buf[1]]. *)
Definition icm_parse_fifo_sample (fifo_buf : list byte) (len : nat)
    (out : icm42688_sample_s) : Z * icm42688_sample_s :=
  if (len <? ICM_FIFO_READ_LEN)%nat then (- EINVAL, out)
  else
    let rx := Int.be16 (Int.at_ fifo_buf 1) (Int.at_ fifo_buf 2) in
    let ry := Int.be16 (Int.at_ fifo_buf 3) (Int.at_ fifo_buf 4) in
    let rz := Int.be16 (Int.at_ fifo_buf 5) (Int.at_ fifo_buf 6) in
    (OK, {| accel_x := Int.asr1 rx;
            accel_y := Int.asr1 ry;
            accel_z := Int.asr1 rz;
            gyro_x := Int.be16 (Int.at_ fifo_buf 7) (Int.at_ fifo_buf 8);
            gyro_y := Int.be16 (Int.at_ fifo_buf 9) (Int.at_ fifo_buf 10);
            gyro_z := Int.be16 (Int.at_ fifo_buf 11) (Int.at_ fifo_buf 12) |}).

(** [icm_parse_sample]: the 12-byte direct register layout. *)
Definition icm_parse_sample (buf : list byte) (len : nat)
    (out : icm42688_sample_s) : Z * icm42688_sample_s :=
  if (len <? ICM_BURST_READ_LEN)%nat then (- EINVAL, out)
  else
    let rx := Int.be16 (Int.at_ buf 0) (Int.at_ buf 1) in
    let ry := Int.be16 (Int.at_ buf 2) (Int.at_ buf 3) in
    let rz := Int.be16 (Int.at_ buf 4) (Int.at_ buf 5) in
    (OK, {| accel_x := Int.asr1 rx;
            accel_y := Int.asr1 ry;
            accel_z := Int.asr1 rz;
            gyro_x := Int.be16 (Int.at_ buf 6) (Int.at_ buf 7);
            gyro_y := Int.be16 (Int.at_ buf 8) (Int.at_ buf 9);
            gyro_z := Int.be16 (Int.at_ buf 10) (Int.at_ buf 11) |}).

(** The second shift [icm_read_fifo_packet] applies to [tmp]. *)
Definition shift_accel (tmp : icm42688_sample_s) : icm42688_sample_s :=
  {| accel_x := Int.asr1 (accel_x tmp);
     accel_y := Int.asr1 (accel_y tmp);
     accel_z := Int.asr1 (accel_z tmp);
     gyro_x := gyro_x tmp;
     gyro_y := gyro_y tmp;
     gyro_z := gyro_z tmp |}.

Section Driver.
Context {W : Type} `{World W} {F : Type} `{FloatOps F}.
Local Open Scope io_scope.

(** [icm_i2c_read]: one transfer of a no-stop write of the register address
    followed by a read of [len] bytes. *)
Definition icm_i2c_read (dev : icm42688_dev_s) (reg : byte) (len : nat)
    : M W (Z * list byte) :=
  let msg0 := {| frequency := i2c_freq dev; addr := i2c_addr dev;
                 flags := I2C_M_NOSTOP; buffer := [reg]; length := 1 |} in
  let msg1 := {| frequency := i2c_freq dev; addr := i2c_addr dev;
                 flags := I2C_M_READ; buffer := []; length := len |} in
  '(r, data) <- I2C_TRANSFER (i2c dev) [msg0; msg1] ;;
  ret (if r <? 0 then r else OK, fill len data).

(** [icm_i2c_write1]: one transfer of [reg, val]. *)
Definition icm_i2c_write1 (dev : icm42688_dev_s) (reg val : byte) : M W Z :=
  let msg := {| frequency := i2c_freq dev; addr := i2c_addr dev;
                flags := I2C_M_WRITE; buffer := [reg; val]; length := 2 |} in
  '(r, _) <- I2C_TRANSFER (i2c dev) [msg] ;;
  ret (if r <? 0 then r else OK).

(** [icm_reset] *)
Definition icm_reset (dev : icm42688_dev_s) : M W Z :=
  r <- icm_i2c_write1 dev ICM_REG_DEVICE_CONFIG x01 ;;
  if r <? 0 then ret r
  else usleep 200000 ;;; ret OK.

(** The [for] loop of [icm_check_whoami] with [n] iterations left. *)
Fixpoint whoami_loop (n : nat) (dev : icm42688_dev_s) : M W Z :=
  match n with
  | O => ret (- ENODEV)
  | S n' =>
      '(r, id) <- icm_i2c_read dev ICM_REG_WHO_AM_I 1 ;;
      if (r =? OK) && (Int.u8 (Int.at_ id 0) =? Int.u8 ICM_WHOAMI_EXPECTED)
      then ret OK
      else usleep 20000 ;;; whoami_loop n' dev
  end.

(** [icm_check_whoami] *)
Definition icm_check_whoami (dev : icm42688_dev_s) : M W Z :=
  whoami_loop 50 dev.

(** Observations on the identity check: whether the identity read issued
    in world [w] passes the test of the loop, the world the loop moves to
    when it does not, and the world in which attempt number [k] (from 0) is
    made when no earlier attempt passed. *)
Definition whoami_good (dev : icm42688_dev_s) (w : W) : bool :=
  let '(r, id) := fst (icm_i2c_read dev ICM_REG_WHO_AM_I 1 w) in
  (r =? OK) && (Int.u8 (Int.at_ id 0) =? Int.u8 ICM_WHOAMI_EXPECTED).

Definition whoami_next (dev : icm42688_dev_s) (w : W) : W :=
  snd (usleep 20000 (snd (icm_i2c_read dev ICM_REG_WHO_AM_I 1 w))).

Definition whoami_world (k : nat) (dev : icm42688_dev_s) (w : W) : W :=
  Nat.iter k (whoami_next dev) w.

(** [icm_configure_default] *)
Definition icm_configure_default (dev : icm42688_dev_s) : M W Z :=
  r <- icm_i2c_write1 dev ICM_REG_PWR_MGMT0 ICM_PWR_LN_GYRO_ACCEL ;;
  if r <? 0 then ret r else
  r <- icm_i2c_write1 dev ICM_REG_GYRO_CONFIG0 x66 ;;
  if r <? 0 then ret r else
  r <- icm_i2c_write1 dev ICM_REG_ACCEL_CONFIG0 x66 ;;
  if r <? 0 then ret r else
  icm_i2c_write1 dev ICM_REG_FIFO_CONFIG_INIT x40 ;;;
  icm_i2c_write1 dev ICM_REG_FIFO_CONFIGURATION x07 ;;;
  usleep 100000 ;;;
  ret OK.

(** [icm_read_fifo_packet]; the second component is [*out] afterwards. *)
Definition icm_read_fifo_packet (dev : icm42688_dev_s)
    (out : icm42688_sample_s) : M W (Z * icm42688_sample_s) :=
  '(r, fifo_buf) <- icm_i2c_read dev ICM_REG_FIFO_DATA ICM_FIFO_READ_LEN ;;
  if r <? 0 then ret (- EIO, out) else
  let '(pret, tmp) :=
    icm_parse_fifo_sample fifo_buf ICM_FIFO_READ_LEN sample_zero in
  if pret <? 0 then ret (pret, out) else
  ret (OK, shift_accel tmp).

(** [icm_read_oneshot]; the sample is what the call copied to [buf], if
    anything. *)
Definition icm_read_oneshot (dev : icm42688_dev_s) (len : Z)
    : M W (Z * option icm42688_sample_s) :=
  if len <? sizeof_sample then ret (- EINVAL, None) else
  '(r, s1) <- icm_read_fifo_packet dev sample_zero ;;
  if r =? OK then ret (sizeof_sample, Some s1)
  else ret (- EAGAIN, None).

(** [icm_read_dev] *)
Definition icm_read_dev (dev : icm42688_dev_s) (len : Z)
    : M W (Z * option icm42688_sample_s) :=
  icm_read_oneshot dev len.

(** The accel norm of the probe in [ICM_IOCTL_GET_SCALES]. *)
Definition probe_norm (s : icm42688_sample_s) (scale0 : Z) : F :=
  let ax := (of_int (accel_x s) / of_int scale0)%flt in
  let ay := (of_int (accel_y s) / of_int scale0)%flt in
  let az := (of_int (accel_z s) / of_int scale0)%flt in
  fsqrt (ax * ax + ay * ay + az * az)%flt.

(** The two branches on [an] that close the probe. *)
Definition probe_adjust (an : F) (scale0 : Z) : Z :=
  if fgtb an (dec 17 10) && (an <? dec 22 10)%flt && (scale0 <? 65536)
  then Int.to_uint32 (scale0 * 2)
  else if fgtb an (dec 45 100) && (an <? dec 65 100)%flt && (512 <? scale0)
  then scale0 / 2
  else scale0.

(** The [do { ... } while (0)] block of [ICM_IOCTL_GET_SCALES]: the value
    of [scales[0]] when the block is left. *)
Definition scales_probe (dev : icm42688_dev_s) (scale0 : Z) : M W Z :=
  '(r, raw) <- icm_i2c_read dev ICM_REG_ACCEL_DATA_X1 ICM_BURST_READ_LEN ;;
  if negb (r =? OK) then ret scale0 else
  let '(pret, s) := icm_parse_sample raw ICM_BURST_READ_LEN sample_zero in
  if negb (pret =? OK) then ret scale0 else
  ret (probe_adjust (probe_norm s scale0) scale0).

(** [icm_ioctl_dev]; [arg_null] says whether [arg] is the NULL pointer. *)
Definition icm_ioctl_dev (dev : icm42688_dev_s) (cmd : Z) (arg_null : bool)
    : M W (Z * ioctl_out) :=
  if cmd =? ICM_IOCTL_GET_SAMPLE then
    if arg_null then ret (- EINVAL, OutNone) else
    '(n, s) <- icm_read_oneshot dev sizeof_sample ;;
    if n <? 0 then ret (n, OutNone) else
    ret (OK, match s with Some s => OutSample s | None => OutNone end)
  else if cmd =? ICM_IOCTL_GET_SCALES then
    if arg_null then ret (- EINVAL, OutNone) else
    '(ret1, acc) <- icm_i2c_read dev ICM_REG_ACCEL_CONFIG0 1 ;;
    '(ret2, gyr) <- icm_i2c_read dev ICM_REG_GYRO_CONFIG0 1 ;;
    if ret1 <? 0 then ret (ret1, OutNone) else
    if ret2 <? 0 then ret (ret2, OutNone) else
    let acc_fs_sel := fs_sel_of (Int.at_ acc 0) in
    let gyr_fs_sel := fs_sel_of (Int.at_ gyr 0) in
    let scales0 := accel_scale_of_sel acc_fs_sel in
    let scales1 := gyro_scale_of_sel gyr_fs_sel in
    scales0' <- scales_probe dev scales0 ;;
    ret (OK, OutScales scales0' scales1)
  else if cmd =? ICM_IOCTL_GET_ACCEL_FS then
    if arg_null then ret (- EINVAL, OutNone) else
    '(r, v) <- icm_i2c_read dev ICM_REG_ACCEL_CONFIG0 1 ;;
    if r <? 0 then ret (r, OutNone) else
    ret (OK, OutInt (fs_sel_of (Int.at_ v 0)))
  else if cmd =? ICM_IOCTL_GET_GYRO_FS then
    if arg_null then ret (- EINVAL, OutNone) else
    '(r, v) <- icm_i2c_read dev ICM_REG_GYRO_CONFIG0 1 ;;
    if r <? 0 then ret (r, OutNone) else
    ret (OK, OutInt (fs_sel_of (Int.at_ v 0)))
  else if cmd =? ICM_IOCTL_GET_ACCEL_CONFIG0_RAW then
    if arg_null then ret (- EINVAL, OutNone) else
    '(r, v) <- icm_i2c_read dev ICM_REG_ACCEL_CONFIG0 1 ;;
    if r <? 0 then ret (r, OutNone) else
    ret (OK, OutByte (Int.at_ v 0))
  else if cmd =? ICM_IOCTL_GET_GYRO_CONFIG0_RAW then
    if arg_null then ret (- EINVAL, OutNone) else
    '(r, v) <- icm_i2c_read dev ICM_REG_GYRO_CONFIG0 1 ;;
    if r <? 0 then ret (r, OutNone) else
    ret (OK, OutByte (Int.at_ v 0))
  else ret (- ENOTTY, OutNone).

(** The device with its address replaced, [dev->i2c_addr = alt]. *)
Definition with_addr (dev : icm42688_dev_s) (alt : Z) : icm42688_dev_s :=
  {| i2c := i2c dev; i2c_freq := i2c_freq dev; i2c_addr := alt;
     buf := buf dev; bufpos := bufpos dev |}.

(** The first part of [icm42688_register] after the allocation: reset and
    identity check, with the second attempt at the alternate address.  The
    result code and the device as it ends up. *)
Definition identify (dev : icm42688_dev_s) : M W (Z * icm42688_dev_s) :=
  r <- icm_reset dev ;;
  if r <? 0 then ret (r, dev) else
  r <- icm_check_whoami dev ;;
  if r <? 0 then
    let alt := if i2c_addr dev =? 0x68 then 0x69 else 0x68 in
    let dev := with_addr dev alt in
    r <- icm_reset dev ;;
    if r <? 0 then ret (r, dev) else
    r <- icm_check_whoami dev ;;
    ret (r, dev)
  else ret (r, dev).

(** The bring-up sequence of [icm42688_register] from [icm_reset] to
    [register_driver]; every negative code is a [goto fail]. *)
Definition bring_up (dev : icm42688_dev_s) : M W (Z * icm42688_dev_s) :=
  '(r, dev) <- identify dev ;;
  if r <? 0 then ret (r, dev) else
  r <- icm_configure_default dev ;;
  if r <? 0 then ret (r, dev) else
  r <- register_driver dev ;;
  ret (r, dev).

(** [icm42688_register]; [cfg = None] is the NULL configuration.  The
    device is [Some] exactly when the node was registered with it; on the
    [fail] path it has been freed. *)
Definition icm42688_register (cfg : option icm42688_config_s)
    : M W (Z * option icm42688_dev_s) :=
  match cfg with
  | None => ret (- EINVAL, None)
  | Some cfg =>
      match cfg_i2c cfg with
      | None => ret (- EINVAL, None)
      | Some master =>
          ok <- kmm_malloc ;;
          if negb ok then ret (- ENOMEM, None) else
          let dev := {| i2c := master;
                        i2c_freq := if cfg_freq cfg =? 0 then 400000
                                    else cfg_freq cfg;
                        i2c_addr := cfg_addr cfg;
                        buf := sample_zero; bufpos := 0 |} in
          '(r, dev) <- bring_up dev ;;
          if r <? 0 then ret (r, None) else ret (OK, Some dev)
      end
  end.

End Driver.

(* ===================================================================== *)
(** * 6. The acquisition loop, [icm42688_test_main] *)
(* ===================================================================== *)

(** Six per-axis values in the order accel x, y, z, gyro x, y, z: the
    groups [ax_g .. gz_dps], [ax_bias .. gz_bias] and [fax .. fgz]. *)
Record axes (F : Type) : Type := {
  a_x : F; a_y : F; a_z : F;
  g_x : F; g_y : F; g_z : F
}.
Arguments a_x {F} _.
Arguments a_y {F} _.
Arguments a_z {F} _.
Arguments g_x {F} _.
Arguments g_y {F} _.
Arguments g_z {F} _.

Definition axes_map2 {F : Type} (f : F -> F -> F) (u v : axes F) : axes F :=
  {| a_x := f (a_x u) (a_x v); a_y := f (a_y u) (a_y v);
     a_z := f (a_z u) (a_z v); g_x := f (g_x u) (g_x v);
     g_y := f (g_y u) (g_y v); g_z := f (g_z u) (g_z v) |}.

(** The accel scale and the state of its sanity correction. *)
Record sanity (F : Type) : Type := {
  accel_lsb_per_g : F;
  accel_scale_sanity_fixed : bool;
  anorm_high_cnt : Z;
  anorm_low_cnt : Z
}.
Arguments accel_lsb_per_g {F} _.
Arguments accel_scale_sanity_fixed {F} _.
Arguments anorm_high_cnt {F} _.
Arguments anorm_low_cnt {F} _.

(** A line the loop writes to standard output: the [[IOCTL] scales] line
    with the two scales, the [[SANITY]] line with the old and the new accel
    scale, the norm and the raw accel configuration byte, and the periodic
    line with the six filtered values. *)
Inductive line (F : Type) : Type :=
| LineScales : F -> F -> line F
| LineSanity : F -> F -> F -> byte -> line F
| LineData : axes F -> line F.
Arguments LineScales {F} _ _.
Arguments LineSanity {F} _ _ _ _.
Arguments LineData {F} _.

(** Whether a line is one of the periodic lines. *)
Definition is_data {F : Type} (l : line F) : bool :=
  match l with
  | LineData _ => true
  | _ => false
  end.

(** The local variables of [icm42688_test_main] that live across loop
    iterations; [stdout] collects the lines written to standard output
    since the loop was entered. *)
Record app_state (F : Type) : Type := {
  first : bool;
  fs_ready : bool;
  gyro_lsb_per_dps : F;
  scale : sanity F;
  bias : axes F;
  filt_init : bool;
  filt : axes F;
  print_count : Z;
  stdout : list (line F)
}.
Arguments first {F} _.
Arguments fs_ready {F} _.
Arguments gyro_lsb_per_dps {F} _.
Arguments scale {F} _.
Arguments bias {F} _.
Arguments filt_init {F} _.
Arguments filt {F} _.
Arguments print_count {F} _.
Arguments stdout {F} _.

(** The values one frame yields on its way to the stability test:
    [ax_g .. gz_dps], [gyro_abs_max] and [anorm] as they stand when
    [stable] is computed, with the correction state and whether this frame
    corrected the scale. *)
Record measurement (F : Type) : Type := {
  m_scale : sanity F;
  m_val : axes F;
  m_gyro_abs_max : F;
  m_anorm : F;
  m_corrected : bool
}.
Arguments m_scale {F} _.
Arguments m_val {F} _.
Arguments m_gyro_abs_max {F} _.
Arguments m_anorm {F} _.
Arguments m_corrected {F} _.

Section Pipeline.
Context {F : Type} `{FloatOps F}.
Local Open Scope flt_scope.

Definition beta_bias : F := dec 5 1000.
Definition gyro_stable_dps : F := of_int 1.
Definition accel_norm_tolerance_g : F := dec 2 100.
Definition alpha : F := dec 15 100.
Definition anorm_trigger_frames : Z := 5.
Definition print_every_n : Z := 10.

Definition zero_axes : axes F :=
  {| a_x := of_int 0; a_y := of_int 0; a_z := of_int 0;
     g_x := of_int 0; g_y := of_int 0; g_z := of_int 0 |}.

(** The state on entry to [while (1)]. *)
Definition app_init : app_state F :=
  {| first := true;
     fs_ready := false;
     gyro_lsb_per_dps := dec 164 10;
     scale := {| accel_lsb_per_g := of_int 2048;
                 accel_scale_sanity_fixed := false;
                 anorm_high_cnt := 0;
                 anorm_low_cnt := 0 |};
     bias := zero_axes;
     filt_init := false;
     filt := zero_axes;
     print_count := 0;
     stdout := [] |}.

(** [sqrtf(ax_g * ax_g + ay_g * ay_g + az_g * az_g)] *)
Definition norm3 (ax ay az : F) : F :=
  fsqrt (ax * ax + ay * ay + az * az).

(** [ax_g], [ay_g], [az_g]: raw accel counts over the accel scale. *)
Definition accel_g (s : icm42688_sample_s) (lsb_per_g : F) : F * F * F :=
  (of_int (accel_x s) / lsb_per_g,
   of_int (accel_y s) / lsb_per_g,
   of_int (accel_z s) / lsb_per_g).

(** [anorm] of a frame at the accel scale [lsb_per_g]. *)
Definition anorm_at (lsb_per_g : F) (s : icm42688_sample_s) : F :=
  let '(ax, ay, az) := accel_g s lsb_per_g in norm3 ax ay az.

(** [gx_dps], [gy_dps], [gz_dps] *)
Definition gyro_dps (s : icm42688_sample_s) (lsb_per_dps : F) : F * F * F :=
  (of_int (gyro_x s) / lsb_per_dps,
   of_int (gyro_y s) / lsb_per_dps,
   of_int (gyro_z s) / lsb_per_dps).

(** [gyro_abs_max] after its three conditional updates. *)
Definition gyro_abs_max (gx gy gz : F) : F :=
  let m := of_int 0 in
  let m := if m <? fabs gx then fabs gx else m in
  let m := if m <? fabs gy then fabs gy else m in
  let m := if m <? fabs gz then fabs gz else m in
  m.

Definition in_high_band (anorm : F) : bool :=
  fgtb anorm (dec 17 10) && (anorm <? dec 23 10).

Definition in_low_band (anorm : F) : bool :=
  fgtb anorm (dec 45 100) && (anorm <? dec 65 100).

(** The [if / else if / else] on [anorm] that corrects the accel scale:
    the new correction state, the g-values and norm as they stand after
    it, and whether a branch corrected the scale (and then issued the
    diagnostic ioctl).  Counters are C [int]s that the loop would have to
    run for 2^31 frames to overflow; they are unbounded here. *)
Definition sanity_check (ready : bool) (sn : sanity F)
    (s : icm42688_sample_s) (g : F * F * F) (anorm : F)
    : sanity F * (F * F * F) * F * bool :=
  if ready && negb (accel_scale_sanity_fixed sn) && in_high_band anorm then
    let high := (anorm_high_cnt sn + 1)%Z in
    if (anorm_trigger_frames <=? high)%Z
       && (accel_lsb_per_g sn <? of_int 65536) then
      let lsb := accel_lsb_per_g sn * of_int 2 in
      let '(ax, ay, az) := accel_g s lsb in
      ({| accel_lsb_per_g := lsb;
          accel_scale_sanity_fixed := true;
          anorm_high_cnt := 0;
          anorm_low_cnt := 0 |}, (ax, ay, az), norm3 ax ay az, true)
    else
      ({| accel_lsb_per_g := accel_lsb_per_g sn;
          accel_scale_sanity_fixed := accel_scale_sanity_fixed sn;
          anorm_high_cnt := high;
          anorm_low_cnt := anorm_low_cnt sn |}, g, anorm, false)
  else if ready && negb (accel_scale_sanity_fixed sn) && in_low_band anorm then
    let low := (anorm_low_cnt sn + 1)%Z in
    if (anorm_trigger_frames <=? low)%Z
       && fgtb (accel_lsb_per_g sn) (of_int 512) then
      let lsb := accel_lsb_per_g sn * dec 1 2 in
      let '(ax, ay, az) := accel_g s lsb in
      ({| accel_lsb_per_g := lsb;
          accel_scale_sanity_fixed := true;
          anorm_high_cnt := 0;
          anorm_low_cnt := 0 |}, (ax, ay, az), norm3 ax ay az, true)
    else
      ({| accel_lsb_per_g := accel_lsb_per_g sn;
          accel_scale_sanity_fixed := accel_scale_sanity_fixed sn;
          anorm_high_cnt := anorm_high_cnt sn;
          anorm_low_cnt := low |}, g, anorm, false)
  else
    let high := if (anorm <=? dec 17 10) || fgeb anorm (dec 23 10)
                then 0%Z else anorm_high_cnt sn in
    let low := if (anorm <=? dec 45 100) || fgeb anorm (dec 65 100)
               then 0%Z else anorm_low_cnt sn in
    ({| accel_lsb_per_g := accel_lsb_per_g sn;
        accel_scale_sanity_fixed := accel_scale_sanity_fixed sn;
        anorm_high_cnt := high;
        anorm_low_cnt := low |}, g, anorm, false).

(** [stable] *)
Definition is_stable (gyro_max anorm : F) : bool :=
  (gyro_max <? gyro_stable_dps)
  && (fabs (anorm - of_int 1) <? accel_norm_tolerance_g).

(** One bias accumulator: [(1.0f - beta_bias) * bias + beta_bias * value]. *)
Definition ema (b v : F) : F := (of_int 1 - beta_bias) * b + beta_bias * v.

(** The [if (stable)] block. *)
Definition bias_update (stable : bool) (b val : axes F) : axes F :=
  if stable then
    {| a_x := ema (a_x b) (a_x val); a_y := ema (a_y b) (a_y val);
       a_z := ema (a_z b) (a_z val); g_x := ema (g_x b) (g_x val);
       g_y := ema (g_y b) (g_y val); g_z := ema (g_z b) (g_z val) |}
  else b.

(** [ax_g -= ax_bias; ... gz_dps -= gz_bias;] *)
Definition remove_bias (val b : axes F) : axes F :=
  {| a_x := a_x val - a_x b; a_y := a_y val - a_y b; a_z := a_z val - a_z b;
     g_x := g_x val - g_x b; g_y := g_y val - g_y b; g_z := g_z val - g_z b |}.

(** One filter accumulator: [alpha * value + (1.0f - alpha) * filtered]. *)
Definition iir (v f : F) : F := alpha * v + (of_int 1 - alpha) * f.

(** The first-order IIR filter block: the new [filt_init] and [fax .. fgz]. *)
Definition lowpass (init : bool) (f val : axes F) : bool * axes F :=
  if negb init then (true, val)
  else
    (init,
     {| a_x := iir (a_x val) (a_x f); a_y := iir (a_y val) (a_y f);
        a_z := iir (a_z val) (a_z f); g_x := iir (g_x val) (g_x f);
        g_y := iir (g_y val) (g_y f); g_z := iir (g_z val) (g_z f) |}).

(** The sample as the stability test sees it: the g and dps values, the
    norm and the correction state after [sanity_check]. *)
Definition measured (st : app_state F) (s : icm42688_sample_s)
    : measurement F :=
  let '(ax_g, ay_g, az_g) := accel_g s (accel_lsb_per_g (scale st)) in
  let '(gx_dps, gy_dps, gz_dps) := gyro_dps s (gyro_lsb_per_dps st) in
  let gmax := gyro_abs_max gx_dps gy_dps gz_dps in
  let anorm := norm3 ax_g ay_g az_g in
  let '(sn, (ax_g, ay_g, az_g), anorm, corrected) :=
    sanity_check (fs_ready st) (scale st) s (ax_g, ay_g, az_g) anorm in
  {| m_scale := sn;
     m_val := {| a_x := ax_g; a_y := ay_g; a_z := az_g;
                 g_x := gx_dps; g_y := gy_dps; g_z := gz_dps |};
     m_gyro_abs_max := gmax;
     m_anorm := anorm;
     m_corrected := corrected |}.

(** The loop body from the unit conversion to the print counter, for a
    frame that passed the first-frame and scale gates; also whether the
    scale was corrected and whether the periodic line was printed.
    [acc_raw] is the local of that name as it stands when the [[SANITY]]
    line is printed, after the diagnostic ioctl of a correcting frame. *)
Definition process_with (acc_raw : byte) (st : app_state F)
    (s : icm42688_sample_s) : app_state F * bool * bool :=
  let m := measured st s in
  let sanity_line :=
    if m_corrected m
    then [LineSanity (accel_lsb_per_g (scale st))
            (accel_lsb_per_g (m_scale m)) (m_anorm m) acc_raw]
    else [] in
  let stable := is_stable (m_gyro_abs_max m) (m_anorm m) in
  let b := bias_update stable (bias st) (m_val m) in
  let val := remove_bias (m_val m) b in
  let '(init, f) := lowpass (filt_init st) (filt st) val in
  let count := (print_count st + 1)%Z in
  let printed := (print_every_n <=? count)%Z in
  ({| first := first st;
      fs_ready := fs_ready st;
      gyro_lsb_per_dps := gyro_lsb_per_dps st;
      scale := m_scale m;
      bias := b;
      filt_init := init;
      filt := f;
      print_count := if printed then 0%Z else count;
      stdout := (stdout st ++ sanity_line)
                ++ (if printed then [LineData f] else []) |},
   m_corrected m, printed).

(** The same with [acc_raw] at its initialiser, as it stands when the
    diagnostic ioctl does not write it. *)
Definition process_sample (st : app_state F) (s : icm42688_sample_s)
    : app_state F * bool * bool :=
  process_with x00 st s.

End Pipeline.

Section Loop.
Context {W : Type} `{World W} {F : Type} `{FloatOps F}.
Local Open Scope io_scope.

(** The assignments and the [printf] after a successful
    [ioctl(fd, 0x1301, ...)]. *)
Definition with_scales (st : app_state F) (scales0 scales1 : Z)
    : app_state F :=
  {| first := first st;
     fs_ready := true;
     gyro_lsb_per_dps := (of_int scales1 / of_int 10)%flt;
     scale := {| accel_lsb_per_g := of_int scales0;
                 accel_scale_sanity_fixed :=
                   accel_scale_sanity_fixed (scale st);
                 anorm_high_cnt := anorm_high_cnt (scale st);
                 anorm_low_cnt := anorm_low_cnt (scale st) |};
     bias := bias st;
     filt_init := filt_init st;
     filt := filt st;
     print_count := print_count st;
     stdout := stdout st
               ++ [LineScales (of_int scales0)
                     (of_int scales1 / of_int 10)%flt] |}.

Definition clear_first (st : app_state F) : app_state F :=
  {| first := false;
     fs_ready := fs_ready st;
     gyro_lsb_per_dps := gyro_lsb_per_dps st;
     scale := scale st;
     bias := bias st;
     filt_init := filt_init st;
     filt := filt st;
     print_count := print_count st;
     stdout := stdout st |}.

(** The first-time fetch of the scales: whether the iteration goes on, and
    the state it goes on with. *)
Definition fetch_scales (dev : icm42688_dev_s) (st : app_state F)
    : M W (bool * app_state F) :=
  if negb (fs_ready st) then
    '(r, out) <- icm_ioctl_dev dev ICM_IOCTL_GET_SCALES false ;;
    match r =? 0, out with
    | true, OutScales scales0 scales1 =>
        ret (true, with_scales st scales0 scales1)
    | _, _ => usleep 100000 ;;; ret (false, st)
    end
  else ret (true, st).

(** The diagnostic ioctl of a correcting frame: [acc_raw] after
    [(void)ioctl(fd, 0x1201, &acc_raw)], which writes it only when it
    succeeds. *)
Definition fetch_acc_raw (dev : icm42688_dev_s) : M W byte :=
  '(_, out) <- icm_ioctl_dev dev ICM_IOCTL_GET_ACCEL_CONFIG0_RAW false ;;
  ret (match out with OutByte v => v | _ => x00 end).

(** One iteration of [while (1)]; [read] and [ioctl] on the device node
    reach [icm_read_dev] and [icm_ioctl_dev]. *)
Definition loop_body (dev : icm42688_dev_s) (st : app_state F)
    : M W (app_state F) :=
  '(n, s) <- icm_read_dev dev sizeof_sample ;;
  match n =? sizeof_sample, s with
  | true, Some s =>
      if first st then usleep 10000 ;;; ret (clear_first st)
      else
        '(go, st) <- fetch_scales dev st ;;
        if negb go then ret st else
        if negb (fs_ready st) then usleep 100000 ;;; ret st else
        acc_raw <- (if m_corrected (measured st s) then fetch_acc_raw dev
                    else ret x00) ;;
        let '(st', _, printed) := process_with acc_raw st s in
        (if printed then usleep 2000 else ret tt) ;;;
        usleep 100000 ;;;
        ret st'
  | _, _ => usleep 10000 ;;; usleep 100000 ;;; ret st
  end.

(** [n] iterations of the loop. *)
Fixpoint run_loop (n : nat) (dev : icm42688_dev_s) (st : app_state F)
    : M W (app_state F) :=
  match n with
  | O => ret st
  | S n' => st' <- loop_body dev st ;; run_loop n' dev st'
  end.

End Loop.

(** Accepted frames fed to the processing stage one after the other. *)
Definition run_samples {F : Type} `{FloatOps F} (st : app_state F)
    (frames : list icm42688_sample_s) : app_state F :=
  fold_left (fun st s => fst (fst (process_sample st s))) frames st.

(** The states of the correction that [sanity_check] keeps within: both
    counters below the trigger; at zero when the latch is set; and a scale
    that the two guards accept while it is not. *)
Definition counters_ok {F : Type} `{FloatOps F} (sn : sanity F) : Prop :=
  0 <= anorm_high_cnt sn < 5 /\ 0 <= anorm_low_cnt sn < 5 /\
  (accel_scale_sanity_fixed sn = true ->
   anorm_high_cnt sn = 0 /\ anorm_low_cnt sn = 0) /\
  (accel_scale_sanity_fixed sn = false ->
   (accel_lsb_per_g sn <? of_int 65536)%flt = true /\
   fgtb (accel_lsb_per_g sn) (of_int 512) = true).



(* ===================================================================== *)
(** * 7. Exact arithmetic *)
(* ===================================================================== *)

(** The same operations on the real numbers, without rounding. *)
Module Exact.
#[global] Instance ops : FloatOps R := {|
  fadd := Rplus;
  fsub := Rminus;
  fmul := Rmult;
  fdiv := Rdiv;
  fsqrt := sqrt;
  fabs := Rabs;
  fltb := fun a b => if Rlt_dec a b then true else false;
  fleb := fun a b => if Rle_dec a b then true else false;
  of_int := IZR
|}.
End Exact.

(* ===================================================================== *)
(** * 8. A simulated chip on the bus *)
(* ===================================================================== *)

Module Sim.

Definition ETIMEDOUT : Z := 110.

(** A chip answering at [chip_addr].  The first [whoami_wrong] identity
    reads return a wrong byte; transfers naming a register in [nack] fail;
    each FIFO read takes the next frame of [fifo]. *)
Record chip : Type := {
  chip_addr : Z;
  whoami_wrong : nat;
  nack : list byte;
  accel_config0 : byte;
  gyro_config0 : byte;
  data_regs : list byte;
  fifo : list (list byte);
  trace : list (Z * byte * i2c_flag)
}.

Definition mem (r : byte) (l : list byte) : bool := existsb (Byte.eqb r) l.

Definition logged (c : chip) (a : Z) (r : byte) (k : i2c_flag) : chip :=
  {| chip_addr := chip_addr c; whoami_wrong := whoami_wrong c;
     nack := nack c; accel_config0 := accel_config0 c;
     gyro_config0 := gyro_config0 c; data_regs := data_regs c;
     fifo := fifo c; trace := trace c ++ [(a, r, k)] |}.

Definition answered (c : chip) : chip :=
  {| chip_addr := chip_addr c; whoami_wrong := pred (whoami_wrong c);
     nack := nack c; accel_config0 := accel_config0 c;
     gyro_config0 := gyro_config0 c; data_regs := data_regs c;
     fifo := fifo c; trace := trace c |}.

Definition popped (c : chip) : chip :=
  {| chip_addr := chip_addr c; whoami_wrong := whoami_wrong c;
     nack := nack c; accel_config0 := accel_config0 c;
     gyro_config0 := gyro_config0 c; data_regs := data_regs c;
     fifo := tl (fifo c); trace := trace c |}.

Definition read_reg (c : chip) (r : byte) : list byte * chip :=
  if Byte.eqb r ICM_REG_WHO_AM_I then
    match whoami_wrong c with
    | O => ([ICM_WHOAMI_EXPECTED], c)
    | S _ => ([x00], answered c)
    end
  else if Byte.eqb r ICM_REG_ACCEL_CONFIG0 then ([accel_config0 c], c)
  else if Byte.eqb r ICM_REG_GYRO_CONFIG0 then ([gyro_config0 c], c)
  else if Byte.eqb r ICM_REG_ACCEL_DATA_X1 then (data_regs c, c)
  else if Byte.eqb r ICM_REG_FIFO_DATA then (hd [] (fifo c), popped c)
  else ([], c).

Definition transfer (master : nat) (msgs : list i2c_msg_s) (c : chip)
    : (Z * list byte) * chip :=
  match msgs with
  | [m] =>
      match buffer m with
      | r :: _ =>
          let c := logged c (addr m) r (flags m) in
          if (addr m =? chip_addr c) && negb (mem r (nack c))
          then ((0, []), c) else ((- ETIMEDOUT, []), c)
      | [] => ((- EINVAL, []), c)
      end
  | [m0; m1] =>
      match buffer m0 with
      | r :: _ =>
          let c := logged c (addr m0) r (flags m1) in
          if (addr m0 =? chip_addr c) && negb (mem r (nack c))
          then let '(data, c) := read_reg c r in ((0, data), c)
          else ((- ETIMEDOUT, []), c)
      | [] => ((- EINVAL, []), c)
      end
  | _ => ((- EINVAL, []), c)
  end.

#[global] Instance world : World chip := {|
  I2C_TRANSFER := transfer;
  usleep := fun _ c => (tt, c);
  kmm_malloc := fun c => (true, c);
  register_driver := fun _ c => (0, c)
|}.

(** A chip at 0x68 in its reset configuration with nothing queued. *)
Definition idle : chip :=
  {| chip_addr := 0x68; whoami_wrong := 0; nack := [];
     accel_config0 := x66; gyro_config0 := x66;
     data_regs := repeat x00 12; fifo := []; trace := [] |}.

Definition cfg68 : icm42688_config_s :=
  {| cfg_i2c := Some 1%nat; cfg_addr := 0x68; cfg_freq := 400000 |}.

Definition dev68 : icm42688_dev_s :=
  {| i2c := 1; i2c_freq := 400000; i2c_addr := 0x68;
     buf := sample_zero; bufpos := 0 |}.

End Sim.

(* ===================================================================== *)
(** * 9. Scenarios *)
(* ===================================================================== *)

Module Scenario.
Import Sim.

(** A FIFO frame: status byte, accel words 4, -4, 16384, gyro words 258,
    -2, -32768, three trailing bytes. *)
Definition frame_c1 : list byte :=
  [x68; x00; x04; xff; xfc; x40; x00; x01; x02; xff; xfe; x80; x00;
   x19; x00; x00].

Definition chip_c1 : chip :=
  {| chip_addr := 0x68; whoami_wrong := 0; nack := [];
     accel_config0 := x66; gyro_config0 := x66;
     data_regs := repeat x00 12; fifo := [frame_c1]; trace := [] |}.

(** The same chip behind a bus that fails every FIFO read. *)
Definition chip_c2 : chip :=
  {| chip_addr := 0x68; whoami_wrong := 0; nack := [ICM_REG_FIFO_DATA];
     accel_config0 := x66; gyro_config0 := x66;
     data_regs := repeat x00 12; fifo := [frame_c1]; trace := [] |}.

(** A bus that fails both FIFO set-up writes. *)
Definition chip_c3_fifo : chip :=
  {| chip_addr := 0x68; whoami_wrong := 0;
     nack := [ICM_REG_FIFO_CONFIG_INIT; ICM_REG_FIFO_CONFIGURATION];
     accel_config0 := x66; gyro_config0 := x66;
     data_regs := repeat x00 12; fifo := []; trace := [] |}.

(** A bus that fails the gyro configuration write. *)
Definition chip_c3_gyro : chip :=
  {| chip_addr := 0x68; whoami_wrong := 0; nack := [ICM_REG_GYRO_CONFIG0];
     accel_config0 := x66; gyro_config0 := x66;
     data_regs := repeat x00 12; fifo := []; trace := [] |}.

(** Accel selector 1 (8192 counts per g) and a direct sample whose accel z
    word is 0x7ffe: 16383 counts after the shift, a norm just under 2 g. *)
Definition chip_c5_high : chip :=
  {| chip_addr := 0x68; whoami_wrong := 0; nack := [];
     accel_config0 := x16; gyro_config0 := x66;
     data_regs := [x00; x00; x00; x00; x7f; xfe; x00; x00; x00; x00; x00; x00];
     fifo := []; trace := [] |}.

(** The same with the accel z word 0x2000: 4096 counts, a norm of 0.5 g. *)
Definition chip_c5_low : chip :=
  {| chip_addr := 0x68; whoami_wrong := 0; nack := [];
     accel_config0 := x16; gyro_config0 := x66;
     data_regs := [x00; x00; x00; x00; x20; x00; x00; x00; x00; x00; x00; x00];
     fifo := []; trace := [] |}.

(** [chip_c5_high] behind a bus that fails the direct sample read. *)
Definition chip_c10 : chip :=
  {| chip_addr := 0x68; whoami_wrong := 0; nack := [ICM_REG_ACCEL_DATA_X1];
     accel_config0 := x16; gyro_config0 := x66;
     data_regs := [x00; x00; x00; x00; x7f; xfe; x00; x00; x00; x00; x00; x00];
     fifo := []; trace := [] |}.

(** A chip at 0x68 that answers the identity read wrongly 49 times. *)
Definition chip_c8 : chip :=
  {| chip_addr := 0x68; whoami_wrong := 49; nack := [];
     accel_config0 := x66; gyro_config0 := x66;
     data_regs := repeat x00 12; fifo := []; trace := [] |}.

(** A FIFO frame whose accel z word is [hi lo], all other words zero. *)
Definition frame_z (hi lo : byte) : list byte :=
  [x00; x00; x00; x00; x00; hi; lo; x00; x00; x00; x00; x00; x00;
   x00; x00; x00].

(** Accel selector 3 (2048 counts per g), a direct sample at 1 g, and a
    FIFO holding one frame for the cold-start discard, four frames at
    0.5 g (z word 0x1000, 1024 counts after both shifts), one frame at 2 g
    (z word 0x4000, 4096 counts) and one more frame at 0.5 g. *)
Definition chip_c6 : chip :=
  {| chip_addr := 0x68; whoami_wrong := 0; nack := [];
     accel_config0 := x36; gyro_config0 := x66;
     data_regs := [x00; x00; x00; x00; x10; x00; x00; x00; x00; x00; x00; x00];
     fifo := [frame_z x10 x00;
              frame_z x10 x00; frame_z x10 x00; frame_z x10 x00;
              frame_z x10 x00; frame_z x40 x00; frame_z x10 x00];
     trace := [] |}.

(** A bus that fails the reads of the accel configuration register. *)
Definition chip_c2_cfg : chip :=
  {| chip_addr := 0x68; whoami_wrong := 0; nack := [ICM_REG_ACCEL_CONFIG0];
     accel_config0 := x66; gyro_config0 := x66;
     data_regs := repeat x00 12; fifo := []; trace := [] |}.

(** Accel selector 1 (8192 counts per g) and a direct sample whose three
    accel words are 0x4666: 9011 counts after the shift, 1.1 g on each
    axis, a norm of 1.905 g that no single axis gives. *)
Definition chip_c5_xyz : chip :=
  {| chip_addr := 0x68; whoami_wrong := 0; nack := [];
     accel_config0 := x16; gyro_config0 := x66;
     data_regs := [x46; x66; x46; x66; x46; x66; x00; x00; x00; x00; x00; x00];
     fifo := []; trace := [] |}.

(** The configuration the driver itself programs (0x66, accel selector 2,
    16384 counts per g) and a direct sample at positive full scale on the
    three accel axes: 16383 counts after the shift, a norm of 1.732 g. *)
Definition chip_c4 : chip :=
  {| chip_addr := 0x68; whoami_wrong := 0; nack := [];
     accel_config0 := x66; gyro_config0 := x66;
     data_regs := [x7f; xff; x7f; xff; x7f; xff; x00; x00; x00; x00; x00; x00];
     fifo := []; trace := [] |}.

(** A FIFO frame with the accel words 0x1278 (1182 counts after both
    shifts) and the gyro words 8, -8 and 4. *)
Definition frame_c7 : list byte :=
  [x00; x12; x78; x12; x78; x12; x78; x00; x08; xff; xf8; x00; x04;
   x00; x00; x00].

(** Accel selector 3 (2048 counts per g), gyro selector 0 (16.4 counts per
    dps), a direct sample of zeros, and a FIFO of three such frames: a
    norm of 0.9996 g spread over the three axes, and rotation under
    0.5 dps. *)
Definition chip_c7 : chip :=
  {| chip_addr := 0x68; whoami_wrong := 0; nack := [];
     accel_config0 := x36; gyro_config0 := x06;
     data_regs := repeat x00 12;
     fifo := [frame_c7; frame_c7; frame_c7]; trace := [] |}.

End Scenario.

(* ===================================================================== *)
(** * 9a. The rest of the driver and of the application start-up *)
(* ===================================================================== *)

(** [dev->bufpos = p] *)
Definition with_bufpos (dev : icm42688_dev_s) (p : Z) : icm42688_dev_s :=
  {| i2c := i2c dev; i2c_freq := i2c_freq dev; i2c_addr := i2c_addr dev;
     buf := buf dev; bufpos := p |}.

(** [icm_open_dev] and [icm_close_dev] *)
Definition icm_open_dev (dev : icm42688_dev_s) : Z := OK.
Definition icm_close_dev (dev : icm42688_dev_s) : Z := OK.

(** [icm_open_f] and [icm_close_f]: the cursor is reset under the lock; the
    result code and the device afterwards. *)
Definition icm_open_f (dev : icm42688_dev_s) : Z * icm42688_dev_s :=
  (OK, with_bufpos dev 0).
Definition icm_close_f (dev : icm42688_dev_s) : Z * icm42688_dev_s :=
  (OK, with_bufpos dev 0).

(** [icm_write_f] and [icm_seek_f] *)
Definition icm_write_f (len : Z) : Z := len.
Definition icm_seek_f (offset whence : Z) : Z := 0.

Section FileOps.
Context {W : Type} `{World W} {F : Type} `{FloatOps F}.

(** [icm_read_f] *)
Definition icm_read_f (dev : icm42688_dev_s) (len : Z)
    : M W (Z * option icm42688_sample_s) :=
  icm_read_dev dev len.

(** [icm_ioctl_f] *)
Definition icm_ioctl_f (dev : icm42688_dev_s) (cmd : Z) (arg_null : bool)
    : M W (Z * ioctl_out) :=
  icm_ioctl_dev dev cmd arg_null.

End FileOps.

(** What the application start-up calls besides the driver: the board's bus
    initialisation ([None] is the NULL master), [open] on the device node
    and the registry's removal of a node. *)
Class Board (W : Type) : Type := {
  rp23xx_i2cbus_initialize : Z -> W -> option nat * W;
  open_devpath : W -> Z * W;
  unregister_driver : W -> Z * W
}.

Section Startup.
Context {W : Type} `{World W} `{Board W}.
Local Open Scope io_scope.

(** [icm42688_unregister] *)
Definition icm42688_unregister : M W Z := unregister_driver.

(** The inner [for] loop of the auto-probe over the addresses still to
    try: the device registered, if any. *)
Fixpoint register_addrs (addrs : list Z) (master : nat)
    : M W (option icm42688_dev_s) :=
  match addrs with
  | [] => ret None
  | a :: rest =>
      '(r, d) <- icm42688_register
                   (Some {| cfg_i2c := Some master; cfg_addr := a;
                            cfg_freq := 400000 |}) ;;
      if r =? 0 then ret d else register_addrs rest master
  end.

(** The outer [for] loop over the ports still to try. *)
Fixpoint register_ports (ports : list Z) : M W (option icm42688_dev_s) :=
  match ports with
  | [] => ret None
  | p :: rest =>
      m <- rp23xx_i2cbus_initialize p ;;
      match m with
      | None => register_ports rest
      | Some master =>
          d <- register_addrs [0x68; 0x69] master ;;
          match d with
          | Some dev => ret (Some dev)
          | None => register_ports rest
          end
      end
  end.

Definition EXIT_FAILURE : Z := 1.

(** [icm42688_test_main] up to the entry of [while (1)]: the exit code when
    it returns before the loop, the registered device when it goes on. *)
Definition startup : M W (Z + icm42688_dev_s) :=
  d <- register_ports [1; 0] ;;
  match d with
  | None => ret (inl EXIT_FAILURE)
  | Some dev =>
      fd <- open_devpath ;;
      if fd <? 0 then ret (inl EXIT_FAILURE) else ret (inr dev)
  end.

End Startup.

(** One bias accumulator after [n] stable frames with the value [v]. *)
Fixpoint ema_n {F : Type} `{FloatOps F} (n : nat) (b v : F) : F :=
  match n with
  | O => b
  | S n' => ema_n n' (ema b v) v
  end.

(** A bus with two chips, each answering at its own address. *)
Module Twin.

Definition bus : Type := (Sim.chip * Sim.chip)%type.

Definition msg_addr (msgs : list i2c_msg_s) : Z :=
  match msgs with
  | m :: _ => addr m
  | [] => 0
  end.

Definition transfer (master : nat) (msgs : list i2c_msg_s) (b : bus)
    : (Z * list byte) * bus :=
  let '(c1, c2) := b in
  if msg_addr msgs =? Sim.chip_addr c2 then
    let '(r, c2') := Sim.transfer master msgs c2 in (r, (c1, c2'))
  else
    let '(r, c1') := Sim.transfer master msgs c1 in (r, (c1', c2)).

#[global] Instance world : World bus := {|
  I2C_TRANSFER := transfer;
  usleep := fun _ b => (tt, b);
  kmm_malloc := fun b => (true, b);
  register_driver := fun _ b => (0, b)
|}.

End Twin.

(** A board whose port 1 carries the bus and whose port 0 does not exist. *)
Module SimBoard.

#[global] Instance board : Board Sim.chip := {|
  rp23xx_i2cbus_initialize :=
    fun port c => (if port =? 1 then Some 1%nat else None, c);
  open_devpath := fun c => (3, c);
  unregister_driver := fun c => (0, c)
|}.

End SimBoard.

Module Cases.
Import Sim.

(** A chip strapped to the alternate address 0x69. *)
Definition chip_at_69 : chip :=
  {| chip_addr := 0x69; whoami_wrong := 0; nack := [];
     accel_config0 := x66; gyro_config0 := x66;
     data_regs := repeat x00 12; fifo := []; trace := [] |}.

(** Something at [a] that acknowledges every transfer and never gives the
    identity byte within 100 reads. *)
Definition stranger (a : Z) : chip :=
  {| chip_addr := a; whoami_wrong := 100; nack := [];
     accel_config0 := x00; gyro_config0 := x00;
     data_regs := repeat x00 12; fifo := []; trace := [] |}.

Definition dev69 : icm42688_dev_s :=
  {| i2c := 1; i2c_freq := 400000; i2c_addr := 0x69;
     buf := sample_zero; bufpos := 0 |}.

(** A bus with a foreign part at 0x68 and the chip at 0x69. *)
Definition bus_alt : Twin.bus := (stranger 0x68, chip_at_69).

(** A bus with foreign parts at both addresses. *)
Definition bus_none : Twin.bus := (stranger 0x68, stranger 0x69).

Definition at_rest : icm42688_sample_s :=
  {| accel_x := 0; accel_y := 0; accel_z := 2048;
     gyro_x := 0; gyro_y := 0; gyro_z := 0 |}.

(** A sample with 2 g on the z axis at 2048 counts per g. *)
Definition at_2g : icm42688_sample_s :=
  {| accel_x := 0; accel_y := 0; accel_z := 4096;
     gyro_x := 0; gyro_y := 0; gyro_z := 0 |}.

(** What [Scenario.frame_c7] decodes to: 0.577 g on each accel axis at
    2048 counts per g, and 8, -8 and 4 gyro counts. *)
Definition tilted : icm42688_sample_s :=
  {| accel_x := 1182; accel_y := 1182; accel_z := 1182;
     gyro_x := 8; gyro_y := -8; gyro_z := 4 |}.

(** A sample with 0.5 g on the z axis at 2048 counts per g. *)
Definition at_half_g : icm42688_sample_s :=
  {| accel_x := 0; accel_y := 0; accel_z := 1024;
     gyro_x := 0; gyro_y := 0; gyro_z := 0 |}.

End Cases.

(* ===================================================================== *)
(** * 9b. The LED utility, [led_control_main.c] *)
(* ===================================================================== *)

Module Led.
Import Stdlib.Strings.String.

Definition LED_CMD_ON : Z := 1.
Definition LED_CMD_OFF : Z := 2.
Definition LED_CMD_BLINK : Z := 3.
Definition LED_USER_LED : Z := 0.
Definition LED_BLINK_DEFAULT : Z := 500.

(** The file-scope variables [g_led_fd] and [g_led_initialized]. *)
Record globals : Type := {
  g_led_fd : Z;
  g_led_initialized : bool
}.

(** Their initialisers. *)
Definition boot : globals := {| g_led_fd := -1; g_led_initialized := false |}.

(** What the utility calls in the system: [open] on the LED device,
    [close], [ioctl] with [ULEDIOC_SETLED] (descriptor, [ul_led], [ul_on]),
    [select] on standard input with a zero timeout (its result and
    [FD_ISSET]), [read] of one character from standard input, [usleep],
    the value of [errno], and [atoi].  The text the utility prints is not
    part of the model. *)
Class System (W : Type) : Type := {
  open_leds : W -> Z * W;
  close : Z -> W -> Z * W;
  ioctl_setled : Z -> Z -> bool -> W -> Z * W;
  select_stdin : W -> (Z * bool) * W;
  read_stdin : W -> (Z * byte) * W;
  usleep : Z -> W -> unit * W;
  errno : W -> Z;
  atoi : String.string -> Z
}.

(** Conversion to [uint16_t]. *)
Definition to_uint16 (z : Z) : Z := z mod 65536.

(** How a call of [led_control_blink]'s loop body ends. *)
Inductive cycle : Type :=
| Stopped : cycle
| Failed : Z -> cycle
| Again : cycle.

Section Control.
Context {W : Type} `{System W}.
Local Open Scope io_scope.

Definition get_errno : M W Z := fun w => (errno w, w).

(** [check_for_input] *)
Definition check_for_input : M W bool :=
  '(r, isset) <- select_stdin ;;
  if (0 <? r) && isset then
    '(n, c) <- read_stdin ;;
    if 0 <? n then ret (Byte.eqb c x03) else ret false
  else ret false.

(** [led_control_init] *)
Definition led_control_init (g : globals) : M W (Z * globals) :=
  if g_led_initialized g then ret (OK, g) else
  fd <- open_leds ;;
  let g := {| g_led_fd := fd; g_led_initialized := g_led_initialized g |} in
  if fd <? 0 then e <- get_errno ;; ret (- e, g)
  else ret (OK, {| g_led_fd := fd; g_led_initialized := true |}).

(** [led_control_deinit] *)
Definition led_control_deinit (g : globals) : M W (Z * globals) :=
  (if 0 <=? g_led_fd g then close (g_led_fd g) ;;; ret tt else ret tt) ;;;
  ret (OK, {| g_led_fd := if 0 <=? g_led_fd g then -1 else g_led_fd g;
              g_led_initialized := false |}).

(** The common head of [led_control_set] and [led_control_blink]:
    initialise if need be and test the descriptor; [inl] is the code the
    function returns at once. *)
Definition ensure_open (g : globals) : M W ((Z + unit) * globals) :=
  '(r, g) <- (if negb (g_led_initialized g) then led_control_init g
              else ret (OK, g)) ;;
  if r <? 0 then ret (inl r, g) else
  if g_led_fd g <? 0 then ret (inl (- ENODEV), g) else
  ret (inr tt, g).

(** [led_control_set] *)
Definition led_control_set (g : globals) (led_id : Z) (state : bool)
    : M W (Z * globals) :=
  '(e, g) <- ensure_open g ;;
  match e with
  | inl r => ret (r, g)
  | inr _ =>
      r <- ioctl_setled (g_led_fd g) led_id (negb state) ;;
      if r <? 0 then e <- get_errno ;; ret (- e, g) else ret (OK, g)
  end.

(** The number of rounds of [for (int i = 0; i < period; i += 50)]. *)
Definition polls (period : Z) : nat := Z.to_nat ((period + 49) / 50).

(** That loop: poll the input, sleep 50 ms; [true] is the [goto
    stop_blink]. *)
Fixpoint wait_loop (n : nat) : M W bool :=
  match n with
  | O => ret false
  | S n' =>
      c <- check_for_input ;;
      if c then ret true else usleep 50000 ;;; wait_loop n'
  end.

(** One round of [while (1)] in [led_control_blink]. *)
Definition blink_cycle (g : globals) (led_id period : Z)
    : M W (cycle * globals) :=
  c <- check_for_input ;;
  if c then ret (Stopped, g) else
  '(r, g) <- led_control_set g led_id true ;;
  if r <? 0 then ret (Failed r, g) else
  c <- wait_loop (polls period) ;;
  if c then ret (Stopped, g) else
  '(r, g) <- led_control_set g led_id false ;;
  if r <? 0 then ret (Failed r, g) else
  c <- wait_loop (polls period) ;;
  if c then ret (Stopped, g) else ret (Again, g).

(** At most [fuel] rounds of the loop; [None] when it is still running. *)
Fixpoint blink_loop (fuel : nat) (g : globals) (led_id period : Z)
    : M W (option cycle * globals) :=
  match fuel with
  | O => ret (None, g)
  | S fuel' =>
      '(c, g) <- blink_cycle g led_id period ;;
      match c with
      | Again => blink_loop fuel' g led_id period
      | _ => ret (Some c, g)
      end
  end.

(** [led_control_blink]; [period] is a [uint16_t]. *)
Definition led_control_blink (fuel : nat) (g : globals) (led_id period : Z)
    : M W (option Z * globals) :=
  '(e, g) <- ensure_open g ;;
  match e with
  | inl r => ret (Some r, g)
  | inr _ =>
      '(c, g) <- blink_loop fuel g led_id period ;;
      match c with
      | None | Some Again => ret (None, g)
      | Some (Failed r) => ret (Some r, g)
      | Some Stopped =>
          '(_, g) <- led_control_set g led_id false ;;
          ret (Some OK, g)
      end
  end.

(** The command and the period [main] reads from its arguments; [None]
    for the two usage errors. *)
Definition parse_args (argv : list String.string) : option (Z * Z) :=
  match argv with
  | _ :: cmd :: rest =>
      if String.eqb cmd "on"%string then Some (LED_CMD_ON, LED_BLINK_DEFAULT)
      else if String.eqb cmd "off"%string then Some (LED_CMD_OFF, LED_BLINK_DEFAULT)
      else if String.eqb cmd "blink"%string then
        match rest with
        | p :: _ =>
            Some (LED_CMD_BLINK,
                  if atoi p <=? 0 then LED_BLINK_DEFAULT else atoi p)
        | [] => Some (LED_CMD_BLINK, LED_BLINK_DEFAULT)
        end
      else None
  | _ => None
  end.

(** [main]; the [int] period becomes the [uint16_t] parameter of
    [led_control_blink]. *)
Definition main (fuel : nat) (argv : list String.string) (g : globals)
    : M W (option Z * globals) :=
  match parse_args argv with
  | None => ret (Some (-1), g)
  | Some (command, period) =>
      '(r, g) <- led_control_init g ;;
      if r <? 0 then ret (Some r, g) else
      '(r, g) <- (if command =? LED_CMD_ON then
                    '(r, g) <- led_control_set g LED_USER_LED true ;;
                    ret (Some r, g)
                  else if command =? LED_CMD_OFF then
                    '(r, g) <- led_control_set g LED_USER_LED false ;;
                    ret (Some r, g)
                  else if command =? LED_CMD_BLINK then
                    led_control_blink fuel g LED_USER_LED (to_uint16 period)
                  else ret (Some (- EINVAL), g)) ;;
      match r with
      | None => ret (None, g)
      | Some r => '(_, g) <- led_control_deinit g ;; ret (Some r, g)
      end
  end.

End Control.

(** A simulated board: the keys that arrive on standard input, one entry
    per poll ([None] when nothing is there), whether the LED device exists
    and whether its ioctl succeeds, and the calls made so far. *)
Inductive event : Type :=
| EvOpen : Z -> event
| EvClose : Z -> event
| EvSetLed : Z -> Z -> bool -> event
| EvSleep : Z -> event.

Record sim : Type := {
  keys : list (option byte);
  has_leds : bool;
  ioctl_ok : bool;
  log : list event
}.

Definition logged (e : event) (s : sim) : sim :=
  {| keys := keys s; has_leds := has_leds s; ioctl_ok := ioctl_ok s;
     log := log s ++ [e] |}.

Definition with_keys (k : list (option byte)) (s : sim) : sim :=
  {| keys := k; has_leds := has_leds s; ioctl_ok := ioctl_ok s;
     log := log s |}.

(** Decimal digits read from the left, as far as they go. *)
Fixpoint digits (s : String.string) (acc : Z) : Z :=
  match s with
  | String.String c rest =>
      let d := Z.of_nat (Ascii.nat_of_ascii c) - 48 in
      if (0 <=? d) && (d <=? 9) then digits rest (10 * acc + d) else acc
  | String.EmptyString => acc
  end.

#[global] Instance sim_system : System sim := {|
  open_leds := fun s =>
    let fd := if has_leds s then 3 else -1 in (fd, logged (EvOpen fd) s);
  close := fun fd s => (0, logged (EvClose fd) s);
  ioctl_setled := fun fd led on s =>
    (if ioctl_ok s then 0 else -1, logged (EvSetLed fd led on) s);
  select_stdin := fun s =>
    match keys s with
    | None :: rest => ((0, false), with_keys rest s)
    | Some _ :: _ => ((1, true), s)
    | [] => ((0, false), s)
    end;
  read_stdin := fun s =>
    match keys s with
    | Some c :: rest => ((1, c), with_keys rest s)
    | _ => ((0, x00), s)
    end;
  usleep := fun us s => (tt, logged (EvSleep us) s);
  errno := fun s => if has_leds s then EIO else ENODEV;
  atoi := fun s => digits s 0
|}.

(** The board [s] after the keys down to [k] have been taken and the calls
    [more] have been made. *)
Definition later (s : sim) (k : list (option byte)) (more : list event)
    : sim :=
  {| keys := k; has_leds := has_leds s; ioctl_ok := ioctl_ok s;
     log := log s ++ more |}.

(** Whether a poll that finds the key [k] stops the blinking. *)
Definition is_stop (k : option byte) : bool :=
  match k with
  | Some c => Byte.eqb c x03
  | None => false
  end.

(** A board with the LED device and the given keys. *)
Definition board (k : list (option byte)) : sim :=
  {| keys := k; has_leds := true; ioctl_ok := true; log := [] |}.

End Led.

(* ===================================================================== *)
(** * 10. Integer lemmas *)
(* ===================================================================== *)

Lemma u8_range (b : byte) : 0 <= Int.u8 b < 256.
Proof.
  unfold Int.u8. pose proof (Byte.to_N_bounded b). lia.
Qed.

Lemma to_int16_range (z : Z) : Int.int16_range (Int.to_int16 z).
Proof.
  unfold Int.int16_range, Int.to_int16.
  pose proof (Z.mod_pos_bound (z + 32768) 65536 eq_refl). lia.
Qed.

Lemma to_int16_small (z : Z) : Int.int16_range z -> Int.to_int16 z = z.
Proof.
  unfold Int.int16_range, Int.to_int16. intros Hz.
  rewrite Z.mod_small by lia. lia.
Qed.

Lemma be16_range (hi lo : byte) : Int.int16_range (Int.be16 hi lo).
Proof. apply to_int16_range. Qed.

(** A byte moved up by eight bits shares no bit with a byte. *)
Lemma land_shifted_byte (hi lo : byte) :
  Z.land (Int.u8 hi * 256) (Int.u8 lo) = 0.
Proof.
  pose proof (u8_range lo) as Hlo.
  apply Z.bits_inj_0. intros n. rewrite Z.land_spec.
  destruct (Z.ltb_spec n 8) as [Hn | Hn].
  - destruct (Z.ltb_spec n 0) as [Hneg | Hpos].
    + rewrite Z.testbit_neg_r by lia. reflexivity.
    + change 256 with (2 ^ 8).
      rewrite Z.mul_pow2_bits_low by lia. reflexivity.
  - replace (Z.testbit (Int.u8 lo) n) with false; [apply andb_false_r|].
    symmetry. apply Z.bits_above_log2; [lia|].
    destruct (Z.eq_dec (Int.u8 lo) 0) as [-> | Hne]; [simpl; lia|].
    apply Z.log2_lt_pow2; [lia|].
    apply Z.lt_le_trans with (2 ^ 8); [simpl; lia|].
    apply Z.pow_le_mono_r; lia.
Qed.

(** [hi << 8 | lo] is the base-256 number [hi lo]. *)
Lemma lor_shiftl_8 (hi lo : byte) :
  Z.lor (Z.shiftl (Int.u8 hi) 8) (Int.u8 lo) = Int.u8 hi * 256 + Int.u8 lo.
Proof.
  rewrite Z.shiftl_mul_pow2 by lia. change (2 ^ 8) with 256.
  rewrite <- Z.lxor_lor by apply land_shifted_byte.
  symmetry. apply Z.add_nocarry_lxor, land_shifted_byte.
Qed.

(** The big-endian word as a number: [hi lo] in base 256, read as a
    two's-complement 16-bit value. *)
Lemma be16_value (hi lo : byte) :
  Int.be16 hi lo
  = if Int.u8 hi <? 128 then Int.u8 hi * 256 + Int.u8 lo
    else Int.u8 hi * 256 + Int.u8 lo - 65536.
Proof.
  unfold Int.be16, Int.to_int16. rewrite lor_shiftl_8.
  pose proof (u8_range hi) as Hhi. pose proof (u8_range lo) as Hlo.
  destruct (Z.ltb_spec (Int.u8 hi) 128) as [Hs | Hs].
  - rewrite Z.mod_small by lia. lia.
  - replace (Int.u8 hi * 256 + Int.u8 lo + 32768)
      with (Int.u8 hi * 256 + Int.u8 lo - 32768 + 1 * 65536) by lia.
    rewrite Z.mod_add by lia. rewrite Z.mod_small by lia. lia.
Qed.

(** The sign-preserving shift of an [int16_t] is its floored half. *)
Lemma asr1_half (x : Z) : Int.int16_range x -> Int.asr1 x = x / 2.
Proof.
  unfold Int.asr1. intros Hx.
  rewrite Z.shiftr_div_pow2 by lia. change (2 ^ 1) with 2.
  apply to_int16_small. unfold Int.int16_range in *.
  pose proof (Z.div_le_mono (-32768) x 2 eq_refl (proj1 Hx)).
  pose proof (Z.div_le_mono x 32767 2 eq_refl (proj2 Hx)).
  change (-32768 / 2) with (-16384) in *. change (32767 / 2) with 16383 in *.
  lia.
Qed.

Lemma asr1_range (x : Z) : Int.int16_range x -> Int.int16_range (Int.asr1 x).
Proof. intros _. apply to_int16_range. Qed.

(** Two of them in a row shift by two. *)
Lemma asr1_twice (x : Z) :
  Int.int16_range x -> Int.asr1 (Int.asr1 x) = Z.shiftr x 2.
Proof.
  intros Hx.
  rewrite (asr1_half (Int.asr1 x)) by (apply asr1_range; exact Hx).
  rewrite (asr1_half x Hx).
  rewrite Z.shiftr_div_pow2 by lia. change (2 ^ 2) with (2 * 2).
  rewrite Z.div_div by lia. reflexivity.
Qed.

(* ===================================================================== *)
(** * 11. The monad *)
(* ===================================================================== *)

Lemma bind_run {W A B : Type} (c : M W A) (k : A -> M W B) (w w' : W) (a : A) :
  c w = (a, w') -> bind c k w = k a w'.
Proof. intros Hc. unfold bind. rewrite Hc. reflexivity. Qed.

Lemma ret_run {W A : Type} (a : A) (w : W) : ret a w = (a, w).
Proof. reflexivity. Qed.

(** Rewriting one monadic step with a known result. *)
Ltac step_with H := rewrite (bind_run _ _ _ _ _ H); cbv beta iota.

(* ===================================================================== *)
(** * 12. Frame decoding on the FetchSample path *)
(* ===================================================================== *)

Section FifoPath.
Context {W : Type} `{World W}.

(** A failed bus read ends [icm_read_fifo_packet] with [-EIO]. *)
Lemma icm_read_fifo_packet_bus_error dev out w r fifo_buf w' :
  icm_i2c_read dev ICM_REG_FIFO_DATA ICM_FIFO_READ_LEN w = ((r, fifo_buf), w') ->
  r < 0 ->
  icm_read_fifo_packet dev out w = ((- EIO, out), w').
Proof.
  intros Hrd Hr. unfold icm_read_fifo_packet. step_with Hrd.
  apply Z.ltb_lt in Hr. rewrite Hr. reflexivity.
Qed.

(** A frame that arrived is decoded with both shifts applied to the accel
    words: each accel axis is the big-endian word shifted right by two,
    each gyro axis is the word itself. *)
Lemma icm_read_fifo_packet_decodes dev out w r fifo_buf w' :
  icm_i2c_read dev ICM_REG_FIFO_DATA ICM_FIFO_READ_LEN w = ((r, fifo_buf), w') ->
  0 <= r ->
  icm_read_fifo_packet dev out w =
    ((OK,
      {| accel_x := Z.shiftr (Int.be16 (Int.at_ fifo_buf 1) (Int.at_ fifo_buf 2)) 2;
         accel_y := Z.shiftr (Int.be16 (Int.at_ fifo_buf 3) (Int.at_ fifo_buf 4)) 2;
         accel_z := Z.shiftr (Int.be16 (Int.at_ fifo_buf 5) (Int.at_ fifo_buf 6)) 2;
         gyro_x := Int.be16 (Int.at_ fifo_buf 7) (Int.at_ fifo_buf 8);
         gyro_y := Int.be16 (Int.at_ fifo_buf 9) (Int.at_ fifo_buf 10);
         gyro_z := Int.be16 (Int.at_ fifo_buf 11) (Int.at_ fifo_buf 12) |}), w').
Proof.
  intros Hrd Hr. unfold icm_read_fifo_packet. step_with Hrd.
  apply Z.ltb_ge in Hr. rewrite Hr.
  unfold icm_parse_fifo_sample, shift_accel. simpl.
  rewrite !asr1_twice by apply be16_range. reflexivity.
Qed.

End FifoPath.

(** C1 (FetchSample decoding), evaluated on one frame.  The frame carries
    the accel words 4, -4 and 16384, whose halves are 2, -2 and 8192; the
    FetchSample path returns 1, -1 and 4096, because [icm_read_fifo_packet]
    shifts the accel axes once more after [icm_parse_fifo_sample] already
    did.  The gyro words 258, -2 and -32768 come back unchanged. *)
Theorem C1_fetch_sample_shifts_accel_twice :
  fst (icm_ioctl_dev (F := Binary32.float32) Sim.dev68
         ICM_IOCTL_GET_SAMPLE false Scenario.chip_c1)
  = (OK, OutSample {| accel_x := 1; accel_y := -1; accel_z := 4096;
                      gyro_x := 258; gyro_y := -2; gyro_z := -32768 |})
  /\ Z.shiftr (Int.be16 x00 x04) 1 = 2
  /\ Z.shiftr (Int.be16 xff xfc) 1 = -2
  /\ Z.shiftr (Int.be16 x40 x00) 1 = 8192.
Proof.
  split; [| repeat split; reflexivity].
  destruct (icm_i2c_read Sim.dev68 ICM_REG_FIFO_DATA ICM_FIFO_READ_LEN
              Scenario.chip_c1) as [[r fifo_buf] c'] eqn:Hrd.
  assert (Hr : r = 0 /\ fifo_buf = Scenario.frame_c1).
  { vm_compute in Hrd. inversion Hrd. split; reflexivity. }
  destruct Hr as [-> ->].
  pose proof (icm_read_fifo_packet_decodes Sim.dev68 sample_zero _ _ _ _ Hrd
                (Z.le_refl 0)) as Hpk.
  unfold icm_ioctl_dev, icm_read_oneshot.
  change (ICM_IOCTL_GET_SAMPLE =? ICM_IOCTL_GET_SAMPLE) with true.
  change (sizeof_sample <? sizeof_sample) with false.
  cbv iota. unfold bind at 1. unfold bind at 1. rewrite Hpk.
  reflexivity.
Qed.

(* ===================================================================== *)
(** * 13. Transport failures on the control interface *)
(* ===================================================================== *)

Section TransportErrors.
Context {W : Type} `{World W} {F : Type} `{FloatOps F}.

(** [icm_i2c_read] reports [OK] or the negative code of the transfer. *)
Lemma icm_i2c_read_code dev reg len w :
  let r := fst (fst (icm_i2c_read dev reg len w)) in r = OK \/ r < 0.
Proof.
  unfold icm_i2c_read, bind, ret.
  destruct (I2C_TRANSFER _ _ w) as [[r data] w']. simpl.
  destruct (Z.ltb_spec r 0); [right; assumption | left; reflexivity].
Qed.

(** A failed FIFO read leaves [icm_read_oneshot] with [-EAGAIN] and no
    sample. *)
Lemma icm_read_oneshot_bus_error dev w r fifo_buf w' :
  icm_i2c_read dev ICM_REG_FIFO_DATA ICM_FIFO_READ_LEN w = ((r, fifo_buf), w') ->
  r < 0 ->
  icm_read_oneshot dev sizeof_sample w = ((- EAGAIN, None), w').
Proof.
  intros Hrd Hr. unfold icm_read_oneshot.
  change (sizeof_sample <? sizeof_sample) with false. cbv iota.
  step_with (icm_read_fifo_packet_bus_error dev sample_zero w r fifo_buf w' Hrd Hr).
  reflexivity.
Qed.

(** The four single-register commands hand a failed read back unchanged. *)
Lemma ioctl_single_read_error dev cmd reg w r v w' :
  (cmd = ICM_IOCTL_GET_ACCEL_FS \/ cmd = ICM_IOCTL_GET_ACCEL_CONFIG0_RAW) /\
    reg = ICM_REG_ACCEL_CONFIG0 \/
  (cmd = ICM_IOCTL_GET_GYRO_FS \/ cmd = ICM_IOCTL_GET_GYRO_CONFIG0_RAW) /\
    reg = ICM_REG_GYRO_CONFIG0 ->
  icm_i2c_read dev reg 1 w = ((r, v), w') ->
  r < 0 ->
  icm_ioctl_dev dev cmd false w = ((r, OutNone), w').
Proof.
  intros Hcmd Hrd Hr. apply Z.ltb_lt in Hr.
  destruct Hcmd as [[[-> | ->] ->] | [[-> | ->] ->]];
    unfold icm_ioctl_dev; simpl; step_with Hrd; rewrite Hr; reflexivity.
Qed.

(** The scale command reads both configuration registers and hands back
    the first failure. *)
Lemma ioctl_scales_read_error dev w ret1 acc w1 ret2 gyr w2 :
  icm_i2c_read dev ICM_REG_ACCEL_CONFIG0 1 w = ((ret1, acc), w1) ->
  icm_i2c_read dev ICM_REG_GYRO_CONFIG0 1 w1 = ((ret2, gyr), w2) ->
  ret1 < 0 \/ ret2 < 0 ->
  icm_ioctl_dev dev ICM_IOCTL_GET_SCALES false w =
    ((if ret1 <? 0 then ret1 else ret2, OutNone), w2).
Proof.
  intros Hrd1 Hrd2 Hr. unfold icm_ioctl_dev. simpl.
  step_with Hrd1. step_with Hrd2.
  destruct (Z.ltb_spec ret1 0) as [H1 | H1]; [reflexivity|].
  destruct (Z.ltb_spec ret2 0) as [H2 | H2]; [reflexivity | lia].
Qed.

End TransportErrors.

(** C2, as the code has it.  A failed read of a configuration register is
    returned to the caller of the ioctl with the transfer's own negative
    code and nothing is written behind [arg]; a failed FIFO read makes
    fetch-one-sample (through [read] and through the ioctl) return the
    retryable [-EAGAIN], with no sample, zero or otherwise, handed out. *)
Theorem C2_transport_failure_results
    {W : Type} `{World W} {F : Type} `{FloatOps F}
    (dev : icm42688_dev_s) (w : W) :
  (forall r fifo_buf w',
      icm_i2c_read dev ICM_REG_FIFO_DATA ICM_FIFO_READ_LEN w
        = ((r, fifo_buf), w') ->
      r < 0 ->
      icm_read_dev dev sizeof_sample w = ((- EAGAIN, None), w') /\
      icm_ioctl_dev dev ICM_IOCTL_GET_SAMPLE false w
        = ((- EAGAIN, OutNone), w')) /\
  (forall cmd r v w',
      cmd = ICM_IOCTL_GET_ACCEL_FS \/ cmd = ICM_IOCTL_GET_ACCEL_CONFIG0_RAW ->
      icm_i2c_read dev ICM_REG_ACCEL_CONFIG0 1 w = ((r, v), w') ->
      r < 0 ->
      icm_ioctl_dev dev cmd false w = ((r, OutNone), w')) /\
  (forall cmd r v w',
      cmd = ICM_IOCTL_GET_GYRO_FS \/ cmd = ICM_IOCTL_GET_GYRO_CONFIG0_RAW ->
      icm_i2c_read dev ICM_REG_GYRO_CONFIG0 1 w = ((r, v), w') ->
      r < 0 ->
      icm_ioctl_dev dev cmd false w = ((r, OutNone), w')) /\
  (forall ret1 acc w1 ret2 gyr w2,
      icm_i2c_read dev ICM_REG_ACCEL_CONFIG0 1 w = ((ret1, acc), w1) ->
      icm_i2c_read dev ICM_REG_GYRO_CONFIG0 1 w1 = ((ret2, gyr), w2) ->
      ret1 < 0 \/ ret2 < 0 ->
      icm_ioctl_dev dev ICM_IOCTL_GET_SCALES false w
        = ((if ret1 <? 0 then ret1 else ret2, OutNone), w2)).
Proof.
  repeat split.
  - unfold icm_read_dev. eapply icm_read_oneshot_bus_error; eassumption.
  - unfold icm_ioctl_dev. simpl.
    step_with (icm_read_oneshot_bus_error dev w r fifo_buf w' H1 H2).
    reflexivity.
  - intros cmd r v w' Hcmd Hrd Hr.
    eapply ioctl_single_read_error; eauto.
  - intros cmd r v w' Hcmd Hrd Hr.
    eapply ioctl_single_read_error; eauto.
  - intros. eapply ioctl_scales_read_error; eassumption.
Qed.

(** The bus of [Scenario.chip_c2] fails the FIFO read with [-ETIMEDOUT];
    both fetch-one-sample entry points answer [-EAGAIN]. *)
Lemma C2_transport_failure_results_witness :
  icm_read_dev Sim.dev68 sizeof_sample Scenario.chip_c2
    = ((- EAGAIN, None),
       snd (icm_i2c_read Sim.dev68 ICM_REG_FIFO_DATA ICM_FIFO_READ_LEN
              Scenario.chip_c2)) /\
  icm_ioctl_dev (F := Binary32.float32) Sim.dev68 ICM_IOCTL_GET_SAMPLE false
      Scenario.chip_c2
    = ((- EAGAIN, OutNone),
       snd (icm_i2c_read Sim.dev68 ICM_REG_FIFO_DATA ICM_FIFO_READ_LEN
              Scenario.chip_c2)).
Proof.
  apply (proj1 (C2_transport_failure_results (F := Binary32.float32)
                  Sim.dev68 Scenario.chip_c2) (- Sim.ETIMEDOUT) (repeat x00 16)).
  - reflexivity.
  - unfold Sim.ETIMEDOUT. lia.
Defined.

(** C2 as stated fails for fetch-one-sample: the transfer fails with
    [-ETIMEDOUT], [icm_read_fifo_packet] turns that into [-EIO], and the
    caller of the ioctl is given [-EAGAIN], the code of the retryable
    result, which is neither. *)
Lemma C2_fetch_sample_hides_bus_error :
  fst (fst (icm_i2c_read Sim.dev68 ICM_REG_FIFO_DATA ICM_FIFO_READ_LEN
              Scenario.chip_c2)) = - Sim.ETIMEDOUT /\
  fst (fst (icm_read_fifo_packet Sim.dev68 sample_zero Scenario.chip_c2))
    = - EIO /\
  fst (icm_ioctl_dev (F := Binary32.float32) Sim.dev68 ICM_IOCTL_GET_SAMPLE
         false Scenario.chip_c2) = (- EAGAIN, OutNone) /\
  - EAGAIN <> - EIO /\ - EAGAIN <> - Sim.ETIMEDOUT.
Proof.
  repeat split; try reflexivity; unfold EAGAIN, EIO, Sim.ETIMEDOUT; lia.
Qed.

(* ===================================================================== *)
(** * 14. The Configure step of bring-up *)
(* ===================================================================== *)

Section Configure.
Context {W : Type} `{World W}.

(** [icm_i2c_write1] reports [OK] or the negative code of the transfer. *)
Lemma icm_i2c_write1_code dev reg val w :
  let r := fst (icm_i2c_write1 dev reg val w) in r = OK \/ r < 0.
Proof.
  unfold icm_i2c_write1, bind, ret.
  destruct (I2C_TRANSFER _ _ w) as [[r data] w']. simpl.
  destruct (Z.ltb_spec r 0); [right; assumption | left; reflexivity].
Qed.

(** The power-mode write fails: its code is the result, and the world is
    the one that write left. *)
Lemma configure_pwr_fails dev w r w1 :
  icm_i2c_write1 dev ICM_REG_PWR_MGMT0 ICM_PWR_LN_GYRO_ACCEL w = (r, w1) ->
  r < 0 ->
  icm_configure_default dev w = (r, w1).
Proof.
  intros H1 Hr. apply Z.ltb_lt in Hr.
  unfold icm_configure_default. step_with H1. rewrite Hr. reflexivity.
Qed.

Lemma configure_gyro_fails dev w r1 w1 r w2 :
  icm_i2c_write1 dev ICM_REG_PWR_MGMT0 ICM_PWR_LN_GYRO_ACCEL w = (r1, w1) ->
  0 <= r1 ->
  icm_i2c_write1 dev ICM_REG_GYRO_CONFIG0 x66 w1 = (r, w2) ->
  r < 0 ->
  icm_configure_default dev w = (r, w2).
Proof.
  intros H1 Hr1 H2 Hr. apply Z.ltb_ge in Hr1. apply Z.ltb_lt in Hr.
  unfold icm_configure_default. step_with H1. rewrite Hr1.
  step_with H2. rewrite Hr. reflexivity.
Qed.

Lemma configure_accel_fails dev w r1 w1 r2 w2 r w3 :
  icm_i2c_write1 dev ICM_REG_PWR_MGMT0 ICM_PWR_LN_GYRO_ACCEL w = (r1, w1) ->
  0 <= r1 ->
  icm_i2c_write1 dev ICM_REG_GYRO_CONFIG0 x66 w1 = (r2, w2) ->
  0 <= r2 ->
  icm_i2c_write1 dev ICM_REG_ACCEL_CONFIG0 x66 w2 = (r, w3) ->
  r < 0 ->
  icm_configure_default dev w = (r, w3).
Proof.
  intros H1 Hr1 H2 Hr2 H3 Hr.
  apply Z.ltb_ge in Hr1. apply Z.ltb_ge in Hr2. apply Z.ltb_lt in Hr.
  unfold icm_configure_default. step_with H1. rewrite Hr1.
  step_with H2. rewrite Hr2. step_with H3. rewrite Hr. reflexivity.
Qed.

(** Once the three configuration writes went through, the step succeeds
    whatever the two FIFO writes report; each is issued once. *)
Lemma configure_fifo_ignored dev w r1 w1 r2 w2 r3 w3 r4 w4 r5 w5 :
  icm_i2c_write1 dev ICM_REG_PWR_MGMT0 ICM_PWR_LN_GYRO_ACCEL w = (r1, w1) ->
  0 <= r1 ->
  icm_i2c_write1 dev ICM_REG_GYRO_CONFIG0 x66 w1 = (r2, w2) ->
  0 <= r2 ->
  icm_i2c_write1 dev ICM_REG_ACCEL_CONFIG0 x66 w2 = (r3, w3) ->
  0 <= r3 ->
  icm_i2c_write1 dev ICM_REG_FIFO_CONFIG_INIT x40 w3 = (r4, w4) ->
  icm_i2c_write1 dev ICM_REG_FIFO_CONFIGURATION x07 w4 = (r5, w5) ->
  icm_configure_default dev w = (OK, snd (usleep 100000 w5)).
Proof.
  intros H1 Hr1 H2 Hr2 H3 Hr3 H4 H5.
  apply Z.ltb_ge in Hr1. apply Z.ltb_ge in Hr2. apply Z.ltb_ge in Hr3.
  unfold icm_configure_default. step_with H1. rewrite Hr1.
  step_with H2. rewrite Hr2. step_with H3. rewrite Hr3.
  step_with H4. step_with H5.
  unfold bind, ret. destruct (usleep 100000 w5). reflexivity.
Qed.

(** A negative result of the Configure step is the result of bring-up. *)
Lemma bring_up_configure_fails dev w r0 dev' w0 r w1 :
  identify dev w = ((r0, dev'), w0) ->
  0 <= r0 ->
  icm_configure_default dev' w0 = (r, w1) ->
  r < 0 ->
  bring_up dev w = ((r, dev'), w1).
Proof.
  intros Hid Hr0 Hcf Hr. apply Z.ltb_ge in Hr0. apply Z.ltb_lt in Hr.
  unfold bring_up. step_with Hid. rewrite Hr0.
  step_with Hcf. rewrite Hr. reflexivity.
Qed.

(** And registration returns it, with no device left. *)
Lemma register_bring_up_fails cfg master w w0 r dev' w1 :
  cfg_i2c cfg = Some master ->
  kmm_malloc w = (true, w0) ->
  bring_up {| i2c := master;
              i2c_freq := if cfg_freq cfg =? 0 then 400000 else cfg_freq cfg;
              i2c_addr := cfg_addr cfg;
              buf := sample_zero; bufpos := 0 |} w0 = ((r, dev'), w1) ->
  r < 0 ->
  icm42688_register (Some cfg) w = ((r, None), w1).
Proof.
  intros Hm Hk Hb Hr. apply Z.ltb_lt in Hr.
  unfold icm42688_register. rewrite Hm. step_with Hk. cbn [negb].
  step_with Hb. rewrite Hr. reflexivity.
Qed.

End Configure.

(** C3, as the code has it.  In the Configure step a failure of the
    power-mode, gyro-configuration or accel-configuration write ends the
    step at once with the transport's code (no later write is issued and
    none is repeated), and that code is what bring-up and registration
    return; the results of the two FIFO writes (streaming-buffer enable
    and source select) are discarded, so the step succeeds whatever they
    report. *)
Theorem C3_configure_write_failures {W : Type} `{World W}
    (dev : icm42688_dev_s) (w : W) :
  let pwr := icm_i2c_write1 dev ICM_REG_PWR_MGMT0 ICM_PWR_LN_GYRO_ACCEL w in
  let gyr := icm_i2c_write1 dev ICM_REG_GYRO_CONFIG0 x66 (snd pwr) in
  let acc := icm_i2c_write1 dev ICM_REG_ACCEL_CONFIG0 x66 (snd gyr) in
  let en := icm_i2c_write1 dev ICM_REG_FIFO_CONFIG_INIT x40 (snd acc) in
  let sel := icm_i2c_write1 dev ICM_REG_FIFO_CONFIGURATION x07 (snd en) in
  (fst pwr < 0 -> icm_configure_default dev w = pwr) /\
  (0 <= fst pwr -> fst gyr < 0 -> icm_configure_default dev w = gyr) /\
  (0 <= fst pwr -> 0 <= fst gyr -> fst acc < 0 ->
   icm_configure_default dev w = acc) /\
  (0 <= fst pwr -> 0 <= fst gyr -> 0 <= fst acc ->
   icm_configure_default dev w = (OK, snd (usleep 100000 (snd sel)))) /\
  (forall dev0 w0 r0 cfg master wm,
      identify dev0 w0 = ((r0, dev), w) ->
      0 <= r0 ->
      fst (icm_configure_default dev w) < 0 ->
      bring_up dev0 w0
        = ((fst (icm_configure_default dev w), dev),
           snd (icm_configure_default dev w)) /\
      (cfg_i2c cfg = Some master ->
       kmm_malloc wm = (true, w0) ->
       dev0 = {| i2c := master;
                 i2c_freq := if cfg_freq cfg =? 0 then 400000
                             else cfg_freq cfg;
                 i2c_addr := cfg_addr cfg;
                 buf := sample_zero; bufpos := 0 |} ->
       icm42688_register (Some cfg) wm
         = ((fst (icm_configure_default dev w), None),
            snd (icm_configure_default dev w)))).
Proof.
  intros pwr gyr acc en sel.
  assert (Epwr : icm_i2c_write1 dev ICM_REG_PWR_MGMT0 ICM_PWR_LN_GYRO_ACCEL w
                 = (fst pwr, snd pwr)) by (subst pwr; apply surjective_pairing).
  assert (Egyr : icm_i2c_write1 dev ICM_REG_GYRO_CONFIG0 x66 (snd pwr)
                 = (fst gyr, snd gyr)) by (subst gyr; apply surjective_pairing).
  assert (Eacc : icm_i2c_write1 dev ICM_REG_ACCEL_CONFIG0 x66 (snd gyr)
                 = (fst acc, snd acc)) by (subst acc; apply surjective_pairing).
  assert (Een : icm_i2c_write1 dev ICM_REG_FIFO_CONFIG_INIT x40 (snd acc)
                = (fst en, snd en)) by (subst en; apply surjective_pairing).
  assert (Esel : icm_i2c_write1 dev ICM_REG_FIFO_CONFIGURATION x07 (snd en)
                 = (fst sel, snd sel)) by (subst sel; apply surjective_pairing).
  split; [| split; [| split; [| split]]].
  - intros Hp. rewrite (surjective_pairing pwr).
    eapply configure_pwr_fails; eassumption.
  - intros Hp Hg. rewrite (surjective_pairing gyr).
    eapply configure_gyro_fails; eassumption.
  - intros Hp Hg Ha. rewrite (surjective_pairing acc).
    eapply configure_accel_fails; eassumption.
  - intros Hp Hg Ha.
    eapply configure_fifo_ignored; eassumption.
  - intros dev0 w0 r0 cfg master wm Hid Hr0 Hneg.
    assert (Hb : bring_up dev0 w0
                 = ((fst (icm_configure_default dev w), dev),
                    snd (icm_configure_default dev w))).
    { eapply bring_up_configure_fails; try eassumption.
      apply surjective_pairing. }
    split; [exact Hb|].
    intros Hm Hk ->.
    eapply register_bring_up_fails; eassumption.
Qed.

(** On the bus of [Scenario.chip_c3_gyro] the gyro-configuration write
    fails with [-ETIMEDOUT] after the power-mode write went through. *)
Lemma C3_configure_write_failures_witness :
  icm_configure_default Sim.dev68 Scenario.chip_c3_gyro
  = icm_i2c_write1 Sim.dev68 ICM_REG_GYRO_CONFIG0 x66
      (snd (icm_i2c_write1 Sim.dev68 ICM_REG_PWR_MGMT0 ICM_PWR_LN_GYRO_ACCEL
              Scenario.chip_c3_gyro)).
Proof.
  apply (proj1 (proj2 (C3_configure_write_failures Sim.dev68
                         Scenario.chip_c3_gyro))).
  - vm_compute. discriminate.
  - vm_compute. reflexivity.
Defined.

(** C3 as stated fails for the FIFO writes: on the bus of
    [Scenario.chip_c3_fifo] both fail with [-ETIMEDOUT], yet the Configure
    step and the whole registration report success and the device node is
    registered. *)
Lemma C3_fifo_write_failures_ignored :
  let w3 := snd (icm_i2c_write1 Sim.dev68 ICM_REG_ACCEL_CONFIG0 x66
                   Scenario.chip_c3_fifo) in
  fst (icm_i2c_write1 Sim.dev68 ICM_REG_FIFO_CONFIG_INIT x40 w3)
    = - Sim.ETIMEDOUT /\
  fst (icm_i2c_write1 Sim.dev68 ICM_REG_FIFO_CONFIGURATION x07 w3)
    = - Sim.ETIMEDOUT /\
  fst (icm_configure_default Sim.dev68 Scenario.chip_c3_fifo) = OK /\
  fst (icm42688_register (Some Sim.cfg68) Scenario.chip_c3_fifo)
    = (OK, Some Sim.dev68).
Proof.
  repeat split.
Qed.

(* ===================================================================== *)
(** * 15. The scale tables of fetch-scale-pair *)
(* ===================================================================== *)

(** The selector is bits 5 and 4 of the configuration byte. *)
Lemma fs_sel_of_bits (v : byte) :
  fs_sel_of v
  = Z.b2z (Z.testbit (Int.u8 v) 4) + 2 * Z.b2z (Z.testbit (Int.u8 v) 5).
Proof. destruct v; reflexivity. Qed.

Lemma fs_sel_of_range (v : byte) : 0 <= fs_sel_of v <= 3.
Proof.
  rewrite fs_sel_of_bits.
  destruct (Z.testbit (Int.u8 v) 4), (Z.testbit (Int.u8 v) 5); simpl; lia.
Qed.

Lemma accel_scale_of_sel_enum (sel : Z) :
  accel_scale_of_sel sel = 16384 \/ accel_scale_of_sel sel = 8192 \/
  accel_scale_of_sel sel = 2048.
Proof.
  destruct sel as [| p | p]; simpl; auto.
  destruct p as [[q | q |] | [q | q |] |]; simpl; auto.
Qed.

Lemma gyro_scale_of_sel_enum (sel : Z) :
  gyro_scale_of_sel sel = 164 \/ gyro_scale_of_sel sel = 328 \/
  gyro_scale_of_sel sel = 656 \/ gyro_scale_of_sel sel = 1310.
Proof.
  destruct sel as [| p | p]; simpl; auto.
  destruct p as [[q | q |] | [q | q |] |]; simpl; auto.
Qed.

Section Scales.
Context {W : Type} `{World W} {F : Type} `{FloatOps F}.

(** With both configuration reads through, the scale command succeeds:
    the gyro scale is the table entry, the accel scale is what the probe
    block leaves of the table entry. *)
Lemma ioctl_scales_ok dev w ret1 acc w1 ret2 gyr w2 :
  icm_i2c_read dev ICM_REG_ACCEL_CONFIG0 1 w = ((ret1, acc), w1) ->
  icm_i2c_read dev ICM_REG_GYRO_CONFIG0 1 w1 = ((ret2, gyr), w2) ->
  0 <= ret1 -> 0 <= ret2 ->
  icm_ioctl_dev dev ICM_IOCTL_GET_SCALES false w =
    let p := scales_probe dev
               (accel_scale_of_sel (fs_sel_of (Int.at_ acc 0))) w2 in
    ((OK, OutScales (fst p) (gyro_scale_of_sel (fs_sel_of (Int.at_ gyr 0)))),
     snd p).
Proof.
  intros Hrd1 Hrd2 Hr1 Hr2. apply Z.ltb_ge in Hr1. apply Z.ltb_ge in Hr2.
  unfold icm_ioctl_dev. simpl. step_with Hrd1. step_with Hrd2.
  rewrite Hr1, Hr2. unfold bind at 1.
  destruct (scales_probe dev _ w2) as [s0 w3]. reflexivity.
Qed.

(** What the probe block can return. *)
Lemma scales_probe_cases dev scale0 w :
  let s := fst (scales_probe dev scale0 w) in
  s = scale0 \/ s = Int.to_uint32 (scale0 * 2) \/ s = scale0 / 2.
Proof.
  cbv zeta. destruct (scales_probe dev scale0 w) as [s0 w0] eqn:E.
  cbn [fst]. unfold scales_probe in E. unfold bind at 1 in E.
  destruct (icm_i2c_read dev ICM_REG_ACCEL_DATA_X1 ICM_BURST_READ_LEN w)
    as [[r raw] w'].
  destruct (negb (r =? OK)); [inversion E; auto|].
  destruct (icm_parse_sample raw ICM_BURST_READ_LEN sample_zero) as [pret s].
  destruct (negb (pret =? OK)); [inversion E; auto|].
  unfold probe_adjust, ret in E.
  repeat match type of E with
         | context [if ?b then _ else _] => destruct b
         end; inversion E; auto.
Qed.

End Scales.

(** C4.  The accel table sends the selector values 0, 1, 2, 3 to 16384,
    8192, 16384, 2048 (0 and 2 to the same constant) and the gyro table
    sends them to 164, 328, 656, 1310; the selector is bits 5 and 4 of the
    configuration byte and nothing else; whatever the argument, a table
    entry is strictly positive and one of those constants.  These are the
    tables fetch-scale-pair applies to the two bytes it reads.  The gyro
    scale it returns is the gyro table entry.  The accel scale it returns
    is the accel table entry, or twice it, or half of it: strictly
    positive, and one of 1024, 2048, 4096, 8192, 16384, 32768. *)
Theorem C4_scale_selector_mapping :
  (accel_scale_of_sel 0 = 16384 /\ accel_scale_of_sel 1 = 8192 /\
   accel_scale_of_sel 2 = 16384 /\ accel_scale_of_sel 3 = 2048 /\
   accel_scale_of_sel 0 = accel_scale_of_sel 2) /\
  (gyro_scale_of_sel 0 = 164 /\ gyro_scale_of_sel 1 = 328 /\
   gyro_scale_of_sel 2 = 656 /\ gyro_scale_of_sel 3 = 1310) /\
  (forall v : byte,
      0 <= fs_sel_of v <= 3 /\
      fs_sel_of v
      = Z.b2z (Z.testbit (Int.u8 v) 4) + 2 * Z.b2z (Z.testbit (Int.u8 v) 5)) /\
  (forall sel : Z,
      0 < accel_scale_of_sel sel /\ In (accel_scale_of_sel sel) [16384; 8192; 2048] /\
      0 < gyro_scale_of_sel sel /\ In (gyro_scale_of_sel sel) [164; 328; 656; 1310]) /\
  (forall (W : Type) (HW : World W) (F : Type) (HF : FloatOps F)
          dev (w : W) ret1 acc w1 ret2 gyr w2,
      icm_i2c_read dev ICM_REG_ACCEL_CONFIG0 1 w = ((ret1, acc), w1) ->
      icm_i2c_read dev ICM_REG_GYRO_CONFIG0 1 w1 = ((ret2, gyr), w2) ->
      0 <= ret1 -> 0 <= ret2 ->
      exists a,
        fst (icm_ioctl_dev dev ICM_IOCTL_GET_SCALES false w)
        = (OK,
           OutScales a (gyro_scale_of_sel (fs_sel_of (Int.at_ gyr 0)))) /\
        (a = accel_scale_of_sel (fs_sel_of (Int.at_ acc 0)) \/
         a = 2 * accel_scale_of_sel (fs_sel_of (Int.at_ acc 0)) \/
         a = accel_scale_of_sel (fs_sel_of (Int.at_ acc 0)) / 2) /\
        0 < a /\ In a [1024; 2048; 4096; 8192; 16384; 32768]).
Proof.
  split; [repeat split|]. split; [repeat split|].
  split; [intros v; split; [apply fs_sel_of_range | apply fs_sel_of_bits]|].
  split.
  - intros sel.
    pose proof (accel_scale_of_sel_enum sel) as Ha.
    pose proof (gyro_scale_of_sel_enum sel) as Hg.
    repeat split.
    + destruct Ha as [-> | [-> | ->]]; lia.
    + destruct Ha as [-> | [-> | ->]]; simpl; auto.
    + destruct Hg as [-> | [-> | [-> | ->]]]; lia.
    + destruct Hg as [-> | [-> | [-> | ->]]]; simpl; auto.
  - intros W HW F HF dev w ret1 acc w1 ret2 gyr w2 Hrd1 Hrd2 Hr1 Hr2.
    rewrite (ioctl_scales_ok dev w ret1 acc w1 ret2 gyr w2 Hrd1 Hrd2 Hr1 Hr2).
    cbv zeta. cbn [fst].
    pose proof (scales_probe_cases dev
                  (accel_scale_of_sel (fs_sel_of (Int.at_ acc 0))) w2) as Hp.
    cbv zeta in Hp. revert Hp.
    generalize (fst (scales_probe dev
                       (accel_scale_of_sel (fs_sel_of (Int.at_ acc 0))) w2)).
    intros a Hp. exists a. split; [reflexivity|].
    destruct (accel_scale_of_sel_enum (fs_sel_of (Int.at_ acc 0)))
      as [E | [E | E]]; rewrite E in *;
      destruct Hp as [-> | [-> | ->]]; vm_compute; intuition congruence.
Qed.

(** [Scenario.chip_c5_low]: the accel byte 0x16 gives selector 1 and the
    table entry 8192, the gyro byte 0x66 gives selector 2 and 656; the
    accel scale returned is half the table entry. *)
Lemma C4_scale_selector_mapping_witness :
  fst (icm_ioctl_dev (F := Binary32.float32) Sim.dev68 ICM_IOCTL_GET_SCALES
         false Scenario.chip_c5_low)
  = (OK, OutScales (8192 / 2) 656).
Proof.
  set (w1 := snd (icm_i2c_read Sim.dev68 ICM_REG_ACCEL_CONFIG0 1
                    Scenario.chip_c5_low)).
  set (w2 := snd (icm_i2c_read Sim.dev68 ICM_REG_GYRO_CONFIG0 1 w1)).
  assert (H1 : icm_i2c_read Sim.dev68 ICM_REG_ACCEL_CONFIG0 1
                 Scenario.chip_c5_low = ((0, [x16]), w1)) by reflexivity.
  assert (H2 : icm_i2c_read Sim.dev68 ICM_REG_GYRO_CONFIG0 1 w1
               = ((0, [x66]), w2)) by reflexivity.
  destruct (proj2 (proj2 (proj2 (proj2 C4_scale_selector_mapping)))
              Sim.chip Sim.world Binary32.float32 Binary32.ops
              Sim.dev68 Scenario.chip_c5_low 0 [x16] w1 0 [x66] w2
              H1 H2 (Z.le_refl 0) (Z.le_refl 0))
    as (a & Hio & _).
  rewrite Hio. vm_compute in Hio. inversion Hio. reflexivity.
Defined.

(** C4 as stated fails for the accel scale.  On [Scenario.chip_c5_low]
    fetch-scale-pair returns 4096, and on [Scenario.chip_c4], which holds
    the configuration byte the driver itself programs, it returns 32768;
    neither is an entry of the accel table. *)
Lemma C4_returned_scale_outside_table :
  fst (icm_ioctl_dev (F := Binary32.float32) Sim.dev68 ICM_IOCTL_GET_SCALES
         false Scenario.chip_c5_low)
  = (OK, OutScales 4096 656) /\
  fst (icm_ioctl_dev (F := Binary32.float32) Sim.dev68 ICM_IOCTL_GET_SCALES
         false Scenario.chip_c4)
  = (OK, OutScales 32768 656) /\
  Sim.accel_config0 Scenario.chip_c4 = x66 /\
  forallb (fun sel => negb (accel_scale_of_sel sel =? 4096)
                      && negb (accel_scale_of_sel sel =? 32768))
    [0; 1; 2; 3] = true /\
  (forall sel : Z,
      accel_scale_of_sel sel <> 4096 /\ accel_scale_of_sel sel <> 32768).
Proof.
  split; [vm_compute; reflexivity|].
  split; [vm_compute; reflexivity|].
  split; [reflexivity|].
  split; [reflexivity|].
  intros sel.
  destruct (accel_scale_of_sel_enum sel) as [-> | [-> | ->]]; split; lia.
Qed.

(* ===================================================================== *)
(** * 16. The order of single-precision values *)
(* ===================================================================== *)

(** The decimal literals of the sources, as [dec] builds them, are the
    [float] constants a compiler emits for them: 0x3fd9999a for [1.7f],
    0x400ccccd for [2.2f], 0x40133333 for [2.3f], 0x3ee66666 for [0.45f],
    0x3f266666 for [0.65f], 0x3ba3d70a for [0.005f], 0x3ca3d70a for
    [0.02f], 0x3e19999a for [0.15f], 0x41833333 for [16.4f] and 0x3f000000
    for [0.5f], written here as mantissa and exponent. *)
Example binary32_literals :
  (dec 17 10 : Binary32.float32) = S754_finite false 14260634 (-23) /\
  (dec 22 10 : Binary32.float32) = S754_finite false 9227469 (-22) /\
  (dec 23 10 : Binary32.float32) = S754_finite false 9646899 (-22) /\
  (dec 45 100 : Binary32.float32) = S754_finite false 15099494 (-25) /\
  (dec 65 100 : Binary32.float32) = S754_finite false 10905190 (-24) /\
  (dec 5 1000 : Binary32.float32) = S754_finite false 10737418 (-31) /\
  (dec 2 100 : Binary32.float32) = S754_finite false 10737418 (-29) /\
  (dec 15 100 : Binary32.float32) = S754_finite false 10066330 (-26) /\
  (dec 164 10 : Binary32.float32) = S754_finite false 8598323 (-19) /\
  (dec 1 2 : Binary32.float32) = S754_finite false 8388608 (-24).
Proof. repeat split; vm_compute; reflexivity. Qed.

Lemma compare_cont_Eq (x y : positive) :
  Pos.compare_cont Eq x y = Pos.compare x y.
Proof. reflexivity. Qed.

(** Case analysis on every integer comparison in sight. *)
Ltac cmp_cases :=
  repeat (rewrite ?compare_cont_Eq in *;
          match goal with
          | H : context [Z.compare ?a ?b] |- _ =>
              destruct (Z.compare_spec a b); cbn in H
          | H : context [Pos.compare ?a ?b] |- _ =>
              destruct (Pos.compare_spec a b); cbn in H
          | |- context [Z.compare ?a ?b] =>
              destruct (Z.compare_spec a b); cbn
          | |- context [Pos.compare ?a ?b] =>
              destruct (Pos.compare_spec a b); cbn
          end).

(** [<] on [float] values is transitive. *)
Lemma SFltb_trans (a b c : spec_float) :
  SFltb a b = true -> SFltb b c = true -> SFltb a c = true.
Proof.
  unfold SFltb.
  destruct a as [sa | sa | | sa ma ea], b as [sb | sb | | sb mb eb],
    c as [sc | sc | | sc mc ec]; cbn; try discriminate;
    try destruct sa; try destruct sb; try destruct sc; cbn;
    try discriminate; try reflexivity;
    intros Hab Hbc;
    cmp_cases; try discriminate; try reflexivity; try lia.
Qed.

(** When neither is a NaN, [!(b < a)] and [b < c] give [a < c]. *)
Lemma SFltb_le_trans (a b c : spec_float) :
  Binary32.is_nan a = false -> Binary32.is_nan b = false ->
  SFltb b a = false -> SFltb b c = true -> SFltb a c = true.
Proof.
  unfold SFltb.
  destruct a as [sa | sa | | sa ma ea], b as [sb | sb | | sb mb eb],
    c as [sc | sc | | sc mc ec]; cbn; try discriminate;
    try destruct sa; try destruct sb; try destruct sc; cbn;
    try discriminate; try reflexivity;
    intros _ _ Hab Hbc;
    cmp_cases; try discriminate; try reflexivity; try lia.
Qed.

Lemma is_nan_abs (x : spec_float) :
  Binary32.is_nan (SFabs x) = Binary32.is_nan x.
Proof. destruct x; reflexivity. Qed.

(** One conditional update of a running maximum [m] with [a]: the result
    is below [b] exactly when both are. *)
Lemma running_max_below (m a b : spec_float) :
  Binary32.is_nan m = false -> Binary32.is_nan a = false ->
  SFltb (if SFltb m a then a else m) b = SFltb m b && SFltb a b /\
  Binary32.is_nan (if SFltb m a then a else m) = false.
Proof.
  intros Hm Ha. destruct (SFltb m a) eqn:Hma; split; try assumption.
  - destruct (SFltb a b) eqn:Hab.
    + rewrite (SFltb_trans m a b Hma Hab). reflexivity.
    + symmetry. apply andb_false_r.
  - destruct (SFltb m b) eqn:Hmb.
    + rewrite (SFltb_le_trans a m b Ha Hm Hma Hmb). reflexivity.
    + reflexivity.
Qed.

(** [gyro_abs_max] is below a bound exactly when zero and the three
    absolute values are: it is the largest of them. *)
Lemma gyro_abs_max_below (gx gy gz b : Binary32.float32) :
  Binary32.is_nan gx = false -> Binary32.is_nan gy = false ->
  Binary32.is_nan gz = false ->
  (gyro_abs_max gx gy gz <? b)%flt
  = (of_int 0 <? b)%flt && (fabs gx <? b)%flt && (fabs gy <? b)%flt
    && (fabs gz <? b)%flt.
Proof.
  intros Hx Hy Hz. unfold gyro_abs_max. cbv zeta.
  change (@fltb Binary32.float32 Binary32.ops) with SFltb.
  change (@fabs Binary32.float32 Binary32.ops) with SFabs.
  change (@of_int Binary32.float32 Binary32.ops) with Binary32.of_Z.
  rewrite <- is_nan_abs in Hx, Hy, Hz.
  destruct (running_max_below (Binary32.of_Z 0) (SFabs gx) b eq_refl Hx)
    as [E1 N1].
  destruct (running_max_below _ (SFabs gy) b N1 Hy) as [E2 N2].
  destruct (running_max_below _ (SFabs gz) b N2 Hz) as [E3 _].
  unfold Binary32.float32 in *. rewrite E3, E2, E1. reflexivity.
Qed.

(** The two bands of the probe do not meet. *)
Lemma probe_bands_disjoint (an : Binary32.float32) :
  (dec 17 10 <? an)%flt && (an <? dec 22 10)%flt = true ->
  (dec 45 100 <? an)%flt && (an <? dec 65 100)%flt = false.
Proof.
  intros Hhigh. apply andb_true_iff in Hhigh. destruct Hhigh as [H17 _].
  destruct ((an <? dec 65 100)%flt) eqn:H65; [| apply andb_false_r].
  cbn [fltb Binary32.ops] in H17, H65.
  pose proof (SFltb_trans _ _ _ H17 H65) as Habs.
  vm_compute in Habs. discriminate Habs.
Qed.

(* ===================================================================== *)
(** * 17. The probe of fetch-scale-pair *)
(* ===================================================================== *)

(** A table entry is always inside the probe's two guards. *)
Lemma accel_scale_of_sel_guards (sel : Z) :
  (accel_scale_of_sel sel <? 65536) = true /\
  (512 <? accel_scale_of_sel sel) = true /\
  Int.to_uint32 (accel_scale_of_sel sel * 2) = 2 * accel_scale_of_sel sel.
Proof.
  destruct (accel_scale_of_sel_enum sel) as [-> | [-> | ->]];
    repeat split; reflexivity.
Qed.

(** The direct-register parse accepts exactly the buffers of 12 bytes or
    more, and leaves [out] alone when it refuses. *)
Lemma icm_parse_sample_code buf len out :
  (12 <= len)%nat /\ fst (icm_parse_sample buf len out) = OK \/
  (len < 12)%nat /\ icm_parse_sample buf len out = (- EINVAL, out).
Proof.
  unfold icm_parse_sample, ICM_BURST_READ_LEN.
  destruct (Nat.ltb_spec len 12); [right | left]; split; auto.
Qed.

Section Probe.
Context {W : Type} `{World W} {F : Type} `{FloatOps F}.

(** The probe block when its read fails: no adjustment. *)
Lemma scales_probe_read_fails dev scale0 w r raw w' :
  icm_i2c_read dev ICM_REG_ACCEL_DATA_X1 ICM_BURST_READ_LEN w = ((r, raw), w') ->
  r <> OK ->
  scales_probe dev scale0 w = (scale0, w').
Proof.
  intros Hrd Hr. unfold scales_probe. step_with Hrd.
  apply Z.eqb_neq in Hr. rewrite Hr. reflexivity.
Qed.

(** The probe block when its read succeeds: one of the two adjustments, or
    none, decided on the norm of the sample just read. *)
Lemma scales_probe_read_ok dev scale0 w raw w' :
  icm_i2c_read dev ICM_REG_ACCEL_DATA_X1 ICM_BURST_READ_LEN w = ((OK, raw), w') ->
  scales_probe dev scale0 w =
    (probe_adjust
       (probe_norm (snd (icm_parse_sample raw ICM_BURST_READ_LEN sample_zero))
          scale0) scale0, w').
Proof.
  intros Hrd. unfold scales_probe. step_with Hrd.
  change (negb (OK =? OK)) with false. cbv iota. reflexivity.
Qed.

End Probe.

(** C5.  With both configuration reads through, fetch-scale-pair issues
    one 12-byte read of the direct sample registers and nothing after it.
    When that read succeeds, each of the three accel words, big-endian and
    shifted right once, is converted to [float] and divided by the accel
    table entry converted to [float]; the norm [an] is [sqrtf] of the sum
    of the three squares.  It decides the accel scale returned: twice the
    table entry when 1.7 < an < 2.2, half of it when instead
    0.45 < an < 0.65, the table entry otherwise.  The guards on the scale
    (below 65536, above 512) hold for every table entry, so only the norm
    decides, and at most one adjustment is made.  In single precision no
    value lies in both bands. *)
Theorem C5_scale_probe_adjustment
    {W : Type} `{World W} {F : Type} `{FloatOps F}
    (dev : icm42688_dev_s) (w w1 w2 w3 : W) (ret1 ret2 : Z)
    (acc gyr raw : list byte) :
  icm_i2c_read dev ICM_REG_ACCEL_CONFIG0 1 w = ((ret1, acc), w1) ->
  icm_i2c_read dev ICM_REG_GYRO_CONFIG0 1 w1 = ((ret2, gyr), w2) ->
  0 <= ret1 -> 0 <= ret2 ->
  icm_i2c_read dev ICM_REG_ACCEL_DATA_X1 ICM_BURST_READ_LEN w2
    = ((OK, raw), w3) ->
  let scale0 := accel_scale_of_sel (fs_sel_of (Int.at_ acc 0)) in
  let ax := (of_int (Int.asr1 (Int.be16 (Int.at_ raw 0) (Int.at_ raw 1)))
             / of_int scale0)%flt in
  let ay := (of_int (Int.asr1 (Int.be16 (Int.at_ raw 2) (Int.at_ raw 3)))
             / of_int scale0)%flt in
  let az := (of_int (Int.asr1 (Int.be16 (Int.at_ raw 4) (Int.at_ raw 5)))
             / of_int scale0)%flt in
  let an := fsqrt (ax * ax + ay * ay + az * az)%flt in
  let high := (dec 17 10 <? an)%flt && (an <? dec 22 10)%flt in
  let low := (dec 45 100 <? an)%flt && (an <? dec 65 100)%flt in
  icm_ioctl_dev dev ICM_IOCTL_GET_SCALES false w
  = ((OK,
      OutScales (if high then 2 * scale0
                 else if low then scale0 / 2 else scale0)
        (gyro_scale_of_sel (fs_sel_of (Int.at_ gyr 0)))), w3) /\
  scale0 < 65536 /\ 512 < scale0 /\
  (forall x : Binary32.float32,
      (dec 17 10 <? x)%flt && (x <? dec 22 10)%flt = true ->
      (dec 45 100 <? x)%flt && (x <? dec 65 100)%flt = false).
Proof.
  intros Hrd1 Hrd2 Hr1 Hr2 Hrd3 scale0 ax ay az an high low.
  destruct (accel_scale_of_sel_guards (fs_sel_of (Int.at_ acc 0)))
    as (Hlt & Hgt & Hwrap).
  fold scale0 in Hlt, Hgt, Hwrap.
  split; [| split; [apply Z.ltb_lt; exact Hlt
                   | split; [apply Z.ltb_lt; exact Hgt
                            | exact probe_bands_disjoint]]].
  rewrite (ioctl_scales_ok dev w ret1 acc w1 ret2 gyr w2 Hrd1 Hrd2 Hr1 Hr2).
  fold scale0. rewrite (scales_probe_read_ok dev scale0 w2 raw w3 Hrd3).
  cbv zeta. cbn [fst snd].
  unfold icm_parse_sample, ICM_BURST_READ_LEN.
  change (12 <? 12)%nat with false. cbv iota. cbn [snd].
  unfold probe_norm. cbn [accel_x accel_y accel_z].
  fold ax ay az. fold an. unfold probe_adjust, fgtb. fold high. fold low.
  rewrite Hlt, Hgt, Hwrap, !andb_true_r. reflexivity.
Qed.

(** [Scenario.chip_c5_xyz]: the table gives 8192, the direct sample has
    1.1 g on each of the three axes, a norm of 1.905 g, and 16384 is
    returned; the z axis alone, 1.1 g, is in neither band. *)
Lemma C5_scale_probe_adjustment_witness :
  icm_ioctl_dev (F := Binary32.float32) Sim.dev68 ICM_IOCTL_GET_SCALES false
    Scenario.chip_c5_xyz
  = ((OK, OutScales 16384 656),
     snd (icm_i2c_read Sim.dev68 ICM_REG_ACCEL_DATA_X1 ICM_BURST_READ_LEN
            (snd (icm_i2c_read Sim.dev68 ICM_REG_GYRO_CONFIG0 1
                    (snd (icm_i2c_read Sim.dev68 ICM_REG_ACCEL_CONFIG0 1
                            Scenario.chip_c5_xyz)))))) /\
  (let z : Binary32.float32 := (of_int 9011 / of_int 8192)%flt in
   (dec 17 10 <? z)%flt && (z <? dec 22 10)%flt = false /\
   (dec 45 100 <? z)%flt && (z <? dec 65 100)%flt = false).
Proof.
  split; [| cbv zeta; split; vm_compute; reflexivity].
  exact (proj1 (C5_scale_probe_adjustment (F := Binary32.float32)
                  Sim.dev68 Scenario.chip_c5_xyz _ _ _ 0 0 [x16] [x66]
                  (Sim.data_regs Scenario.chip_c5_xyz)
                  eq_refl eq_refl (Z.le_refl 0) (Z.le_refl 0) eq_refl)).
Defined.

(** C10.  With both configuration reads through and the direct sample read
    failing, fetch-scale-pair still returns [OK] with the two table
    entries, unadjusted, and the failure code goes nowhere.  The parse of
    the probe is always given 12 bytes and refuses only shorter buffers,
    so it cannot reject here; and whatever the probe does, the gyro scale
    returned is the table entry. *)
Theorem C10_probe_failure_swallowed
    {W : Type} `{World W} {F : Type} `{FloatOps F}
    (dev : icm42688_dev_s) (w w1 w2 w3 : W) (ret1 ret2 r : Z)
    (acc gyr raw : list byte) :
  icm_i2c_read dev ICM_REG_ACCEL_CONFIG0 1 w = ((ret1, acc), w1) ->
  icm_i2c_read dev ICM_REG_GYRO_CONFIG0 1 w1 = ((ret2, gyr), w2) ->
  0 <= ret1 -> 0 <= ret2 ->
  icm_i2c_read dev ICM_REG_ACCEL_DATA_X1 ICM_BURST_READ_LEN w2
    = ((r, raw), w3) ->
  (r <> OK ->
   icm_ioctl_dev dev ICM_IOCTL_GET_SCALES false w
   = ((OK,
       OutScales (accel_scale_of_sel (fs_sel_of (Int.at_ acc 0)))
         (gyro_scale_of_sel (fs_sel_of (Int.at_ gyr 0)))), w3)) /\
  fst (icm_parse_sample raw ICM_BURST_READ_LEN sample_zero) = OK /\
  (forall buf len out,
      (len < ICM_BURST_READ_LEN)%nat ->
      icm_parse_sample buf len out = (- EINVAL, out)) /\
  (exists scale0',
      fst (icm_ioctl_dev dev ICM_IOCTL_GET_SCALES false w)
      = (OK, OutScales scale0' (gyro_scale_of_sel (fs_sel_of (Int.at_ gyr 0))))).
Proof.
  intros Hrd1 Hrd2 Hr1 Hr2 Hrd3.
  pose proof (ioctl_scales_ok dev w ret1 acc w1 ret2 gyr w2 Hrd1 Hrd2 Hr1 Hr2)
    as Hio.
  split; [| split; [| split]].
  - intros Hr. rewrite Hio.
    rewrite (scales_probe_read_fails dev _ w2 r raw w3 Hrd3 Hr). reflexivity.
  - reflexivity.
  - intros buf len out Hlen.
    destruct (icm_parse_sample_code buf len out) as [[Hge _] | [_ Heq]];
      [unfold ICM_BURST_READ_LEN in Hlen; lia | exact Heq].
  - rewrite Hio. eexists. reflexivity.
Qed.

(** [Scenario.chip_c10]: the direct sample read fails with [-ETIMEDOUT]
    and the table entries 8192 and 656 are returned with [OK]. *)
Lemma C10_probe_failure_swallowed_witness :
  icm_ioctl_dev (F := Binary32.float32) Sim.dev68 ICM_IOCTL_GET_SCALES false
    Scenario.chip_c10
  = ((OK, OutScales 8192 656),
     snd (icm_i2c_read Sim.dev68 ICM_REG_ACCEL_DATA_X1 ICM_BURST_READ_LEN
            (snd (icm_i2c_read Sim.dev68 ICM_REG_GYRO_CONFIG0 1
                    (snd (icm_i2c_read Sim.dev68 ICM_REG_ACCEL_CONFIG0 1
                            Scenario.chip_c10)))))).
Proof.
  set (w1 := snd (icm_i2c_read Sim.dev68 ICM_REG_ACCEL_CONFIG0 1
                    Scenario.chip_c10)).
  set (w2 := snd (icm_i2c_read Sim.dev68 ICM_REG_GYRO_CONFIG0 1 w1)).
  assert (H1 : icm_i2c_read Sim.dev68 ICM_REG_ACCEL_CONFIG0 1
                 Scenario.chip_c10 = ((0, [x16]), w1)) by reflexivity.
  assert (H2 : icm_i2c_read Sim.dev68 ICM_REG_GYRO_CONFIG0 1 w1
               = ((0, [x66]), w2)) by reflexivity.
  assert (H3 : icm_i2c_read Sim.dev68 ICM_REG_ACCEL_DATA_X1
                 ICM_BURST_READ_LEN w2
               = ((- Sim.ETIMEDOUT, repeat x00 12),
                  snd (icm_i2c_read Sim.dev68 ICM_REG_ACCEL_DATA_X1
                         ICM_BURST_READ_LEN w2))) by reflexivity.
  apply (proj1 (C10_probe_failure_swallowed (F := Binary32.float32)
                  Sim.dev68 Scenario.chip_c10 w1 w2 _ 0 0 (- Sim.ETIMEDOUT)
                  [x16] [x66] (repeat x00 12)
                  H1 H2 (Z.le_refl 0) (Z.le_refl 0) H3)).
  unfold Sim.ETIMEDOUT, OK. lia.
Defined.

(* ===================================================================== *)
(** * 18. The identity check *)
(* ===================================================================== *)

Section Identity.
Context {W : Type} `{World W}.

Lemma whoami_world_succ_r k dev w :
  whoami_world (S k) dev w = whoami_world k dev (whoami_next dev w).
Proof. unfold whoami_world. apply Nat.iter_succ_r. Qed.

(** One turn of the loop on a read that passes. *)
Lemma whoami_loop_good n dev w :
  whoami_good dev w = true ->
  whoami_loop (S n) dev w = (OK, snd (icm_i2c_read dev ICM_REG_WHO_AM_I 1 w)).
Proof.
  unfold whoami_good. intros Hg. cbn [whoami_loop]. unfold bind at 1.
  destruct (icm_i2c_read dev ICM_REG_WHO_AM_I 1 w) as [[r id] w'].
  cbn [fst snd] in *. rewrite Hg. reflexivity.
Qed.

(** One turn of the loop on a read that does not. *)
Lemma whoami_loop_bad n dev w :
  whoami_good dev w = false ->
  whoami_loop (S n) dev w = whoami_loop n dev (whoami_next dev w).
Proof.
  unfold whoami_good, whoami_next. intros Hg. cbn [whoami_loop].
  unfold bind at 1.
  destruct (icm_i2c_read dev ICM_REG_WHO_AM_I 1 w) as [[r id] w'].
  cbn [fst snd] in *. rewrite Hg. unfold bind.
  destruct (usleep 20000 w') as [[] w'']. reflexivity.
Qed.

(** The loop stops at the first read that passes. *)
Lemma whoami_loop_first_good dev k : forall n w,
  (k < n)%nat ->
  (forall i, (i < k)%nat -> whoami_good dev (whoami_world i dev w) = false) ->
  whoami_good dev (whoami_world k dev w) = true ->
  whoami_loop n dev w
  = (OK, snd (icm_i2c_read dev ICM_REG_WHO_AM_I 1 (whoami_world k dev w))).
Proof.
  induction k as [| k IH]; intros n w Hk Hbad Hgood.
  - destruct n as [| n]; [lia|]. apply whoami_loop_good. exact Hgood.
  - destruct n as [| n]; [lia|].
    rewrite whoami_loop_bad by (apply (Hbad 0%nat); lia).
    rewrite whoami_world_succ_r in *. apply IH; [lia | | exact Hgood].
    intros i Hi. rewrite <- whoami_world_succ_r. apply Hbad. lia.
Qed.

(** It gives up when it has used all its turns. *)
Lemma whoami_loop_all_bad dev : forall n w,
  (forall i, (i < n)%nat -> whoami_good dev (whoami_world i dev w) = false) ->
  whoami_loop n dev w = (- ENODEV, whoami_world n dev w).
Proof.
  induction n as [| n IH]; intros w Hbad.
  - reflexivity.
  - rewrite whoami_loop_bad by (apply (Hbad 0%nat); lia).
    rewrite whoami_world_succ_r. apply IH.
    intros i Hi. rewrite <- whoami_world_succ_r. apply Hbad. lia.
Qed.

(** And only then. *)
Lemma whoami_loop_code dev : forall n w,
  fst (whoami_loop n dev w) = OK /\
    (exists k, (k < n)%nat /\ whoami_good dev (whoami_world k dev w) = true) \/
  fst (whoami_loop n dev w) = - ENODEV /\
    (forall i, (i < n)%nat -> whoami_good dev (whoami_world i dev w) = false).
Proof.
  induction n as [| n IH]; intros w.
  - right. split; [reflexivity | intros i Hi; lia].
  - destruct (whoami_good dev w) eqn:Hg.
    + left. rewrite whoami_loop_good by exact Hg. split; [reflexivity|].
      exists 0%nat. split; [lia | exact Hg].
    + rewrite whoami_loop_bad by exact Hg.
      destruct (IH (whoami_next dev w)) as [[Hok [k [Hk Hgk]]] | [Hno Hbad]].
      * left. split; [exact Hok|]. exists (S k). split; [lia|].
        rewrite whoami_world_succ_r. exact Hgk.
      * right. split; [exact Hno|]. intros [| i] Hi; [exact Hg|].
        rewrite whoami_world_succ_r. apply Hbad. lia.
Qed.

(** An identity check that passes at the first address ends the identity
    phase: the device keeps its address and nothing more is transferred. *)
Lemma identify_first_address dev w0 r0 w w' :
  icm_reset dev w0 = (r0, w) -> 0 <= r0 ->
  icm_check_whoami dev w = (OK, w') ->
  identify dev w0 = ((OK, dev), w').
Proof.
  intros Hrs Hr0 Hid. apply Z.ltb_ge in Hr0.
  unfold identify. step_with Hrs. rewrite Hr0. step_with Hid. reflexivity.
Qed.

End Identity.

(** C8.  After the reset, the identity check reads the identity register
    until a read succeeds with the expected byte, and it makes at most 50
    reads: if attempt number [k] (counting from 0, so [k < 50]) is the
    first that passes, the check returns [OK] right after that read; only
    when all 50 fail does it return [-ENODEV], and [-ENODEV] means that
    all 50 failed.  Whenever the check passes, the identity phase ends with
    the device at its original address and without a transfer to the
    alternate one, and bring-up goes on to the Configure step from there. *)
Theorem C8_identity_check_retries {W : Type} `{World W}
    (dev : icm42688_dev_s) (w0 w : W) (r0 : Z) (k : nat) :
  icm_reset dev w0 = (r0, w) -> 0 <= r0 ->
  (k < 50)%nat ->
  (forall i, (i < k)%nat -> whoami_good dev (whoami_world i dev w) = false) ->
  whoami_good dev (whoami_world k dev w) = true ->
  let w' := snd (icm_i2c_read dev ICM_REG_WHO_AM_I 1 (whoami_world k dev w)) in
  icm_check_whoami dev w = (OK, w') /\
  identify dev w0 = ((OK, dev), w') /\
  bring_up dev w0
  = (let (r, w'') := icm_configure_default dev w' in
     if r <? 0 then ((r, dev), w'')
     else let (r', w''') := register_driver dev w'' in ((r', dev), w''')) /\
  (forall v : W,
      (forall i, (i < 50)%nat ->
                 whoami_good dev (whoami_world i dev v) = false) <->
      icm_check_whoami dev v = (- ENODEV, whoami_world 50 dev v)).
Proof.
  intros Hrs Hr0 Hk Hbad Hgood w'.
  assert (Hid : icm_check_whoami dev w = (OK, w')).
  { unfold icm_check_whoami. apply whoami_loop_first_good; assumption. }
  pose proof (identify_first_address dev w0 r0 w w' Hrs Hr0 Hid) as Hident.
  split; [exact Hid|]. split; [exact Hident|]. split.
  - unfold bring_up. step_with Hident. change (OK <? 0) with false. cbv iota.
    unfold bind at 1.
    destruct (icm_configure_default dev w') as [r w''].
    destruct (r <? 0); [reflexivity|].
    unfold bind. destruct (register_driver dev w'') as [r' w''']. reflexivity.
  - intros v. split.
    + intros Hall. unfold icm_check_whoami. apply whoami_loop_all_bad. exact Hall.
    + intros Hno. unfold icm_check_whoami in Hno.
      destruct (whoami_loop_code dev 50 v) as [[Hok _] | [_ Hall]];
        [| exact Hall].
      rewrite Hno in Hok. discriminate Hok.
Qed.

(** [Scenario.chip_c8] answers 49 identity reads with a wrong byte and the
    50th with 0x47: bring-up succeeds at 0x68. *)
Lemma C8_identity_check_retries_witness :
  fst (icm_check_whoami Sim.dev68
         (snd (icm_reset Sim.dev68 Scenario.chip_c8))) = OK /\
  fst (identify Sim.dev68 Scenario.chip_c8) = (OK, Sim.dev68) /\
  fst (icm42688_register (Some Sim.cfg68) Scenario.chip_c8)
    = (OK, Some Sim.dev68) /\
  Sim.whoami_wrong (snd (identify Sim.dev68 Scenario.chip_c8)) = 0%nat /\
  forallb (fun e => fst (fst e) =? 0x68)
    (Sim.trace (snd (icm42688_register (Some Sim.cfg68) Scenario.chip_c8)))
    = true.
Proof.
  assert (Hrs : icm_reset Sim.dev68 Scenario.chip_c8
                = (0, snd (icm_reset Sim.dev68 Scenario.chip_c8)))
    by reflexivity.
  destruct (C8_identity_check_retries Sim.dev68 Scenario.chip_c8 _ 0 49
              Hrs (Z.le_refl 0)) as (Hid & Hident & Hbring & _).
  - lia.
  - intros i Hi.
    do 49 (destruct i as [| i]; [vm_compute; reflexivity|]). lia.
  - vm_compute. reflexivity.
  - rewrite Hid, Hident. repeat split; vm_compute; reflexivity.
Defined.

(* ===================================================================== *)
(** * 19. The acquisition pipeline: bias *)
(* ===================================================================== *)

Section Bias.
Context {F : Type} `{FloatOps F}.

(** The bias of the state [process_sample] returns. *)
Lemma process_sample_bias (st : app_state F) (s : icm42688_sample_s) :
  bias (fst (fst (process_sample st s)))
  = bias_update
      (is_stable (m_gyro_abs_max (measured st s)) (m_anorm (measured st s)))
      (bias st) (m_val (measured st s)).
Proof.
  unfold process_sample, process_with. cbv zeta.
  destruct (lowpass _ _ _) as [init f]. reflexivity.
Qed.

(** The filter is fed the measured values minus the bias just computed. *)
Lemma process_sample_filter (st : app_state F) (s : icm42688_sample_s) :
  let st' := fst (fst (process_sample st s)) in
  (filt_init st', filt st')
  = lowpass (filt_init st) (filt st)
      (remove_bias (m_val (measured st s)) (bias st')).
Proof.
  cbv zeta. rewrite process_sample_bias.
  unfold process_sample, process_with. cbv zeta.
  destruct (lowpass _ _ _) as [init f]. reflexivity.
Qed.

(** The dps values of a measurement are the raw gyro counts over the gyro
    scale, and [gyro_abs_max] is taken over them. *)
Lemma measured_gyro (st : app_state F) (s : icm42688_sample_s) :
  let m := measured st s in
  g_x (m_val m) = (of_int (gyro_x s) / gyro_lsb_per_dps st)%flt /\
  g_y (m_val m) = (of_int (gyro_y s) / gyro_lsb_per_dps st)%flt /\
  g_z (m_val m) = (of_int (gyro_z s) / gyro_lsb_per_dps st)%flt /\
  m_gyro_abs_max m
  = gyro_abs_max (g_x (m_val m)) (g_y (m_val m)) (g_z (m_val m)).
Proof.
  cbv zeta. unfold measured, accel_g, gyro_dps.
  destruct (sanity_check _ _ _ _ _) as [[[sn [[ax ay] az]] anorm] corrected].
  cbn. repeat split; reflexivity.
Qed.

(** The g values of a measurement are the raw accel counts over the accel
    scale as the sanity correction leaves it, and [anorm] is their norm. *)
Lemma measured_accel (st : app_state F) (s : icm42688_sample_s) :
  let m := measured st s in
  let lsb := accel_lsb_per_g (m_scale m) in
  a_x (m_val m) = (of_int (accel_x s) / lsb)%flt /\
  a_y (m_val m) = (of_int (accel_y s) / lsb)%flt /\
  a_z (m_val m) = (of_int (accel_z s) / lsb)%flt /\
  m_anorm m = norm3 (a_x (m_val m)) (a_y (m_val m)) (a_z (m_val m)).
Proof.
  cbv zeta. unfold measured, sanity_check, accel_g, gyro_dps.
  repeat match goal with
         | |- context [if ?b then _ else _] => destruct b
         end; cbn; repeat split; reflexivity.
Qed.

End Bias.

Section BiasFacts.
Context {F : Type} `{FloatOps F}.

(** The raw byte of the [[SANITY]] line is all that [acc_raw] decides. *)
Lemma process_with_fields (v : byte) (st : app_state F)
    (s : icm42688_sample_s) :
  let p := fst (fst (process_with v st s)) in
  let q := fst (fst (process_sample st s)) in
  first p = first q /\ fs_ready p = fs_ready q /\
  gyro_lsb_per_dps p = gyro_lsb_per_dps q /\ scale p = scale q /\
  bias p = bias q /\ filt_init p = filt_init q /\ filt p = filt q /\
  print_count p = print_count q.
Proof.
  cbv zeta. unfold process_sample, process_with. cbv zeta.
  destruct (lowpass _ _ _) as [init f]. cbn. repeat split; reflexivity.
Qed.

(** The scale after the frame is the scale of the measurement. *)
Lemma process_sample_m_scale (st : app_state F) (s : icm42688_sample_s) :
  scale (fst (fst (process_sample st s))) = m_scale (measured st s).
Proof.
  unfold process_sample, process_with. cbv zeta.
  destruct (lowpass _ _ _) as [init f]. reflexivity.
Qed.

(** The accel scale of a measurement: the scale it found, or that scale
    doubled or halved. *)
Lemma measured_scale_cases (st : app_state F) (s : icm42688_sample_s) :
  let lsb := accel_lsb_per_g (scale st) in
  let lsb' := accel_lsb_per_g (m_scale (measured st s)) in
  lsb' = lsb \/ lsb' = (lsb * of_int 2)%flt \/ lsb' = (lsb * dec 1 2)%flt.
Proof.
  cbv zeta. unfold measured, sanity_check, accel_g, gyro_dps.
  repeat match goal with
         | |- context [if ?b then _ else _] => destruct b
         end; cbn; auto.
Qed.

(** The six values of a measurement, written out. *)
Lemma measured_values (st : app_state F) (s : icm42688_sample_s) :
  let m := measured st s in
  let lsb := accel_lsb_per_g (m_scale m) in
  m_val m
  = {| a_x := (of_int (accel_x s) / lsb)%flt;
       a_y := (of_int (accel_y s) / lsb)%flt;
       a_z := (of_int (accel_z s) / lsb)%flt;
       g_x := (of_int (gyro_x s) / gyro_lsb_per_dps st)%flt;
       g_y := (of_int (gyro_y s) / gyro_lsb_per_dps st)%flt;
       g_z := (of_int (gyro_z s) / gyro_lsb_per_dps st)%flt |}.
Proof.
  cbv zeta.
  destruct (measured_gyro st s) as (Hgx & Hgy & Hgz & _).
  destruct (measured_accel st s) as (Hax & Hay & Haz & _).
  cbv zeta in Hax, Hay, Haz.
  destruct (m_val (measured st s)) as [ax ay az gx gy gz].
  cbn [a_x a_y a_z g_x g_y g_z] in *. subst. reflexivity.
Qed.

End BiasFacts.

Section LoopBias.
Context {W : Type} `{World W} {F : Type} `{FloatOps F}.

(** What [fetch_scales] leaves: the state as it was, or the state with the
    fetched scales; and it lets the iteration go on only with the scales
    marked ready. *)
Lemma fetch_scales_cases dev (st : app_state F) w :
  let go := fst (fst (fetch_scales dev st w)) in
  let st1 := snd (fst (fetch_scales dev st w)) in
  (go = false /\ st1 = st /\ fs_ready st = false) \/
  (go = true /\ st1 = st /\ fs_ready st = true) \/
  (go = true /\ fs_ready st = false /\
   exists a g, st1 = with_scales st a g).
Proof.
  cbv zeta. destruct (fetch_scales dev st w) as [[go st1] w1] eqn:E.
  cbn [fst snd]. unfold fetch_scales in E.
  destruct (fs_ready st) eqn:Hr; cbn [negb] in E.
  - inversion E; subst. right; left. auto.
  - unfold bind at 1 in E.
    destruct (icm_ioctl_dev dev ICM_IOCTL_GET_SCALES false w) as [[r out] w0].
    destruct (r =? 0); [destruct out|]; cbn in E;
      try (inversion E; subst; right; right;
           repeat split; eexists; eexists; reflexivity);
      unfold bind, ret in E; destruct (usleep 100000 w0);
      inversion E; subst; left; auto.
Qed.

(** The iteration from the point where the scales are ready: the frame is
    processed, with some value of [acc_raw]. *)
Lemma loop_tail_processes dev (st : app_state F) (s : icm42688_sample_s) w :
  exists v,
    fst ((acc_raw <- (if m_corrected (measured st s) then fetch_acc_raw dev
                      else ret x00) ;;
          let '(st', _, printed) := process_with acc_raw st s in
          (if printed then usleep 2000 else ret tt) ;;;
          usleep 100000 ;;;
          ret st')%io w)
    = fst (fst (process_with v st s)).
Proof.
  unfold bind at 1.
  destruct ((if m_corrected (measured st s) then fetch_acc_raw dev
             else ret x00) w) as [v w1].
  exists v. destruct (process_with v st s) as [[st' corrected] printed].
  destruct printed; unfold bind, ret;
    repeat match goal with
           | |- context [let (_, _) := ?c in _] => destruct c
           end; reflexivity.
Qed.

(** A frame read with [first] cleared and the scales ready is processed. *)
Lemma loop_body_processes dev (st : app_state F) w s w1 :
  icm_read_dev dev sizeof_sample w = ((sizeof_sample, Some s), w1) ->
  first st = false -> fs_ready st = true ->
  exists v, fst (loop_body dev st w) = fst (fst (process_with v st s)).
Proof.
  intros Hrd Hfirst Hready. unfold loop_body. step_with Hrd.
  change (sizeof_sample =? sizeof_sample) with true. cbv iota.
  rewrite Hfirst. unfold fetch_scales. rewrite Hready. cbn [negb].
  unfold bind at 1. unfold ret at 1. cbv beta iota. cbn [negb].
  rewrite Hready. cbn [negb]. apply loop_tail_processes.
Qed.

(** A frame read with [first] cleared and the scales not yet fetched: when
    the scale ioctl succeeds, the frame is processed with the scales
    fetched. *)
Lemma loop_body_fetches dev (st : app_state F) w s w1 a g w2 :
  icm_read_dev dev sizeof_sample w = ((sizeof_sample, Some s), w1) ->
  first st = false -> fs_ready st = false ->
  icm_ioctl_dev dev ICM_IOCTL_GET_SCALES false w1
    = ((0, OutScales a g), w2) ->
  exists v,
    fst (loop_body dev st w)
    = fst (fst (process_with v (with_scales st a g) s)).
Proof.
  intros Hrd Hfirst Hready Hio. unfold loop_body. step_with Hrd.
  change (sizeof_sample =? sizeof_sample) with true. cbv iota.
  rewrite Hfirst. unfold fetch_scales. rewrite Hready. cbn [negb].
  unfold bind at 1. unfold bind at 1. rewrite Hio.
  change (0 =? 0) with true. cbv iota. unfold ret at 1. cbv beta iota.
  cbn [negb with_scales fs_ready]. apply loop_tail_processes.
Qed.

(** The state one iteration leaves. *)
Lemma loop_body_shape dev (st : app_state F) w (res : app_state F) :
  res = fst (loop_body dev st w) ->
  res = st \/
  (first st = true /\ res = clear_first st) \/
  (first st = false /\
   exists st0 s v,
     fs_ready st0 = true /\
     (st0 = st \/ exists a g, fs_ready st = false /\ st0 = with_scales st a g)
     /\ snd (fst (icm_read_dev dev sizeof_sample w)) = Some s
     /\ res = fst (fst (process_with v st0 s))).
Proof.
  intros Hres. unfold loop_body in Hres. unfold bind at 1 in Hres.
  destruct (icm_read_dev dev sizeof_sample w) as [[n s] w1].
  destruct (n =? sizeof_sample); [destruct s as [s |]|].
  - destruct (first st) eqn:Hfirst.
    + right; left. unfold bind, ret in Hres. destruct (usleep 10000 w1).
      subst res. auto.
    + unfold bind at 1 in Hres.
      pose proof (fetch_scales_cases dev st w1) as Hf. cbv zeta in Hf.
      destruct (fetch_scales dev st w1) as [[go st1] w2]. cbn [fst snd] in Hf.
      destruct Hf as [(-> & -> & Hr) | [(-> & -> & Hr) | (-> & Hr & a & g & ->)]].
      * left. cbn in Hres. exact Hres.
      * cbn [negb] in Hres. rewrite Hr in Hres. cbn [negb] in Hres.
        destruct (loop_tail_processes dev st s w2) as [v Hv].
        right; right. split; [reflexivity|]. exists st, s, v.
        split; [exact Hr|]. split; [left; reflexivity|].
        split; [reflexivity|]. rewrite <- Hv. exact Hres.
      * cbn [negb with_scales fs_ready] in Hres.
        destruct (loop_tail_processes dev (with_scales st a g) s w2)
          as [v Hv].
        right; right. split; [reflexivity|].
        exists (with_scales st a g), s, v.
        split; [reflexivity|].
        split; [right; exists a, g; split; [exact Hr | reflexivity]|].
        split; [reflexivity|]. rewrite <- Hv. exact Hres.
  - left. unfold bind, ret in Hres.
    destruct (usleep 10000 w1) as [u w2]. destruct (usleep 100000 w2).
    subst res. reflexivity.
  - left. unfold bind, ret in Hres.
    destruct (usleep 10000 w1) as [u w2]. destruct (usleep 100000 w2).
    subst res. reflexivity.
Qed.

End LoopBias.

(** C7.  A frame [s] that reaches the processing stage is turned into
    three g values, the raw accel counts divided by the accel scale as the
    sanity step leaves it (the scale found, or that scale doubled or
    halved), and three dps values, the raw gyro counts divided by the gyro
    scale.  [gmax] is the running maximum of the absolute dps values,
    started at 0, and [anorm] is [sqrtf] of the sum of the squares of the
    g values.  The frame is stable exactly when [gmax < 1.0] and
    [fabsf(anorm - 1.0) < 0.02].  If it is, each of the six bias
    accumulators becomes [(1 - 0.005) * bias + 0.005 * value]; if it is
    not, all six are left as they were.  Either way the filter is fed
    every axis with the bias, as it now stands, subtracted.  In the loop,
    an iteration that reads a frame with [first] cleared and the scales
    ready leaves the bias and the filter of that frame's processing, and
    so does one that has just fetched the scales; any other iteration
    (no frame, the discarded first frame, scales not available) leaves
    the bias as it was.  In single precision, for dps values that are
    numbers, [gmax < 1.0] says that each of the three absolute values is
    below 1.0. *)
Theorem C7_bias_updated_iff_stable {F : Type} `{FloatOps F}
    (st : app_state F) (s : icm42688_sample_s) :
  let st' := fst (fst (process_sample st s)) in
  let lsb := accel_lsb_per_g (scale st') in
  let ax := (of_int (accel_x s) / lsb)%flt in
  let ay := (of_int (accel_y s) / lsb)%flt in
  let az := (of_int (accel_z s) / lsb)%flt in
  let gx := (of_int (gyro_x s) / gyro_lsb_per_dps st)%flt in
  let gy := (of_int (gyro_y s) / gyro_lsb_per_dps st)%flt in
  let gz := (of_int (gyro_z s) / gyro_lsb_per_dps st)%flt in
  let m1 := (if of_int 0 <? fabs gx then fabs gx else of_int 0)%flt in
  let m2 := (if m1 <? fabs gy then fabs gy else m1)%flt in
  let gmax := (if m2 <? fabs gz then fabs gz else m2)%flt in
  let anorm := fsqrt (ax * ax + ay * ay + az * az)%flt in
  let stable :=
    ((gmax <? of_int 1) && (fabs (anorm - of_int 1) <? dec 2 100))%flt in
  let upd b x := ((of_int 1 - dec 5 1000) * b + dec 5 1000 * x)%flt in
  (lsb = accel_lsb_per_g (scale st) \/
   lsb = (accel_lsb_per_g (scale st) * of_int 2)%flt \/
   lsb = (accel_lsb_per_g (scale st) * dec 1 2)%flt) /\
  (stable = true ->
   bias st' = {| a_x := upd (a_x (bias st)) ax;
                 a_y := upd (a_y (bias st)) ay;
                 a_z := upd (a_z (bias st)) az;
                 g_x := upd (g_x (bias st)) gx;
                 g_y := upd (g_y (bias st)) gy;
                 g_z := upd (g_z (bias st)) gz |}) /\
  (stable = false -> bias st' = bias st) /\
  (filt_init st', filt st')
  = lowpass (filt_init st) (filt st)
      {| a_x := (ax - a_x (bias st'))%flt;
         a_y := (ay - a_y (bias st'))%flt;
         a_z := (az - a_z (bias st'))%flt;
         g_x := (gx - g_x (bias st'))%flt;
         g_y := (gy - g_y (bias st'))%flt;
         g_z := (gz - g_z (bias st'))%flt |} /\
  (forall (W : Type) (HW : World W) dev (w w1 : W),
      icm_read_dev dev sizeof_sample w = ((sizeof_sample, Some s), w1) ->
      first st = false -> fs_ready st = true ->
      bias (fst (loop_body dev st w)) = bias st' /\
      filt_init (fst (loop_body dev st w)) = filt_init st' /\
      filt (fst (loop_body dev st w)) = filt st') /\
  (forall (W : Type) (HW : World W) dev (w w1 w2 : W) a g,
      icm_read_dev dev sizeof_sample w = ((sizeof_sample, Some s), w1) ->
      first st = false -> fs_ready st = false ->
      icm_ioctl_dev dev ICM_IOCTL_GET_SCALES false w1
        = ((0, OutScales a g), w2) ->
      bias (fst (loop_body dev st w))
      = bias (fst (fst (process_sample (with_scales st a g) s)))) /\
  (forall (W : Type) (HW : World W) dev (w : W),
      bias (fst (loop_body dev st w)) = bias st \/
      exists st0 s0,
        snd (fst (icm_read_dev dev sizeof_sample w)) = Some s0 /\
        first st = false /\ fs_ready st0 = true /\
        bias st0 = bias st /\
        bias (fst (loop_body dev st w))
        = bias (fst (fst (process_sample st0 s0)))) /\
  (forall x y z : Binary32.float32,
      Binary32.is_nan x = false -> Binary32.is_nan y = false ->
      Binary32.is_nan z = false ->
      (let n1 := if of_int 0 <? fabs x then fabs x else of_int 0 in
       let n2 := if n1 <? fabs y then fabs y else n1 in
       (if n2 <? fabs z then fabs z else n2) <? of_int 1)%flt
      = (fabs x <? of_int 1)%flt && (fabs y <? of_int 1)%flt
        && (fabs z <? of_int 1)%flt).
Proof.
  intros st' lsb ax ay az gx gy gz m1 m2 gmax anorm stable upd.
  assert (Hsc : scale st' = m_scale (measured st s))
    by apply process_sample_m_scale.
  assert (Hv : m_val (measured st s)
               = {| a_x := ax; a_y := ay; a_z := az;
                    g_x := gx; g_y := gy; g_z := gz |}).
  { rewrite measured_values. subst ax ay az lsb. rewrite Hsc. reflexivity. }
  assert (Hst : is_stable (m_gyro_abs_max (measured st s))
                  (m_anorm (measured st s)) = stable).
  { destruct (measured_gyro st s) as (_ & _ & _ & Hg).
    destruct (measured_accel st s) as (_ & _ & _ & Ha).
    cbv zeta in Hg, Ha. rewrite Hg, Ha, Hv. reflexivity. }
  assert (Hb : bias st' = bias_update stable (bias st)
                            {| a_x := ax; a_y := ay; a_z := az;
                               g_x := gx; g_y := gy; g_z := gz |}).
  { subst st'. rewrite process_sample_bias, Hst, Hv. reflexivity. }
  split; [| split; [| split; [| split; [| split; [| split; [| split]]]]]].
  - subst lsb. rewrite Hsc. apply measured_scale_cases.
  - intros Hs. rewrite Hb, Hs. reflexivity.
  - intros Hs. rewrite Hb, Hs. reflexivity.
  - pose proof (process_sample_filter st s) as Hf. cbv zeta in Hf.
    rewrite Hv in Hf. exact Hf.
  - intros W HW dev w w1 Hrd Hfirst Hready.
    destruct (loop_body_processes dev st w s w1 Hrd Hfirst Hready) as [v ->].
    destruct (process_with_fields v st s) as (_ & _ & _ & _ & B & I & Fl & _).
    auto.
  - intros W HW dev w w1 w2 a g Hrd Hfirst Hready Hio.
    destruct (loop_body_fetches dev st w s w1 a g w2 Hrd Hfirst Hready Hio)
      as [v ->].
    destruct (process_with_fields v (with_scales st a g) s)
      as (_ & _ & _ & _ & B & _).
    exact B.
  - intros W HW dev w.
    destruct (loop_body_shape dev st w _ eq_refl)
      as [-> | [[_ ->] | (Hf & st0 & s0 & v & Hr0 & Hst0 & Hs0 & ->)]];
      [left; reflexivity | left; reflexivity |].
    right. exists st0, s0.
    destruct (process_with_fields v st0 s0) as (_ & _ & _ & _ & B & _).
    repeat split; try assumption.
    destruct Hst0 as [-> | (a & g & _ & ->)]; reflexivity.
  - intros x y z Hx Hy Hz.
    exact (gyro_abs_max_below x y z (of_int 1) Hx Hy Hz).
Qed.

(** Seen through the scales 2048 and 16.4, the sample 1182, 1182, 1182 and
    8, -8, 4 is stable only by its three accel axes together, and from a
    zero bias every accumulator becomes 0.005 times its value.  On
    [Scenario.chip_c7] the third iteration reads that sample with the
    scales ready, and the bias it leaves is the bias of its processing: the
    second update of each accumulator. *)
Lemma C7_bias_updated_iff_stable_witness :
  bias (fst (fst (process_sample (F := Binary32.float32)
                    (with_scales app_init 2048 164) Cases.tilted)))
  = {| a_x := (dec 5 1000 * (of_int 1182 / of_int 2048))%flt;
       a_y := (dec 5 1000 * (of_int 1182 / of_int 2048))%flt;
       a_z := (dec 5 1000 * (of_int 1182 / of_int 2048))%flt;
       g_x := (dec 5 1000 * (of_int 8 / dec 164 10))%flt;
       g_y := (dec 5 1000 * (of_int (-8) / dec 164 10))%flt;
       g_z := (dec 5 1000 * (of_int 4 / dec 164 10))%flt |} /\
  (let st2 := fst (run_loop (F := Binary32.float32) 2 Sim.dev68 app_init
                     Scenario.chip_c7) in
   let w2 := snd (run_loop (F := Binary32.float32) 2 Sim.dev68 app_init
                    Scenario.chip_c7) in
   let u b x := ((of_int 1 - dec 5 1000) * b + dec 5 1000 * x)%flt in
   a_x (bias st2) = (dec 5 1000 * (of_int 1182 / of_int 2048))%flt /\
   g_y (bias st2) = (dec 5 1000 * (of_int (-8) / dec 164 10))%flt /\
   a_x (bias (fst (loop_body Sim.dev68 st2 w2)))
   = u (a_x (bias st2)) (of_int 1182 / of_int 2048)%flt /\
   g_y (bias (fst (loop_body Sim.dev68 st2 w2)))
   = u (g_y (bias st2)) (of_int (-8) / dec 164 10)%flt).
Proof.
  split.
  - pose proof (proj1 (proj2 (C7_bias_updated_iff_stable
                                (F := Binary32.float32)
                                (with_scales app_init 2048 164)
                                Cases.tilted))) as Hw.
    rewrite Hw; vm_compute; reflexivity.
  - cbv zeta.
    set (st2 := fst (run_loop (F := Binary32.float32) 2 Sim.dev68 app_init
                       Scenario.chip_c7)).
    set (w2 := snd (run_loop (F := Binary32.float32) 2 Sim.dev68 app_init
                      Scenario.chip_c7)).
    assert (Hrd : icm_read_dev Sim.dev68 sizeof_sample w2
                  = ((sizeof_sample, Some Cases.tilted),
                     snd (icm_read_dev Sim.dev68 sizeof_sample w2)))
      by (vm_compute; reflexivity).
    assert (Hfirst : first st2 = false) by (vm_compute; reflexivity).
    assert (Hready : fs_ready st2 = true) by (vm_compute; reflexivity).
    destruct (C7_bias_updated_iff_stable (F := Binary32.float32)
                st2 Cases.tilted)
      as (_ & Hstable & _ & _ & Hloop & _).
    destruct (Hloop Sim.chip Sim.world Sim.dev68 w2 _ Hrd Hfirst Hready)
      as (Hbias & _ & _).
    rewrite Hbias, Hstable by (vm_compute; reflexivity).
    repeat split; vm_compute; reflexivity.
Defined.

(* ===================================================================== *)
(** * 20. The acquisition pipeline: sanity correction of the accel scale *)
(* ===================================================================== *)

Section Sanity.
Context {F : Type} `{FloatOps F}.

(** What [process_sample] does to the correction state. *)
Lemma process_sample_scale (st : app_state F) (s : icm42688_sample_s) :
  let st' := fst (fst (process_sample st s)) in
  fs_ready st' = fs_ready st /\
  scale st'
  = fst (fst (fst (sanity_check (fs_ready st) (scale st) s
                     (accel_g s (accel_lsb_per_g (scale st)))
                     (let '(ax, ay, az) :=
                        accel_g s (accel_lsb_per_g (scale st)) in
                      norm3 ax ay az)))).
Proof.
  cbv zeta. unfold process_sample, process_with. cbv zeta.
  destruct (lowpass _ _ _) as [init f]. cbn [fst snd fs_ready scale].
  split; [reflexivity|].
  unfold measured, accel_g, gyro_dps.
  destruct (sanity_check _ _ _ _ _) as [[[sn [[ax ay] az]] anorm] corrected].
  reflexivity.
Qed.

(** Once the latch is set, the accel scale and the latch stay as they are. *)
Lemma sanity_check_latched ready (sn : sanity F) s g anorm :
  accel_scale_sanity_fixed sn = true ->
  let sn' := fst (fst (fst (sanity_check ready sn s g anorm))) in
  accel_lsb_per_g sn' = accel_lsb_per_g sn /\
  accel_scale_sanity_fixed sn' = true /\
  snd (sanity_check ready sn s g anorm) = false.
Proof.
  intros Hfix. cbv zeta. unfold sanity_check. rewrite Hfix.
  rewrite !andb_false_r. cbn [andb negb]. repeat split; assumption.
Qed.

Lemma run_samples_latched frames : forall st : app_state F,
  accel_scale_sanity_fixed (scale st) = true ->
  accel_lsb_per_g (scale (run_samples st frames)) = accel_lsb_per_g (scale st)
  /\ accel_scale_sanity_fixed (scale (run_samples st frames)) = true.
Proof.
  induction frames as [| s frames IH]; intros st Hfix.
  - split; [reflexivity | exact Hfix].
  - unfold run_samples. cbn [fold_left]. fold (run_samples
      (fst (fst (process_sample st s))) frames).
    destruct (process_sample_scale st s) as [_ Hsc].
    destruct (sanity_check_latched (fs_ready st) (scale st) s
                (accel_g s (accel_lsb_per_g (scale st)))
                (let '(ax, ay, az) := accel_g s (accel_lsb_per_g (scale st)) in
                 norm3 ax ay az) Hfix) as (Hl & Hf & _).
    rewrite <- Hsc in Hl, Hf.
    destruct (IH _ Hf) as [IHl IHf].
    split; [rewrite IHl; exact Hl | exact IHf].
Qed.

(** A run of frames in the high band, long enough to bring the high
    counter to 5, doubles the scale and sets the latch. *)
Lemma high_run_doubles frames : forall st : app_state F,
  fs_ready st = true ->
  accel_scale_sanity_fixed (scale st) = false ->
  (accel_lsb_per_g (scale st) <? of_int 65536)%flt = true ->
  frames <> [] ->
  5 <= anorm_high_cnt (scale st) + Z.of_nat (List.length frames) ->
  Forall (fun s => in_high_band (anorm_at (accel_lsb_per_g (scale st)) s) = true)
    frames ->
  accel_lsb_per_g (scale (run_samples st frames))
  = (accel_lsb_per_g (scale st) * of_int 2)%flt /\
  accel_scale_sanity_fixed (scale (run_samples st frames)) = true.
Proof.
  induction frames as [| s frames IH]; intros st Hready Hfix Hlt Hne Hcnt Hall;
    [contradiction|].
  inversion Hall as [| s' fr' Hs Hrest]; subst.
  unfold run_samples. cbn [fold_left].
  fold (run_samples (fst (fst (process_sample st s))) frames).
  destruct (process_sample_scale st s) as [Hrd Hsc].
  set (st1 := fst (fst (process_sample st s))) in *.
  unfold anorm_at in Hs. cbv zeta in Hsc.
  unfold sanity_check in Hsc.
  rewrite Hready, Hfix, Hs in Hsc. cbn [andb negb] in Hsc. rewrite Hlt in Hsc.
  unfold anorm_trigger_frames in Hsc.
  destruct (Z.leb_spec 5 (anorm_high_cnt (scale st) + 1)) as [Htrig | Hno].
  - cbn [andb] in Hsc.
    destruct (accel_g s (accel_lsb_per_g (scale st) * of_int 2)%flt)
      as [[ax ay] az].
    cbn [fst] in Hsc.
    assert (Hf1 : accel_scale_sanity_fixed (scale st1) = true)
      by (rewrite Hsc; reflexivity).
    destruct (run_samples_latched frames st1 Hf1) as [Hl Hf].
    rewrite Hl, Hsc. split; [reflexivity | exact Hf].
  - cbn [andb fst] in Hsc.
    destruct frames as [| s2 frames].
    + cbn [List.length] in Hcnt. lia.
    + assert (Hl1 : accel_lsb_per_g (scale st1) = accel_lsb_per_g (scale st))
        by (rewrite Hsc; reflexivity).
      rewrite <- Hl1. apply IH.
      * rewrite Hrd. exact Hready.
      * rewrite Hsc. reflexivity.
      * rewrite Hl1. exact Hlt.
      * discriminate.
      * rewrite Hsc. cbn [anorm_high_cnt]. cbn [List.length] in *. lia.
      * rewrite Hl1. exact Hrest.
Qed.

(** The same for the low band; the frames must miss the high band, which
    is tested first. *)
Lemma low_run_halves frames : forall st : app_state F,
  fs_ready st = true ->
  accel_scale_sanity_fixed (scale st) = false ->
  fgtb (accel_lsb_per_g (scale st)) (of_int 512) = true ->
  frames <> [] ->
  5 <= anorm_low_cnt (scale st) + Z.of_nat (List.length frames) ->
  Forall (fun s =>
            in_high_band (anorm_at (accel_lsb_per_g (scale st)) s) = false /\
            in_low_band (anorm_at (accel_lsb_per_g (scale st)) s) = true)
    frames ->
  accel_lsb_per_g (scale (run_samples st frames))
  = (accel_lsb_per_g (scale st) * dec 1 2)%flt /\
  accel_scale_sanity_fixed (scale (run_samples st frames)) = true.
Proof.
  induction frames as [| s frames IH]; intros st Hready Hfix Hgt Hne Hcnt Hall;
    [contradiction|].
  inversion Hall as [| s' fr' [Hnh Hs] Hrest]; subst.
  unfold run_samples. cbn [fold_left].
  fold (run_samples (fst (fst (process_sample st s))) frames).
  destruct (process_sample_scale st s) as [Hrd Hsc].
  set (st1 := fst (fst (process_sample st s))) in *.
  unfold anorm_at in Hs, Hnh. cbv zeta in Hsc.
  unfold sanity_check in Hsc.
  rewrite Hready, Hfix, Hs, Hnh in Hsc. cbn [andb negb] in Hsc.
  rewrite Hgt in Hsc. unfold anorm_trigger_frames in Hsc.
  destruct (Z.leb_spec 5 (anorm_low_cnt (scale st) + 1)) as [Htrig | Hno].
  - cbn [andb] in Hsc.
    destruct (accel_g s (accel_lsb_per_g (scale st) * dec 1 2)%flt)
      as [[ax ay] az].
    cbn [fst] in Hsc.
    assert (Hf1 : accel_scale_sanity_fixed (scale st1) = true)
      by (rewrite Hsc; reflexivity).
    destruct (run_samples_latched frames st1 Hf1) as [Hl Hf].
    rewrite Hl, Hsc. split; [reflexivity | exact Hf].
  - cbn [andb fst] in Hsc.
    destruct frames as [| s2 frames].
    + cbn [List.length] in Hcnt. lia.
    + assert (Hl1 : accel_lsb_per_g (scale st1) = accel_lsb_per_g (scale st))
        by (rewrite Hsc; reflexivity).
      rewrite <- Hl1. apply IH.
      * rewrite Hrd. exact Hready.
      * rewrite Hsc. reflexivity.
      * rewrite Hl1. exact Hgt.
      * discriminate.
      * rewrite Hsc. cbn [anorm_low_cnt]. cbn [List.length] in *. lia.
      * rewrite Hl1. exact Hrest.
Qed.

(** One frame either leaves scale and latch as they are, or finds the
    latch unset, sets it and doubles or halves the scale. *)
Lemma sanity_check_step ready (sn : sanity F) s g anorm :
  let sn' := fst (fst (fst (sanity_check ready sn s g anorm))) in
  accel_lsb_per_g sn' = accel_lsb_per_g sn /\
    accel_scale_sanity_fixed sn' = accel_scale_sanity_fixed sn \/
  accel_scale_sanity_fixed sn = false /\
    accel_scale_sanity_fixed sn' = true /\
    (accel_lsb_per_g sn' = (accel_lsb_per_g sn * of_int 2)%flt \/
     accel_lsb_per_g sn' = (accel_lsb_per_g sn * dec 1 2)%flt).
Proof.
  cbv zeta. unfold sanity_check.
  destruct (accel_scale_sanity_fixed sn) eqn:Hfix.
  - rewrite !andb_false_r. cbn [andb negb fst]. left. split; reflexivity.
  - unfold accel_g.
    repeat match goal with
           | |- context [if ?b then _ else _] => destruct b
           end; cbn; auto.
Qed.

(** Over any sequence of frames the scale is adjusted at most once. *)
Lemma run_samples_adjusts_once frames : forall st : app_state F,
  let st' := run_samples st frames in
  accel_lsb_per_g (scale st') = accel_lsb_per_g (scale st) /\
    accel_scale_sanity_fixed (scale st') = accel_scale_sanity_fixed (scale st)
  \/
  accel_scale_sanity_fixed (scale st) = false /\
    accel_scale_sanity_fixed (scale st') = true /\
    (accel_lsb_per_g (scale st') = (accel_lsb_per_g (scale st) * of_int 2)%flt
     \/ accel_lsb_per_g (scale st')
         = (accel_lsb_per_g (scale st) * dec 1 2)%flt).
Proof.
  induction frames as [| s frames IH]; intros st; cbv zeta.
  - left. split; reflexivity.
  - unfold run_samples. cbn [fold_left].
    fold (run_samples (fst (fst (process_sample st s))) frames).
    destruct (process_sample_scale st s) as [_ Hsc].
    set (st1 := fst (fst (process_sample st s))) in *.
    pose proof (sanity_check_step (fs_ready st) (scale st) s
                  (accel_g s (accel_lsb_per_g (scale st)))
                  (let '(ax, ay, az) :=
                     accel_g s (accel_lsb_per_g (scale st)) in
                   norm3 ax ay az)) as Hstep.
    cbv zeta in Hstep, Hsc. rewrite <- Hsc in Hstep.
    destruct Hstep as [[Hl Hf] | (Hf0 & Hf1 & Hl)].
    + specialize (IH st1). cbv zeta in IH. rewrite Hl, Hf in IH. exact IH.
    + destruct (run_samples_latched frames st1 Hf1) as [Hl' Hf'].
      right. split; [exact Hf0|]. split; [exact Hf'|].
      rewrite Hl'. exact Hl.
Qed.

(** Outside the two counting branches a counter is cleared when the norm
    is outside its band (by the [<=] and [>=] tests of that branch). *)
Lemma sanity_check_clears ready (sn : sanity F) s g anorm :
  ready && negb (accel_scale_sanity_fixed sn) && in_high_band anorm = false ->
  ready && negb (accel_scale_sanity_fixed sn) && in_low_band anorm = false ->
  let sn' := fst (fst (fst (sanity_check ready sn s g anorm))) in
  ((anorm <=? dec 17 10)%flt || fgeb anorm (dec 23 10) = true ->
   anorm_high_cnt sn' = 0) /\
  ((anorm <=? dec 45 100)%flt || fgeb anorm (dec 65 100) = true ->
   anorm_low_cnt sn' = 0).
Proof.
  intros Hh Hl. cbv zeta. unfold sanity_check. rewrite Hh, Hl.
  cbn [fst anorm_high_cnt anorm_low_cnt].
  split; intros ->; reflexivity.
Qed.

(** In the high-band branch the low counter is carried over unchanged. *)
Lemma sanity_check_high_keeps_low ready (sn : sanity F) s g anorm :
  ready && negb (accel_scale_sanity_fixed sn) && in_high_band anorm = true ->
  (anorm_trigger_frames <=? anorm_high_cnt sn + 1) = false ->
  anorm_low_cnt (fst (fst (fst (sanity_check ready sn s g anorm))))
  = anorm_low_cnt sn.
Proof.
  intros Hh Hc. unfold sanity_check. rewrite Hh, Hc. reflexivity.
Qed.

End Sanity.

(** C6, evaluated on [Scenario.chip_c6].  The loop discards one frame,
    fetches the scales (2048 counts per g) and processes four frames at
    0.5 g: the low counter stands at 4.  The next frame is at 2 g, inside
    the high band and outside the low band; the high counter goes to 1 and
    the low counter is not cleared.  One more frame at 0.5 g then brings
    the low counter to 5: the scale is halved to 1024 and the latch is set,
    on a run of a single low-band frame. *)
Theorem C6_low_counter_survives_high_frame :
  let after n :=
    fst (run_loop (F := Binary32.float32) n Sim.dev68 app_init
           Scenario.chip_c6) in
  let at_2g := {| accel_x := 0; accel_y := 0; accel_z := 4096;
                  gyro_x := 0; gyro_y := 0; gyro_z := 0 |} in
  scale (after 5%nat)
  = {| accel_lsb_per_g := of_int 2048; accel_scale_sanity_fixed := false;
       anorm_high_cnt := 0; anorm_low_cnt := 4 |} /\
  in_high_band (m_anorm (measured (after 5%nat) at_2g)) = true /\
  in_low_band (m_anorm (measured (after 5%nat) at_2g)) = false /\
  scale (after 6%nat)
  = {| accel_lsb_per_g := of_int 2048; accel_scale_sanity_fixed := false;
       anorm_high_cnt := 1; anorm_low_cnt := 4 |} /\
  scale (after 7%nat)
  = {| accel_lsb_per_g := of_int 1024; accel_scale_sanity_fixed := true;
       anorm_high_cnt := 0; anorm_low_cnt := 0 |}.
Proof.
  cbv zeta. repeat split; vm_compute; reflexivity.
Qed.

(* ===================================================================== *)
(** * 21. The acquisition pipeline: low-pass filter *)
(* ===================================================================== *)

Section Filter.
Context {F : Type} `{FloatOps F}.




End Filter.

Section ExactFilter.
Local Open Scope R_scope.






End ExactFilter.




(* ===================================================================== *)
(** * 22. Frames and samples: further properties *)
(* ===================================================================== *)

(** X1.  A frame is accepted exactly when at least 16 bytes are announced; a
    refused frame leaves the output sample as it was, and an accepted one
    overwrites all of it from bytes 1 to 12 alone: the status byte, the three
    trailing bytes and the previous content of the output play no part.  The
    accel axes of an accepted frame lie in [-16384, 16383]. *)
Theorem parse_fifo_sample_frame (buf buf' : list byte) (len : nat)
    (out out' : icm42688_sample_s) :
  ((len < 16)%nat -> icm_parse_fifo_sample buf len out = (- EINVAL, out)) /\
  ((16 <= len)%nat ->
   fst (icm_parse_fifo_sample buf len out) = OK /\
   -16384 <= accel_x (snd (icm_parse_fifo_sample buf len out)) <= 16383 /\
   -16384 <= accel_y (snd (icm_parse_fifo_sample buf len out)) <= 16383 /\
   -16384 <= accel_z (snd (icm_parse_fifo_sample buf len out)) <= 16383 /\
   ((forall i, (1 <= i <= 12)%nat -> Int.at_ buf i = Int.at_ buf' i) ->
    icm_parse_fifo_sample buf len out = icm_parse_fifo_sample buf' len out')).
Proof.
  unfold icm_parse_fifo_sample, ICM_FIFO_READ_LEN.
  split; intros Hlen.
  - destruct (Nat.ltb_spec len 16); [reflexivity | lia].
  - destruct (Nat.ltb_spec len 16) as [Hlt | _]; [lia|]. cbn [fst snd].
    assert (Hhalf : forall hi lo, -16384 <= Int.asr1 (Int.be16 hi lo) <= 16383).
    { intros hi lo. rewrite asr1_half by apply be16_range.
      pose proof (be16_range hi lo) as Hr. unfold Int.int16_range in Hr.
      pose proof (Z.div_le_mono (-32768) _ 2 eq_refl (proj1 Hr)).
      pose proof (Z.div_le_mono _ 32767 2 eq_refl (proj2 Hr)).
      change (-32768 / 2) with (-16384) in *.
      change (32767 / 2) with 16383 in *. lia. }
    split; [reflexivity|]. cbn [accel_x accel_y accel_z].
    repeat (split; [apply Hhalf|]).
    intros Hsame.
    rewrite !(Hsame 1%nat), !(Hsame 2%nat), !(Hsame 3%nat), !(Hsame 4%nat),
      !(Hsame 5%nat), !(Hsame 6%nat), !(Hsame 7%nat), !(Hsame 8%nat),
      !(Hsame 9%nat), !(Hsame 10%nat), !(Hsame 11%nat), !(Hsame 12%nat)
      by lia.
    reflexivity.
Qed.

(** Two 16-byte frames that differ in the status byte and after byte 12
    decode alike; a 15-byte announcement is refused. *)
Lemma parse_fifo_sample_frame_witness :
  icm_parse_fifo_sample Scenario.frame_c1 16 sample_zero
  = icm_parse_fifo_sample
      [x00; x00; x04; xff; xfc; x40; x00; x01; x02; xff; xfe; x80; x00;
       xaa; xbb; xcc] 16 Cases.at_rest /\
  icm_parse_fifo_sample Scenario.frame_c1 15 Cases.at_rest
  = (- EINVAL, Cases.at_rest).
Proof.
  destruct (parse_fifo_sample_frame Scenario.frame_c1
              [x00; x00; x04; xff; xfc; x40; x00; x01; x02; xff; xfe; x80;
               x00; xaa; xbb; xcc] 16 sample_zero Cases.at_rest)
    as [_ Hok].
  destruct (Hok (Nat.le_refl 16)) as (_ & _ & _ & _ & Hsame).
  split.
  - apply Hsame. intros i Hi.
    do 13 (destruct i as [| i]; [try reflexivity; lia|]). lia.
  - apply (proj1 (parse_fifo_sample_frame Scenario.frame_c1 [] 15
                    Cases.at_rest sample_zero)). lia.
Defined.

Section SamplePath.
Context {W : Type} `{World W} {F : Type} `{FloatOps F}.

(** The outcomes of [icm_read_oneshot]. *)
Lemma icm_read_oneshot_cases dev len w :
  len < sizeof_sample /\
    icm_read_oneshot dev len w = ((- EINVAL, None), w) \/
  sizeof_sample <= len /\
    exists r fifo_buf w',
      icm_i2c_read dev ICM_REG_FIFO_DATA ICM_FIFO_READ_LEN w
        = ((r, fifo_buf), w') /\
      (r < 0 /\ icm_read_oneshot dev len w = ((- EAGAIN, None), w') \/
       0 <= r /\
         icm_read_oneshot dev len w
         = ((sizeof_sample,
             Some (shift_accel
                     (snd (icm_parse_fifo_sample fifo_buf ICM_FIFO_READ_LEN
                             sample_zero)))), w')).
Proof.
  unfold icm_read_oneshot.
  destruct (Z.ltb_spec len sizeof_sample) as [Hlt | Hge].
  - left. split; [exact Hlt | reflexivity].
  - right. split; [exact Hge|].
    destruct (icm_i2c_read dev ICM_REG_FIFO_DATA ICM_FIFO_READ_LEN w)
      as [[r fifo_buf] w'] eqn:Hrd.
    exists r, fifo_buf, w'. split; [reflexivity|].
    destruct (Z.ltb_spec r 0) as [Hr | Hr].
    + left. split; [exact Hr|].
      step_with (icm_read_fifo_packet_bus_error dev sample_zero w r fifo_buf
                   w' Hrd Hr).
      reflexivity.
    + right. split; [exact Hr|].
      unfold icm_read_fifo_packet. unfold bind at 1. step_with Hrd.
      apply Z.ltb_ge in Hr. rewrite Hr. reflexivity.
Qed.

End SamplePath.

(** X2.  A user buffer of fewer than 12 bytes is refused with [-EINVAL]
    before anything is transferred.  Otherwise exactly the 16-byte FIFO read
    is made, and the call returns either 12 with a sample or [-EAGAIN] with
    none; a sample handed out has its accel axes in [-8192, 8191] and its
    gyro axes in [-32768, 32767]. *)
Theorem read_oneshot_outcomes {W : Type} `{World W}
    (dev : icm42688_dev_s) (len : Z) (w : W) :
  (len < 12 -> icm_read_oneshot dev len w = ((- EINVAL, None), w)) /\
  (12 <= len ->
   snd (icm_read_oneshot dev len w)
   = snd (icm_i2c_read dev ICM_REG_FIFO_DATA ICM_FIFO_READ_LEN w) /\
   (fst (icm_read_oneshot dev len w) = (- EAGAIN, None) \/
    exists s,
      fst (icm_read_oneshot dev len w) = (12, Some s) /\
      -8192 <= accel_x s <= 8191 /\ -8192 <= accel_y s <= 8191 /\
      -8192 <= accel_z s <= 8191 /\
      Int.int16_range (gyro_x s) /\ Int.int16_range (gyro_y s) /\
      Int.int16_range (gyro_z s))).
Proof.
  change 12 with sizeof_sample.
  destruct (icm_read_oneshot_cases dev len w)
    as [[Hlt Hr] | [Hge (r & fifo_buf & w' & Hrd & Hcase)]].
  - split; [intros _; exact Hr | intros Hge; lia].
  - split; [intros Hlt; lia | intros _].
    rewrite Hrd. cbn [snd].
    destruct Hcase as [[_ Hr] | [Hr0 Hr]]; rewrite Hr; cbn [fst snd].
    + split; [reflexivity | left; reflexivity].
    + split; [reflexivity | right].
      eexists. split; [reflexivity|].
      unfold icm_parse_fifo_sample, shift_accel. cbn.
      assert (Hq : forall hi lo,
                 -8192 <= Int.asr1 (Int.asr1 (Int.be16 hi lo)) <= 8191).
      { intros hi lo. rewrite asr1_twice by apply be16_range.
        rewrite Z.shiftr_div_pow2 by lia. change (2 ^ 2) with 4.
        pose proof (be16_range hi lo) as Hb. unfold Int.int16_range in Hb.
        pose proof (Z.div_le_mono (-32768) _ 4 eq_refl (proj1 Hb)).
        pose proof (Z.div_le_mono _ 32767 4 eq_refl (proj2 Hb)).
        change (-32768 / 4) with (-8192) in *.
        change (32767 / 4) with 8191 in *. lia. }
      repeat (split; [apply Hq|]).
      repeat split; apply be16_range.
Qed.

(** An 11-byte buffer on an idle chip: refused, and the chip has seen no
    transfer. *)
Lemma read_oneshot_outcomes_witness :
  icm_read_oneshot Sim.dev68 11 Sim.idle = ((- EINVAL, None), Sim.idle).
Proof.
  apply (proj1 (read_oneshot_outcomes Sim.dev68 11 Sim.idle)). lia.
Defined.

(** X3.  Reading the device node and the fetch-one-sample ioctl are the same
    operation: from the same world they make the same transfer and either
    both deliver the same sample (12 bytes read, ioctl [OK]) or both answer
    [-EAGAIN]. *)
Theorem read_and_ioctl_sample_agree
    {W : Type} `{World W} {F : Type} `{FloatOps F}
    (dev : icm42688_dev_s) (w : W) :
  snd (icm_read_f dev sizeof_sample w)
  = snd (icm_ioctl_f dev ICM_IOCTL_GET_SAMPLE false w) /\
  (fst (icm_read_f dev sizeof_sample w) = (- EAGAIN, None) /\
     fst (icm_ioctl_f dev ICM_IOCTL_GET_SAMPLE false w) = (- EAGAIN, OutNone)
   \/
   exists s,
     fst (icm_read_f dev sizeof_sample w) = (sizeof_sample, Some s) /\
     fst (icm_ioctl_f dev ICM_IOCTL_GET_SAMPLE false w) = (OK, OutSample s)).
Proof.
  unfold icm_read_f, icm_ioctl_f, icm_read_dev, icm_ioctl_dev.
  change (ICM_IOCTL_GET_SAMPLE =? ICM_IOCTL_GET_SAMPLE) with true. cbv iota.
  destruct (icm_read_oneshot_cases dev sizeof_sample w)
    as [[Hlt _] | [_ (r & fifo_buf & w' & Hrd & [[_ Hr] | [_ Hr]])]];
    [lia | |]; rewrite (bind_run _ _ _ _ _ Hr), Hr; cbn.
  - split; [reflexivity | left; split; reflexivity].
  - split; [reflexivity | right]. eexists. split; reflexivity.
Qed.

(* ===================================================================== *)
(** * 23. The ioctl surface: further properties *)
(* ===================================================================== *)

(** The six command numbers. *)
Lemma known_cmd_dec (cmd : Z) :
  {cmd = ICM_IOCTL_GET_SAMPLE \/ cmd = ICM_IOCTL_GET_SCALES \/
   cmd = ICM_IOCTL_GET_ACCEL_FS \/ cmd = ICM_IOCTL_GET_GYRO_FS \/
   cmd = ICM_IOCTL_GET_ACCEL_CONFIG0_RAW \/
   cmd = ICM_IOCTL_GET_GYRO_CONFIG0_RAW} +
  {cmd <> ICM_IOCTL_GET_SAMPLE /\ cmd <> ICM_IOCTL_GET_SCALES /\
   cmd <> ICM_IOCTL_GET_ACCEL_FS /\ cmd <> ICM_IOCTL_GET_GYRO_FS /\
   cmd <> ICM_IOCTL_GET_ACCEL_CONFIG0_RAW /\
   cmd <> ICM_IOCTL_GET_GYRO_CONFIG0_RAW}.
Proof.
  destruct (Z.eq_dec cmd ICM_IOCTL_GET_SAMPLE); [left; tauto|].
  destruct (Z.eq_dec cmd ICM_IOCTL_GET_SCALES); [left; tauto|].
  destruct (Z.eq_dec cmd ICM_IOCTL_GET_ACCEL_FS); [left; tauto|].
  destruct (Z.eq_dec cmd ICM_IOCTL_GET_GYRO_FS); [left; tauto|].
  destruct (Z.eq_dec cmd ICM_IOCTL_GET_ACCEL_CONFIG0_RAW); [left; tauto|].
  destruct (Z.eq_dec cmd ICM_IOCTL_GET_GYRO_CONFIG0_RAW); [left; tauto|].
  right. tauto.
Qed.

(** X4.  An ioctl is refused without any transfer in two cases: a command
    number that is none of the six gives [-ENOTTY], whatever the argument;
    one of the six with a NULL argument gives [-EINVAL].  Nothing is written
    behind the argument either way. *)
Theorem ioctl_refusals_touch_nothing
    {W : Type} `{World W} {F : Type} `{FloatOps F}
    (dev : icm42688_dev_s) (cmd : Z) (arg_null : bool) (w : W) :
  (cmd <> ICM_IOCTL_GET_SAMPLE /\ cmd <> ICM_IOCTL_GET_SCALES /\
   cmd <> ICM_IOCTL_GET_ACCEL_FS /\ cmd <> ICM_IOCTL_GET_GYRO_FS /\
   cmd <> ICM_IOCTL_GET_ACCEL_CONFIG0_RAW /\
   cmd <> ICM_IOCTL_GET_GYRO_CONFIG0_RAW ->
   icm_ioctl_dev dev cmd arg_null w = ((- ENOTTY, OutNone), w)) /\
  (cmd = ICM_IOCTL_GET_SAMPLE \/ cmd = ICM_IOCTL_GET_SCALES \/
   cmd = ICM_IOCTL_GET_ACCEL_FS \/ cmd = ICM_IOCTL_GET_GYRO_FS \/
   cmd = ICM_IOCTL_GET_ACCEL_CONFIG0_RAW \/
   cmd = ICM_IOCTL_GET_GYRO_CONFIG0_RAW ->
   icm_ioctl_dev dev cmd true w = ((- EINVAL, OutNone), w)).
Proof.
  split.
  - intros (H1 & H2 & H3 & H4 & H5 & H6). unfold icm_ioctl_dev.
    apply Z.eqb_neq in H1, H2, H3, H4, H5, H6.
    rewrite H1, H2, H3, H4, H5, H6. reflexivity.
  - intros [-> | [-> | [-> | [-> | [-> | ->]]]]]; reflexivity.
Qed.

(** Command 0x1000 on an idle chip, and fetch-scale-pair with a NULL
    argument. *)
Lemma ioctl_refusals_touch_nothing_witness :
  icm_ioctl_dev (F := Binary32.float32) Sim.dev68 0x1000 false Sim.idle
    = ((- ENOTTY, OutNone), Sim.idle) /\
  icm_ioctl_dev (F := Binary32.float32) Sim.dev68 ICM_IOCTL_GET_SCALES true
      Sim.idle
    = ((- EINVAL, OutNone), Sim.idle).
Proof.
  destruct (ioctl_refusals_touch_nothing (F := Binary32.float32)
              Sim.dev68 0x1000 false Sim.idle) as [Hnotty _].
  destruct (ioctl_refusals_touch_nothing (F := Binary32.float32)
              Sim.dev68 ICM_IOCTL_GET_SCALES true Sim.idle) as [_ Hinval].
  split.
  - apply Hnotty. repeat split; discriminate.
  - apply Hinval. right. left. reflexivity.
Defined.

(** The selector as arithmetic on the configuration byte. *)
Lemma fs_sel_of_div (v : byte) : fs_sel_of v = (Int.u8 v / 16) mod 4.
Proof.
  unfold fs_sel_of. rewrite Z.shiftr_div_pow2 by lia.
  change 3 with (Z.ones 2). rewrite Z.land_ones by lia. reflexivity.
Qed.

Section Selectors.
Context {W : Type} `{World W} {F : Type} `{FloatOps F}.

(** A selector command and the raw command on register [reg]: the same
    read, and the selector is [(v / 16) mod 4] of the raw byte [v]. *)
Lemma selector_and_raw dev w (sel_cmd raw_cmd : Z) (reg : byte) :
  sel_cmd = ICM_IOCTL_GET_ACCEL_FS /\
    raw_cmd = ICM_IOCTL_GET_ACCEL_CONFIG0_RAW /\ reg = ICM_REG_ACCEL_CONFIG0 \/
  sel_cmd = ICM_IOCTL_GET_GYRO_FS /\
    raw_cmd = ICM_IOCTL_GET_GYRO_CONFIG0_RAW /\ reg = ICM_REG_GYRO_CONFIG0 ->
  snd (icm_ioctl_dev dev sel_cmd false w)
    = snd (icm_ioctl_dev dev raw_cmd false w) /\
  snd (icm_ioctl_dev dev raw_cmd false w) = snd (icm_i2c_read dev reg 1 w) /\
  ((exists r,
       r < 0 /\
       fst (icm_ioctl_dev dev sel_cmd false w) = (r, OutNone) /\
       fst (icm_ioctl_dev dev raw_cmd false w) = (r, OutNone)) \/
   (exists v,
       fst (icm_ioctl_dev dev raw_cmd false w) = (OK, OutByte v) /\
       fst (icm_ioctl_dev dev sel_cmd false w)
       = (OK, OutInt ((Int.u8 v / 16) mod 4)) /\
       0 <= (Int.u8 v / 16) mod 4 <= 3)).
Proof.
  intros Hc.
  destruct (icm_i2c_read dev reg 1 w) as [[r v] w'] eqn:Hrd.
  pose proof (icm_i2c_read_code dev reg 1 w) as Hcode.
  rewrite Hrd in Hcode. cbn [fst snd] in Hcode.
  assert (Hsel : icm_ioctl_dev dev sel_cmd false w
                 = (if r <? 0 then (r, OutNone)
                    else (OK, OutInt (fs_sel_of (Int.at_ v 0))), w')).
  { destruct Hc as [(-> & _ & ->) | (-> & _ & ->)];
      unfold icm_ioctl_dev; simpl; step_with Hrd;
      destruct (r <? 0); reflexivity. }
  assert (Hraw : icm_ioctl_dev dev raw_cmd false w
                 = (if r <? 0 then (r, OutNone)
                    else (OK, OutByte (Int.at_ v 0)), w')).
  { destruct Hc as [(_ & -> & ->) | (_ & -> & ->)];
      unfold icm_ioctl_dev; simpl; step_with Hrd;
      destruct (r <? 0); reflexivity. }
  rewrite Hsel, Hraw. cbn [fst snd].
  split; [reflexivity|]. split; [reflexivity|].
  destruct Hcode as [-> | Hneg].
  - right. exists (Int.at_ v 0). change (OK <? 0) with false. cbv iota.
    rewrite <- fs_sel_of_div. repeat split; apply fs_sel_of_range.
  - left. exists r. apply Z.ltb_lt in Hneg as Hb. rewrite Hb.
    repeat split. exact Hneg.
Qed.

End Selectors.

(** X5.  Fetch-accel-selector and fetch-raw-accel-config-byte (and likewise
    the gyro pair) make the same single read, fail together with the
    transfer's code, and when they succeed the selector is bits 5 and 4 of
    the raw byte, [(v / 16) mod 4], a value from 0 to 3. *)
Theorem selector_matches_raw_byte
    {W : Type} `{World W} {F : Type} `{FloatOps F}
    (dev : icm42688_dev_s) (w : W) :
  let agree sel_cmd raw_cmd reg :=
    snd (icm_ioctl_dev dev sel_cmd false w)
      = snd (icm_ioctl_dev dev raw_cmd false w) /\
    snd (icm_ioctl_dev dev raw_cmd false w) = snd (icm_i2c_read dev reg 1 w) /\
    ((exists r,
         r < 0 /\
         fst (icm_ioctl_dev dev sel_cmd false w) = (r, OutNone) /\
         fst (icm_ioctl_dev dev raw_cmd false w) = (r, OutNone)) \/
     (exists v,
         fst (icm_ioctl_dev dev raw_cmd false w) = (OK, OutByte v) /\
         fst (icm_ioctl_dev dev sel_cmd false w)
         = (OK, OutInt ((Int.u8 v / 16) mod 4)) /\
         0 <= (Int.u8 v / 16) mod 4 <= 3)) in
  agree ICM_IOCTL_GET_ACCEL_FS ICM_IOCTL_GET_ACCEL_CONFIG0_RAW
    ICM_REG_ACCEL_CONFIG0 /\
  agree ICM_IOCTL_GET_GYRO_FS ICM_IOCTL_GET_GYRO_CONFIG0_RAW
    ICM_REG_GYRO_CONFIG0.
Proof.
  cbv zeta. split; apply selector_and_raw; [left | right]; tauto.
Qed.

(** X6.  Whatever the bus does, fetch-scale-pair either fails with a negative
    code and writes nothing, or returns [OK] with an accel scale among 1024,
    2048, 4096, 8192, 16384, 32768 and a gyro scale among 164, 328, 656,
    1310. *)
Theorem scales_result_set
    {W : Type} `{World W} {F : Type} `{FloatOps F}
    (dev : icm42688_dev_s) (w : W) :
  (exists r,
      r < 0 /\
      fst (icm_ioctl_dev dev ICM_IOCTL_GET_SCALES false w) = (r, OutNone)) \/
  (exists a g,
      fst (icm_ioctl_dev dev ICM_IOCTL_GET_SCALES false w)
        = (OK, OutScales a g) /\
      In a [1024; 2048; 4096; 8192; 16384; 32768] /\
      In g [164; 328; 656; 1310]).
Proof.
  destruct (icm_i2c_read dev ICM_REG_ACCEL_CONFIG0 1 w)
    as [[ret1 acc] w1] eqn:Hrd1.
  destruct (icm_i2c_read dev ICM_REG_GYRO_CONFIG0 1 w1)
    as [[ret2 gyr] w2] eqn:Hrd2.
  pose proof (icm_i2c_read_code dev ICM_REG_ACCEL_CONFIG0 1 w) as Hc1.
  pose proof (icm_i2c_read_code dev ICM_REG_GYRO_CONFIG0 1 w1) as Hc2.
  rewrite Hrd1 in Hc1. rewrite Hrd2 in Hc2. cbn [fst] in Hc1, Hc2.
  destruct Hc1 as [-> | Hn1].
  - destruct Hc2 as [-> | Hn2].
    + right.
      rewrite (ioctl_scales_ok dev w OK acc w1 OK gyr w2 Hrd1 Hrd2
                 (Z.le_refl 0) (Z.le_refl 0)).
      cbv zeta. cbn [fst].
      eexists. eexists. split; [reflexivity|].
      split.
      * pose proof (scales_probe_cases dev
                      (accel_scale_of_sel (fs_sel_of (Int.at_ acc 0))) w2)
          as Hp. cbv zeta in Hp.
        revert Hp.
        generalize (fst (scales_probe dev
                           (accel_scale_of_sel (fs_sel_of (Int.at_ acc 0)))
                           w2)).
        intros sp Hp.
        destruct (accel_scale_of_sel_enum (fs_sel_of (Int.at_ acc 0)))
          as [E | [E | E]]; rewrite E in Hp;
          destruct Hp as [-> | [-> | ->]]; vm_compute; tauto.
      * destruct (gyro_scale_of_sel_enum (fs_sel_of (Int.at_ gyr 0)))
          as [-> | [-> | [-> | ->]]]; simpl; tauto.
    + left. exists ret2. split; [exact Hn2|].
      rewrite (ioctl_scales_read_error dev w OK acc w1 ret2 gyr w2 Hrd1 Hrd2
                 (or_intror Hn2)).
      reflexivity.
  - left. exists ret1. split; [exact Hn1|].
    rewrite (ioctl_scales_read_error dev w ret1 acc w1 ret2 gyr w2 Hrd1 Hrd2
               (or_introl Hn1)).
    apply Z.ltb_lt in Hn1. rewrite Hn1. reflexivity.
Qed.

(** X7.  The handle's sample cache and cursor are never consulted: two
    handles with the same bus, frequency and address behave alike under every
    read and ioctl, so opening or closing the node, which only resets the
    cursor, changes nothing a later read or ioctl does. *)
Theorem handle_cache_unused
    {W : Type} `{World W} {F : Type} `{FloatOps F}
    (dev dev' : icm42688_dev_s) (w : W) :
  i2c dev = i2c dev' -> i2c_freq dev = i2c_freq dev' ->
  i2c_addr dev = i2c_addr dev' ->
  (forall cmd arg_null,
      icm_ioctl_f dev cmd arg_null w = icm_ioctl_f dev' cmd arg_null w) /\
  (forall len, icm_read_f dev len w = icm_read_f dev' len w) /\
  (forall cmd arg_null,
      icm_ioctl_f (snd (icm_open_f dev)) cmd arg_null w
      = icm_ioctl_f dev cmd arg_null w) /\
  (forall len,
      icm_read_f (snd (icm_close_f dev)) len w = icm_read_f dev len w).
Proof.
  intros Hm Hf Ha.
  destruct dev as [m f a b p], dev' as [m' f' a' b' p'].
  cbn [i2c i2c_freq i2c_addr] in Hm, Hf, Ha. subst m' f' a'.
  repeat split; intros; reflexivity.
Qed.

(** A handle whose cursor and cache were left in some other state reads
    the same frame from [Scenario.chip_c1]. *)
Lemma handle_cache_unused_witness :
  icm_read_f {| i2c := 1; i2c_freq := 400000; i2c_addr := 0x68;
                buf := Cases.at_rest; bufpos := 7 |} 12 Scenario.chip_c1
  = icm_read_f Sim.dev68 12 Scenario.chip_c1.
Proof.
  apply (proj1 (proj2 (handle_cache_unused (F := Binary32.float32)
                         {| i2c := 1; i2c_freq := 400000; i2c_addr := 0x68;
                            buf := Cases.at_rest; bufpos := 7 |}
                         Sim.dev68 Scenario.chip_c1 eq_refl eq_refl eq_refl))).
Defined.

(* ===================================================================== *)
(** * 24. Registration: further properties *)
(* ===================================================================== *)

Section Registration.
Context {W : Type} `{World W}.

(** The alternate of an address: 0x69 for 0x68, and 0x68 for anything
    else. *)
Lemma alternate_address (a : Z) :
  (if a =? 0x68 then 0x69 else 0x68) <> a /\
  ((if a =? 0x68 then 0x69 else 0x68) = 0x68 \/
   (if a =? 0x68 then 0x69 else 0x68) = 0x69).
Proof.
  destruct (Z.eqb_spec a 0x68) as [-> | Hne]; split; auto; lia.
Qed.

(** The identity phase ends with the device it was given or with the same
    device at the alternate address; its code is never positive. *)
Lemma icm_reset_code dev w :
  let r := fst (icm_reset dev w) in r = OK \/ r < 0.
Proof.
  cbv zeta. unfold icm_reset.
  pose proof (icm_i2c_write1_code dev ICM_REG_DEVICE_CONFIG x01 w) as Hc.
  destruct (icm_i2c_write1 dev ICM_REG_DEVICE_CONFIG x01 w) as [r0 w0] eqn:Hw.
  cbn [fst] in Hc. step_with Hw.
  destruct (Z.ltb_spec r0 0) as [Hr | Hr].
  - right. exact Hr.
  - left. unfold bind, ret. destruct (usleep 200000 w0). reflexivity.
Qed.

Lemma identify_cases dev w :
  let r := fst (fst (identify dev w)) in
  let d := snd (fst (identify dev w)) in
  r <= 0 /\
  (d = dev \/
   d = with_addr dev (if i2c_addr dev =? 0x68 then 0x69 else 0x68)).
Proof.
  cbv zeta. unfold identify.
  pose proof (icm_reset_code dev w) as Hc0.
  destruct (icm_reset dev w) as [r0 w1] eqn:Hrs. cbn [fst] in Hc0.
  step_with Hrs.
  destruct (Z.ltb_spec r0 0) as [Hr0 | Hr0];
    [cbn; split; [lia | left; reflexivity]|].
  pose proof (whoami_loop_code dev 50 w1) as Hc1.
  fold (icm_check_whoami dev w1) in Hc1.
  destruct (icm_check_whoami dev w1) as [r1 w2] eqn:Hid. cbn [fst] in Hc1.
  step_with Hid.
  assert (Hr1 : r1 = OK \/ r1 = - ENODEV) by tauto.
  destruct Hr1 as [-> | ->].
  { cbn. split; [unfold OK; lia | left; reflexivity]. }
  change (- ENODEV <? 0) with true. cbv iota zeta.
  set (dev' := with_addr dev (if i2c_addr dev =? 0x68 then 0x69 else 0x68)).
  pose proof (icm_reset_code dev' w2) as Hc2.
  destruct (icm_reset dev' w2) as [r2 w3] eqn:Hrs'. cbn [fst] in Hc2.
  step_with Hrs'.
  destruct (Z.ltb_spec r2 0) as [Hr2 | Hr2];
    [cbn; split; [lia | right; reflexivity]|].
  pose proof (whoami_loop_code dev' 50 w3) as Hc3.
  fold (icm_check_whoami dev' w3) in Hc3.
  destruct (icm_check_whoami dev' w3) as [r3 w4] eqn:Hid'. cbn [fst] in Hc3.
  step_with Hid'. cbn. split; [| right; reflexivity].
  destruct Hc3 as [[-> _] | [-> _]]; unfold OK, ENODEV; lia.
Qed.

(** The same for the whole bring-up. *)
Lemma bring_up_cases dev w :
  let d := snd (fst (bring_up dev w)) in
  d = dev \/ d = with_addr dev (if i2c_addr dev =? 0x68 then 0x69 else 0x68).
Proof.
  cbv zeta. pose proof (identify_cases dev w) as [_ Hd].
  destruct (bring_up dev w) as [[r d] w'] eqn:E. cbn [fst snd].
  unfold bring_up in E. unfold bind at 1 in E.
  destruct (identify dev w) as [[r0 d0] w0]. cbn [fst snd] in Hd.
  destruct (r0 <? 0); [inversion E; subst; exact Hd|].
  unfold bind at 1 in E.
  destruct (icm_configure_default d0 w0) as [r1 w1].
  destruct (r1 <? 0); [inversion E; subst; exact Hd|].
  unfold bind at 1 in E.
  destruct (register_driver d0 w1) as [r2 w2].
  inversion E; subst; exact Hd.
Qed.

(** A reset write that fails ends the identity phase on the spot. *)
Lemma identify_reset_fails dev w r w1 :
  icm_i2c_write1 dev ICM_REG_DEVICE_CONFIG x01 w = (r, w1) ->
  r < 0 ->
  identify dev w = ((r, dev), w1).
Proof.
  intros Hw Hr. apply Z.ltb_lt in Hr.
  unfold identify, icm_reset. unfold bind at 1. unfold bind at 1.
  rewrite Hw, Hr. cbn. rewrite Hr. reflexivity.
Qed.

(** A negative identity result is the result of bring-up. *)
Lemma bring_up_identify_fails dev w r dev' w1 :
  identify dev w = ((r, dev'), w1) -> r < 0 ->
  bring_up dev w = ((r, dev'), w1).
Proof.
  intros Hid Hr. apply Z.ltb_lt in Hr.
  unfold bring_up. step_with Hid. rewrite Hr. reflexivity.
Qed.

(** The identity phase when the first address fails all 50 reads. *)
Lemma identify_second_address dev w r0 w1 r1 w3 :
  icm_reset dev w = (r0, w1) -> 0 <= r0 ->
  (forall i, (i < 50)%nat ->
             whoami_good dev (whoami_world i dev w1) = false) ->
  let dev' := with_addr dev (if i2c_addr dev =? 0x68 then 0x69 else 0x68) in
  icm_reset dev' (whoami_world 50 dev w1) = (r1, w3) -> 0 <= r1 ->
  identify dev w
  = (let (r, w') := icm_check_whoami dev' w3 in ((r, dev'), w')).
Proof.
  intros Hrs Hr0 Hbad dev' Hrs' Hr1.
  apply Z.ltb_ge in Hr0. apply Z.ltb_ge in Hr1.
  unfold identify. step_with Hrs. rewrite Hr0.
  assert (Hid : icm_check_whoami dev w1
                = (- ENODEV, whoami_world 50 dev w1))
    by (apply whoami_loop_all_bad; exact Hbad).
  step_with Hid. change (- ENODEV <? 0) with true. cbv iota zeta.
  fold dev'. step_with Hrs'. rewrite Hr1.
  unfold bind, ret. destruct (icm_check_whoami dev' w3). reflexivity.
Qed.

End Registration.

(** X8.  Registration is refused without touching anything when the
    configuration or its bus master is NULL ([-EINVAL]), and without any bus
    transfer when the allocation fails ([-ENOMEM]). *)
Theorem register_argument_checks {W : Type} `{World W} (w : W) :
  icm42688_register None w = ((- EINVAL, None), w) /\
  (forall cfg,
      cfg_i2c cfg = None ->
      icm42688_register (Some cfg) w = ((- EINVAL, None), w)) /\
  (forall cfg master w',
      cfg_i2c cfg = Some master ->
      kmm_malloc w = (false, w') ->
      icm42688_register (Some cfg) w = ((- ENOMEM, None), w')).
Proof.
  split; [reflexivity|]. split.
  - intros cfg Hc. unfold icm42688_register. rewrite Hc. reflexivity.
  - intros cfg master w' Hc Hk. unfold icm42688_register. rewrite Hc.
    step_with Hk. reflexivity.
Qed.

(** A configuration without a bus master, offered to an idle chip. *)
Lemma register_argument_checks_witness :
  icm42688_register
    (Some {| cfg_i2c := None; cfg_addr := 0x68; cfg_freq := 0 |}) Sim.idle
  = ((- EINVAL, None), Sim.idle).
Proof.
  apply (proj1 (proj2 (register_argument_checks Sim.idle))). reflexivity.
Defined.

(** X9.  Registration never returns a positive code, and it leaves a device
    exactly when it returns [OK].  That device talks to the master of the
    configuration, at the configured frequency (400 kHz when the
    configuration says 0), and at the configured address or at its alternate
    (0x69 for 0x68, 0x68 for any other). *)
Theorem register_outcome {W : Type} `{World W}
    (cfg : option icm42688_config_s) (w : W) :
  let r := fst (fst (icm42688_register cfg w)) in
  let d := snd (fst (icm42688_register cfg w)) in
  r <= 0 /\
  (d = None <-> r < 0) /\
  (forall dev,
      d = Some dev ->
      exists c master,
        cfg = Some c /\ cfg_i2c c = Some master /\
        i2c dev = master /\
        i2c_freq dev = (if cfg_freq c =? 0 then 400000 else cfg_freq c) /\
        (i2c_addr dev = cfg_addr c \/
         i2c_addr dev = (if cfg_addr c =? 0x68 then 0x69 else 0x68))).
Proof.
  cbv zeta.
  destruct (icm42688_register cfg w) as [[r d] w'] eqn:E. cbn [fst snd].
  unfold icm42688_register in E.
  destruct cfg as [c |];
    [| inversion E; subst; unfold EINVAL; repeat split; try lia;
       intros; discriminate].
  destruct (cfg_i2c c) as [master |] eqn:Hm;
    [| inversion E; subst; unfold EINVAL; repeat split; try lia;
       intros; discriminate].
  unfold bind at 1 in E. destruct (kmm_malloc w) as [ok w0].
  destruct ok; cbn [negb] in E;
    [| inversion E; subst; unfold ENOMEM; repeat split; try lia;
       intros; discriminate].
  set (dev0 := {| i2c := master;
                  i2c_freq := if cfg_freq c =? 0 then 400000 else cfg_freq c;
                  i2c_addr := cfg_addr c;
                  buf := sample_zero; bufpos := 0 |}) in *.
  unfold bind at 1 in E.
  pose proof (bring_up_cases dev0 w0) as Hd. cbv zeta in Hd.
  destruct (bring_up dev0 w0) as [[r1 d1] w1]. cbn [fst snd] in Hd.
  destruct (Z.ltb_spec r1 0) as [Hr | Hr]; inversion E; subst.
  - repeat split; try lia; intros; discriminate.
  - unfold OK. split; [lia|]. split; [split; [discriminate | lia]|].
    intros dev Hdev. inversion Hdev; subst dev.
    exists c, master. split; [reflexivity|]. split; [exact Hm|].
    destruct Hd as [-> | ->]; cbn; auto.
Qed.

(** X10.  When nothing acknowledges the reset write at the configured
    address, registration fails with the transfer's code after that one
    write: the alternate address is not tried. *)
Theorem reset_failure_skips_fallback {W : Type} `{World W}
    (cfg : icm42688_config_s) (master : nat) (w w0 w1 : W) (r : Z) :
  cfg_i2c cfg = Some master ->
  kmm_malloc w = (true, w0) ->
  let dev := {| i2c := master;
                i2c_freq := if cfg_freq cfg =? 0 then 400000
                            else cfg_freq cfg;
                i2c_addr := cfg_addr cfg;
                buf := sample_zero; bufpos := 0 |} in
  icm_i2c_write1 dev ICM_REG_DEVICE_CONFIG x01 w0 = (r, w1) ->
  r < 0 ->
  identify dev w0 = ((r, dev), w1) /\
  icm42688_register (Some cfg) w = ((r, None), w1).
Proof.
  intros Hm Hk dev Hw Hr.
  pose proof (identify_reset_fails dev w0 r w1 Hw Hr) as Hid.
  split; [exact Hid|].
  apply (register_bring_up_fails cfg master w w0 r dev w1 Hm Hk); [| exact Hr].
  apply bring_up_identify_fails; assumption.
Qed.

(** A chip strapped to 0x69 and a configuration naming 0x68: the reset
    write is not acknowledged, and the only transfer the bus has seen is
    that write to 0x68. *)
Lemma reset_failure_skips_fallback_witness :
  fst (icm42688_register (Some Sim.cfg68) Cases.chip_at_69)
    = (- Sim.ETIMEDOUT, None) /\
  Sim.trace (snd (icm42688_register (Some Sim.cfg68) Cases.chip_at_69))
    = [(0x68, ICM_REG_DEVICE_CONFIG, I2C_M_WRITE)].
Proof.
  assert (Hm : cfg_i2c Sim.cfg68 = Some 1%nat) by reflexivity.
  assert (Hk : kmm_malloc Cases.chip_at_69 = (true, Cases.chip_at_69))
    by reflexivity.
  assert (Hw : icm_i2c_write1 Sim.dev68 ICM_REG_DEVICE_CONFIG x01
                 Cases.chip_at_69
               = (- Sim.ETIMEDOUT,
                  snd (icm_i2c_write1 Sim.dev68 ICM_REG_DEVICE_CONFIG x01
                         Cases.chip_at_69)))
    by reflexivity.
  assert (Hr : - Sim.ETIMEDOUT < 0) by (unfold Sim.ETIMEDOUT; lia).
  destruct (reset_failure_skips_fallback Sim.cfg68 1%nat Cases.chip_at_69
              Cases.chip_at_69 _ _ Hm Hk Hw Hr) as [_ Hreg].
  rewrite Hreg. split; reflexivity.
Defined.

(** X11.  When the reset is acknowledged at the configured address but none
    of the 50 identity reads passes there, the device is moved to the
    alternate address and reset and checked again; if read number [k] is the
    first to pass there, the identity phase succeeds with the device at the
    alternate address, right after that read. *)
Theorem fallback_to_alternate_address {W : Type} `{World W}
    (dev : icm42688_dev_s) (w w1 w3 : W) (r0 r1 : Z) (k : nat) :
  icm_reset dev w = (r0, w1) -> 0 <= r0 ->
  (forall i, (i < 50)%nat ->
             whoami_good dev (whoami_world i dev w1) = false) ->
  let dev' := with_addr dev (if i2c_addr dev =? 0x68 then 0x69 else 0x68) in
  icm_reset dev' (whoami_world 50 dev w1) = (r1, w3) -> 0 <= r1 ->
  (k < 50)%nat ->
  (forall i, (i < k)%nat ->
             whoami_good dev' (whoami_world i dev' w3) = false) ->
  whoami_good dev' (whoami_world k dev' w3) = true ->
  identify dev w
  = ((OK, dev'),
     snd (icm_i2c_read dev' ICM_REG_WHO_AM_I 1 (whoami_world k dev' w3))) /\
  i2c_addr dev' <> i2c_addr dev.
Proof.
  intros Hrs Hr0 Hbad dev' Hrs' Hr1 Hk Hbad' Hgood'.
  split.
  - rewrite (identify_second_address dev w r0 w1 r1 w3 Hrs Hr0 Hbad Hrs' Hr1).
    fold dev'. unfold icm_check_whoami.
    rewrite (whoami_loop_first_good dev' k 50%nat w3 Hk Hbad' Hgood').
    reflexivity.
  - subst dev'. cbn [with_addr i2c_addr].
    apply (proj1 (alternate_address (i2c_addr dev))).
Qed.

(** A foreign part at 0x68 and the chip at 0x69: after 50 failed reads at
    0x68 the first read at 0x69 passes, and registration ends with the
    device at 0x69. *)
Lemma fallback_to_alternate_address_witness :
  fst (identify Sim.dev68 Cases.bus_alt) = (OK, Cases.dev69) /\
  fst (icm42688_register (Some Sim.cfg68) Cases.bus_alt)
    = (OK, Some Cases.dev69).
Proof.
  assert (Hrs : icm_reset Sim.dev68 Cases.bus_alt
                = (0, snd (icm_reset Sim.dev68 Cases.bus_alt)))
    by reflexivity.
  assert (Hrs' : icm_reset Cases.dev69
                   (whoami_world 50 Sim.dev68
                      (snd (icm_reset Sim.dev68 Cases.bus_alt)))
                 = (0, snd (icm_reset Cases.dev69
                              (whoami_world 50 Sim.dev68
                                 (snd (icm_reset Sim.dev68 Cases.bus_alt))))))
    by (vm_compute; reflexivity).
  destruct (fallback_to_alternate_address Sim.dev68 Cases.bus_alt
              (snd (icm_reset Sim.dev68 Cases.bus_alt))
              (snd (icm_reset Cases.dev69
                      (whoami_world 50 Sim.dev68
                         (snd (icm_reset Sim.dev68 Cases.bus_alt)))))
              0 0 0 Hrs (Z.le_refl 0)) as [Hid _].
  - intros i Hi.
    do 50 (destruct i as [| i]; [vm_compute; reflexivity|]). lia.
  - exact Hrs'.
  - lia.
  - lia.
  - intros i Hi. lia.
  - vm_compute. reflexivity.
  - rewrite Hid. split; [reflexivity | vm_compute; reflexivity].
Defined.

(** X12.  And when none of the 50 reads passes at the alternate address
    either, the identity phase, bring-up and registration all end with
    [-ENODEV] right after the last of them: the Configure step is not entered
    and no device node is registered. *)
Theorem no_device_at_either_address {W : Type} `{World W}
    (cfg : icm42688_config_s) (master : nat) (w w0 w1 w3 : W) (r0 r1 : Z) :
  cfg_i2c cfg = Some master ->
  kmm_malloc w = (true, w0) ->
  let dev := {| i2c := master;
                i2c_freq := if cfg_freq cfg =? 0 then 400000
                            else cfg_freq cfg;
                i2c_addr := cfg_addr cfg;
                buf := sample_zero; bufpos := 0 |} in
  let dev' := with_addr dev (if i2c_addr dev =? 0x68 then 0x69 else 0x68) in
  icm_reset dev w0 = (r0, w1) -> 0 <= r0 ->
  (forall i, (i < 50)%nat ->
             whoami_good dev (whoami_world i dev w1) = false) ->
  icm_reset dev' (whoami_world 50 dev w1) = (r1, w3) -> 0 <= r1 ->
  (forall i, (i < 50)%nat ->
             whoami_good dev' (whoami_world i dev' w3) = false) ->
  identify dev w0 = ((- ENODEV, dev'), whoami_world 50 dev' w3) /\
  bring_up dev w0 = ((- ENODEV, dev'), whoami_world 50 dev' w3) /\
  icm42688_register (Some cfg) w
  = ((- ENODEV, None), whoami_world 50 dev' w3).
Proof.
  intros Hm Hk dev dev' Hrs Hr0 Hbad Hrs' Hr1 Hbad'.
  assert (Hid : identify dev w0 = ((- ENODEV, dev'), whoami_world 50 dev' w3)).
  { rewrite (identify_second_address dev w0 r0 w1 r1 w3 Hrs Hr0 Hbad Hrs' Hr1).
    fold dev'. unfold icm_check_whoami.
    rewrite (whoami_loop_all_bad dev' 50%nat w3 Hbad'). reflexivity. }
  assert (Hneg : - ENODEV < 0) by (unfold ENODEV; lia).
  pose proof (bring_up_identify_fails dev w0 _ _ _ Hid Hneg) as Hb.
  split; [exact Hid|]. split; [exact Hb|].
  exact (register_bring_up_fails cfg master w w0 _ _ _ Hm Hk Hb Hneg).
Qed.

(** Foreign parts at both addresses: 100 identity reads, then [-ENODEV];
    the bus has seen no write to the power-management register. *)
Lemma no_device_at_either_address_witness :
  fst (icm42688_register (Some Sim.cfg68) Cases.bus_none)
    = (- ENODEV, None) /\
  existsb (fun e => Byte.eqb (snd (fst e)) ICM_REG_PWR_MGMT0)
    (Sim.trace (fst (snd (icm42688_register (Some Sim.cfg68)
                            Cases.bus_none)))
     ++ Sim.trace (snd (snd (icm42688_register (Some Sim.cfg68)
                               Cases.bus_none))))
    = false.
Proof.
  assert (Hm : cfg_i2c Sim.cfg68 = Some 1%nat) by reflexivity.
  assert (Hk : kmm_malloc Cases.bus_none = (true, Cases.bus_none))
    by reflexivity.
  assert (Hrs : icm_reset Sim.dev68 Cases.bus_none
                = (0, snd (icm_reset Sim.dev68 Cases.bus_none)))
    by reflexivity.
  assert (Hrs' : icm_reset Cases.dev69
                   (whoami_world 50 Sim.dev68
                      (snd (icm_reset Sim.dev68 Cases.bus_none)))
                 = (0, snd (icm_reset Cases.dev69
                              (whoami_world 50 Sim.dev68
                                 (snd (icm_reset Sim.dev68 Cases.bus_none))))))
    by (vm_compute; reflexivity).
  destruct (no_device_at_either_address Sim.cfg68 1%nat Cases.bus_none
              Cases.bus_none
              (snd (icm_reset Sim.dev68 Cases.bus_none))
              (snd (icm_reset Cases.dev69
                      (whoami_world 50 Sim.dev68
                         (snd (icm_reset Sim.dev68 Cases.bus_none)))))
              0 0 Hm Hk Hrs (Z.le_refl 0))
    as (_ & _ & Hreg).
  - intros i Hi.
    do 50 (destruct i as [| i]; [vm_compute; reflexivity|]). lia.
  - exact Hrs'.
  - lia.
  - intros i Hi.
    do 50 (destruct i as [| i]; [vm_compute; reflexivity|]). lia.
  - rewrite Hreg. split; [reflexivity | vm_compute; reflexivity].
Defined.

(* ===================================================================== *)
(** * 25. The application start-up *)
(* ===================================================================== *)

Section StartupFacts.
Context {W : Type} `{World W} `{Board W}.

(** The device a successful registration leaves. *)
Lemma register_device_cases (c : icm42688_config_s) (w : W) dev :
  snd (fst (icm42688_register (Some c) w)) = Some dev ->
  fst (fst (icm42688_register (Some c) w)) = OK /\
  i2c_freq dev = (if cfg_freq c =? 0 then 400000 else cfg_freq c) /\
  (i2c_addr dev = cfg_addr c \/
   i2c_addr dev = (if cfg_addr c =? 0x68 then 0x69 else 0x68)).
Proof.
  destruct (icm42688_register (Some c) w) as [[r d] w'] eqn:E.
  cbn [fst snd]. intros ->.
  unfold icm42688_register in E.
  destruct (cfg_i2c c) as [master |]; [| discriminate].
  unfold bind at 1 in E. destruct (kmm_malloc w) as [ok w0].
  destruct ok; cbn [negb] in E; [| discriminate].
  set (dev0 := {| i2c := master;
                  i2c_freq := if cfg_freq c =? 0 then 400000 else cfg_freq c;
                  i2c_addr := cfg_addr c;
                  buf := sample_zero; bufpos := 0 |}) in *.
  unfold bind at 1 in E.
  pose proof (bring_up_cases dev0 w0) as Hd. cbv zeta in Hd.
  destruct (bring_up dev0 w0) as [[r1 d1] w1]. cbn [fst snd] in Hd.
  destruct (r1 <? 0); [discriminate|].
  inversion E; subst. split; [reflexivity|].
  destruct Hd as [-> | ->]; cbn; auto.
Qed.

Lemma register_addrs_cases master : forall addrs (w : W) dev,
  Forall (fun a => a = 0x68 \/ a = 0x69) addrs ->
  fst (register_addrs addrs master w) = Some dev ->
  i2c_freq dev = 400000 /\ (i2c_addr dev = 0x68 \/ i2c_addr dev = 0x69).
Proof.
  induction addrs as [| a rest IH]; intros w dev Hall Hres; [discriminate|].
  inversion Hall as [| a' rest' Ha Hrest]; subst.
  cbn [register_addrs] in Hres. unfold bind at 1 in Hres.
  set (c := {| cfg_i2c := Some master; cfg_addr := a; cfg_freq := 400000 |})
    in *.
  pose proof (register_device_cases c w) as Hc.
  destruct (icm42688_register (Some c) w) as [[r d] w1]. cbn [fst snd] in Hc.
  destruct (r =? 0).
  - cbn in Hres. subst d. destruct (Hc dev eq_refl) as (_ & Hf & Ha').
    split; [exact Hf|]. cbn in Ha'.
    destruct Ha' as [-> | ->]; [exact Ha|].
    destruct (a =? 104); [right | left]; reflexivity.
  - exact (IH w1 dev Hrest Hres).
Qed.

Lemma register_ports_cases : forall ports (w : W) dev,
  fst (register_ports ports w) = Some dev ->
  i2c_freq dev = 400000 /\ (i2c_addr dev = 0x68 \/ i2c_addr dev = 0x69).
Proof.
  induction ports as [| p rest IH]; intros w dev Hres; [discriminate|].
  cbn [register_ports] in Hres. unfold bind at 1 in Hres.
  destruct (rp23xx_i2cbus_initialize p w) as [[master |] w1];
    [| exact (IH w1 dev Hres)].
  unfold bind at 1 in Hres.
  pose proof (register_addrs_cases master [0x68; 0x69] w1) as Ha.
  destruct (register_addrs [0x68; 0x69] master w1) as [[d |] w2].
  - cbn in Hres. inversion Hres; subst d. apply Ha; [| reflexivity].
    apply Forall_cons; [left; reflexivity|].
    apply Forall_cons; [right; reflexivity|]. apply Forall_nil.
  - exact (IH w2 dev Hres).
Qed.

End StartupFacts.

(** X13.  The application either leaves with [EXIT_FAILURE] before its loop,
    or enters the loop with a registered device that runs the bus at 400 kHz
    and answers at 0x68 or 0x69. *)
Theorem startup_outcome {W : Type} `{World W} `{Board W} (w : W) :
  match fst (startup w) with
  | inl code => code = 1
  | inr dev =>
      i2c_freq dev = 400000 /\ (i2c_addr dev = 0x68 \/ i2c_addr dev = 0x69)
  end.
Proof.
  unfold startup. unfold bind at 1.
  pose proof (register_ports_cases [1; 0] w) as Hp.
  destruct (register_ports [1; 0] w) as [[dev |] w1]; [| reflexivity].
  unfold bind. destruct (open_devpath w1) as [fd w2].
  destruct (fd <? 0); cbn; [reflexivity|].
  apply Hp. reflexivity.
Qed.

(** X14.  When port 1 has a bus, registration with address 0x68 fails and
    registration with address 0x69 then succeeds, the application opens the
    node and enters its loop with that device; port 0 is not initialised. *)
Theorem startup_second_address {W : Type} `{World W} `{Board W}
    (w w1 w2 w3 w4 : W) (master : nat) (r : Z)
    (d : option icm42688_dev_s) (dev : icm42688_dev_s) (fd : Z) :
  rp23xx_i2cbus_initialize 1 w = (Some master, w1) ->
  icm42688_register
    (Some {| cfg_i2c := Some master; cfg_addr := 0x68; cfg_freq := 400000 |})
    w1 = ((r, d), w2) ->
  r <> 0 ->
  icm42688_register
    (Some {| cfg_i2c := Some master; cfg_addr := 0x69; cfg_freq := 400000 |})
    w2 = ((0, Some dev), w3) ->
  open_devpath w3 = (fd, w4) ->
  0 <= fd ->
  startup w = (inr dev, w4).
Proof.
  intros Hinit Hr1 Hne Hr2 Hopen Hfd.
  apply Z.eqb_neq in Hne. apply Z.ltb_ge in Hfd.
  assert (Ha : register_addrs [0x68; 0x69] master w1 = (Some dev, w3)).
  { cbn [register_addrs]. step_with Hr1. rewrite Hne. step_with Hr2.
    reflexivity. }
  assert (Hp : register_ports [1; 0] w = (Some dev, w3)).
  { cbn [register_ports]. step_with Hinit. step_with Ha. reflexivity. }
  unfold startup. step_with Hp. step_with Hopen. rewrite Hfd. reflexivity.
Qed.

(** A chip strapped to 0x69 on port 1: the attempt at 0x68 ends on the
    unanswered reset write, the attempt at 0x69 registers the device. *)
Lemma startup_second_address_witness :
  fst (startup Cases.chip_at_69) = inr Cases.dev69 /\
  hd_error (Sim.trace (snd (startup Cases.chip_at_69)))
    = Some (0x68, ICM_REG_DEVICE_CONFIG, I2C_M_WRITE).
Proof.
  assert (Hinit : rp23xx_i2cbus_initialize 1 Cases.chip_at_69
                  = (Some 1%nat, Cases.chip_at_69)) by reflexivity.
  assert (Hr1 : icm42688_register (Some Sim.cfg68) Cases.chip_at_69
                = ((- Sim.ETIMEDOUT, None),
                   snd (icm42688_register (Some Sim.cfg68)
                          Cases.chip_at_69)))
    by (vm_compute; reflexivity).
  assert (Hne : - Sim.ETIMEDOUT <> 0) by (unfold Sim.ETIMEDOUT; lia).
  set (w2 := snd (icm42688_register (Some Sim.cfg68) Cases.chip_at_69)) in *.
  set (c69 := {| cfg_i2c := Some 1%nat; cfg_addr := 0x69;
                 cfg_freq := 400000 |}).
  assert (Hr2 : icm42688_register (Some c69) w2
                = ((0, Some Cases.dev69),
                   snd (icm42688_register (Some c69) w2)))
    by (vm_compute; reflexivity).
  assert (Hopen : open_devpath (snd (icm42688_register (Some c69) w2))
                  = (3, snd (icm42688_register (Some c69) w2)))
    by reflexivity.
  assert (Hfd : 0 <= 3) by lia.
  pose proof (startup_second_address Cases.chip_at_69 Cases.chip_at_69 w2
                _ _ 1%nat _ _ _ _ Hinit Hr1 Hne Hr2 Hopen Hfd) as Hs.
  rewrite Hs. split; [reflexivity | vm_compute; reflexivity].
Defined.

(* ===================================================================== *)
(** * 26. The acquisition loop: gates and flags *)
(* ===================================================================== *)

Section LoopFacts.
Context {W : Type} `{World W} {F : Type} `{FloatOps F}.

(** What the processing of a frame keeps, and how the output grows. *)
Lemma process_with_flags v (st : app_state F) (s : icm42688_sample_s) :
  let st' := fst (fst (process_with v st s)) in
  first st' = first st /\
  fs_ready st' = fs_ready st /\
  gyro_lsb_per_dps st' = gyro_lsb_per_dps st /\
  filt_init st' = true /\
  (exists more, stdout st' = stdout st ++ more).
Proof.
  cbv zeta. unfold process_with. cbv zeta.
  unfold lowpass. destruct (filt_init st); cbn [negb];
    cbn [fst first fs_ready gyro_lsb_per_dps filt_init stdout filt];
    (repeat split; try reflexivity);
    eexists; symmetry; apply app_assoc.
Qed.

(** One iteration: the flags only go one way, the gyro scale is fixed once
    the scales are ready, and the output only grows. *)
Lemma loop_body_flags dev (st : app_state F) w :
  let st' := fst (loop_body dev st w) in
  (first st = false -> first st' = false) /\
  (fs_ready st = true ->
   fs_ready st' = true /\ gyro_lsb_per_dps st' = gyro_lsb_per_dps st) /\
  (filt_init st = true -> filt_init st' = true) /\
  (exists more, stdout st' = stdout st ++ more).
Proof.
  cbv zeta.
  destruct (loop_body_shape dev st w _ eq_refl)
    as [-> | [[Hf ->] | (Hf & st0 & s & v & Hr0 & Hst0 & _ & ->)]].
  - repeat split; auto. exists []. symmetry. apply app_nil_r.
  - cbn. repeat split; auto. exists []. symmetry. apply app_nil_r.
  - destruct (process_with_flags v st0 s) as (H1 & H2 & H3 & H4 & more & H5).
    cbv zeta in H1, H2, H3, H4, H5.
    rewrite H1, H2, H3, H4, H5.
    destruct Hst0 as [-> | (a & g & Hnr & ->)].
    + repeat split; auto. exists more. reflexivity.
    + cbn [with_scales first fs_ready filt_init stdout] in *.
      split; [auto|]. split; [intros Hr; rewrite Hr in Hnr; discriminate|].
      split; [auto|].
      eexists. symmetry. apply app_assoc.
Qed.

Lemma run_loop_ready dev : forall n (st : app_state F) w,
  fs_ready st = true -> fs_ready (fst (run_loop n dev st w)) = true.
Proof.
  induction n as [| n IH]; intros st w Hr; [exact Hr|].
  cbn [run_loop]. unfold bind.
  pose proof (loop_body_flags dev st w) as (_ & Hk & _). cbv zeta in Hk.
  destruct (loop_body dev st w) as [st1 w1]. cbn [fst] in Hk.
  apply IH. apply Hk. exact Hr.
Qed.

End LoopFacts.

(** X15.  When [fetch_scales] lets the iteration go on, the scales are marked
    ready: the second test of [fs_ready] in the loop body, after the unit
    conversion, never takes its branch. *)
Theorem second_ready_test_never_fires {W : Type} `{World W}
    {F : Type} `{FloatOps F}
    (dev : icm42688_dev_s) (st : app_state F) (w : W) :
  fst (fst (fetch_scales dev st w)) = false \/
  fs_ready (snd (fst (fetch_scales dev st w))) = true.
Proof.
  pose proof (fetch_scales_cases dev st w) as Hf. cbv zeta in Hf.
  destruct Hf as [(Hgo & _) | [(_ & -> & Hr) | (_ & _ & a & g & ->)]].
  - left. exact Hgo.
  - right. exact Hr.
  - right. reflexivity.
Qed.

(** X16.  Over any number of iterations: [first] once cleared stays cleared;
    once the scales are ready they stay ready and the gyro scale is not
    changed again; the filter once seeded stays seeded; and what has been
    printed stays printed. *)
Theorem loop_flags_monotone {W : Type} `{World W} {F : Type} `{FloatOps F}
    (dev : icm42688_dev_s) (n : nat) (st : app_state F) (w : W) :
  let st' := fst (run_loop n dev st w) in
  (first st = false -> first st' = false) /\
  (fs_ready st = true ->
   fs_ready st' = true /\ gyro_lsb_per_dps st' = gyro_lsb_per_dps st) /\
  (filt_init st = true -> filt_init st' = true) /\
  (exists more, stdout st' = stdout st ++ more).
Proof.
  cbv zeta. revert st w. induction n as [| n IH]; intros st w.
  - cbn. repeat split; auto. exists []. symmetry. apply app_nil_r.
  - cbn [run_loop]. unfold bind.
    pose proof (loop_body_flags dev st w) as (B1 & B2 & B3 & more1 & B4).
    cbv zeta in B1, B2, B3, B4.
    destruct (loop_body dev st w) as [st1 w1]. cbn [fst] in B1, B2, B3, B4.
    destruct (IH st1 w1) as (I1 & I2 & I3 & more2 & I4).
    split; [auto|]. split.
    { intros Hr. destruct (B2 Hr) as [Hr1 Hg1].
      destruct (I2 Hr1) as [Hr2 Hg2]. split; [exact Hr2|].
      rewrite Hg2. exact Hg1. }
    split; [auto|].
    exists (more1 ++ more2). rewrite I4, B4. symmetry. apply app_assoc.
Qed.

(** X17.  As long as the scales have not been fetched, no frame is processed:
    after any number of iterations that end with [fs_ready] still unset, the
    state is the one the loop started with, but for [first]. *)
Theorem nothing_processed_before_scales {W : Type} `{World W}
    {F : Type} `{FloatOps F}
    (dev : icm42688_dev_s) (n : nat) (st : app_state F) (w : W) :
  fs_ready (fst (run_loop n dev st w)) = false ->
  fst (run_loop n dev st w) = st \/
  fst (run_loop n dev st w) = clear_first st.
Proof.
  revert st w. induction n as [| n IH]; intros st w Hn.
  - left. reflexivity.
  - cbn [run_loop] in *. unfold bind in *.
    pose proof (loop_body_shape dev st w _ eq_refl) as Hs.
    destruct (loop_body dev st w) as [st1 w1]. cbn [fst] in Hs.
    destruct Hs as [-> | [[Hf ->] | (Hf & st0 & s & v & Hr0 & _ & _ & ->)]].
    + exact (IH st w1 Hn).
    + destruct (IH (clear_first st) w1 Hn) as [-> | ->]; right; reflexivity.
    + exfalso.
      destruct (process_with_flags v st0 s) as (_ & H2 & _).
      cbv zeta in H2. rewrite Hr0 in H2.
      rewrite (run_loop_ready dev n _ w1 H2) in Hn. discriminate.
Qed.

(** A chip that does not acknowledge the accel configuration register: the
    scale ioctl fails in every iteration, and after six iterations nothing
    but [first] has changed. *)
Lemma nothing_processed_before_scales_witness :
  fst (run_loop (F := Binary32.float32) 6 Sim.dev68 app_init
         Scenario.chip_c2_cfg)
  = clear_first app_init.
Proof.
  destruct (nothing_processed_before_scales (F := Binary32.float32)
              Sim.dev68 6 app_init Scenario.chip_c2_cfg) as [Hs | Hs].
  - vm_compute. reflexivity.
  - exfalso. vm_compute in Hs. discriminate Hs.
  - exact Hs.
Defined.

(* ===================================================================== *)
(** * 27. The acquisition pipeline: counters, print rate and bias *)
(* ===================================================================== *)

Section Counters.
Context {F : Type} `{FloatOps F}.

(** A frame corrects the scale exactly when it sets the latch. *)
Lemma measured_corrected (st : app_state F) (s : icm42688_sample_s) :
  m_corrected (measured st s)
  = negb (accel_scale_sanity_fixed (scale st))
    && accel_scale_sanity_fixed (m_scale (measured st s)).
Proof.
  unfold measured, sanity_check, accel_g, gyro_dps.
  destruct (accel_scale_sanity_fixed (scale st)) eqn:Hfix.
  - rewrite !andb_false_r. cbn [andb negb]. cbn. rewrite ?Hfix. reflexivity.
  - repeat match goal with
           | |- context [if ?b then _ else _] => destruct b
           end; cbn; rewrite ?Hfix; reflexivity.
Qed.

(** The print counter and the output over one processed frame. *)
Lemma process_sample_print (st : app_state F) (s : icm42688_sample_s) :
  0 <= print_count st < 10 ->
  let st' := fst (fst (process_sample st s)) in
  print_count st' = (print_count st + 1) mod 10 /\
  Z.of_nat (List.length (filter is_data (stdout st')))
  = Z.of_nat (List.length (filter is_data (stdout st)))
    + (print_count st + 1) / 10 /\
  Z.of_nat (List.length (stdout st'))
  = Z.of_nat (List.length (stdout st)) + (print_count st + 1) / 10
    + (if negb (accel_scale_sanity_fixed (scale st))
          && accel_scale_sanity_fixed (scale st')
       then 1 else 0).
Proof.
  intros Hc. cbv zeta. rewrite process_sample_m_scale.
  rewrite <- measured_corrected.
  unfold process_sample, process_with. cbv zeta.
  destruct (lowpass _ _ _) as [init f]. cbn [fst print_count stdout].
  unfold print_every_n.
  rewrite !filter_app, !length_app.
  destruct (m_corrected (measured st s));
    destruct (Z.leb_spec 10 (print_count st + 1)) as [Hp | Hp];
    cbn [filter is_data List.length];
    try (assert (Hten : print_count st + 1 = 10) by lia; rewrite Hten;
         change (10 mod 10) with 0; change (10 / 10) with 1;
         repeat split; lia);
    rewrite Z.mod_small by lia; rewrite Z.div_small by lia;
    repeat split; lia.
Qed.

Ltac counters_fin :=
  split; [lia|]; split; [lia|]; split;
  [ first [ intros Hx; discriminate Hx
          | intros _; split; first [reflexivity | lia | assumption] ]
  | first [ intros Hx; discriminate Hx
          | intros _; split; first [reflexivity | assumption] ] ].

Lemma sanity_check_counters ready (sn : sanity F) s g anorm :
  counters_ok sn ->
  counters_ok (fst (fst (fst (sanity_check ready sn s g anorm)))).
Proof.
  intros (Hh & Hl & Hfix & Hrange).
  unfold counters_ok, sanity_check, anorm_trigger_frames, accel_g.
  destruct (accel_scale_sanity_fixed sn) eqn:Hf.
  - destruct (Hfix eq_refl) as [Hh0 Hl0].
    rewrite !andb_false_r. cbn [andb negb fst].
    cbn [anorm_high_cnt anorm_low_cnt accel_scale_sanity_fixed
         accel_lsb_per_g].
    rewrite Hh0, Hl0.
    repeat match goal with
           | |- context [if ?b then _ else _] => destruct b
           end; counters_fin.
  - destruct (Hrange eq_refl) as [Hlt Hgt]. rewrite Hlt, Hgt.
    rewrite !andb_true_r.
    destruct ready; cbn [andb negb];
      [destruct (in_high_band anorm);
       [destruct (Z.leb_spec 5 (anorm_high_cnt sn + 1))
       | destruct (in_low_band anorm);
         [destruct (Z.leb_spec 5 (anorm_low_cnt sn + 1))|]]|];
      cbn [fst anorm_high_cnt anorm_low_cnt accel_scale_sanity_fixed
           accel_lsb_per_g];
      rewrite ?Hlt, ?Hgt;
      repeat match goal with
             | |- context [if ?b then _ else _] => destruct b
             end; counters_fin.
Qed.

End Counters.

(** X18.  Over any sequence of processed frames the print counter stays in
    0..9 and counts the frames modulo 10, and one periodic line is written
    for every tenth frame.  The only other line the processing writes is
    the [[SANITY]] line of a frame that corrects the scale: the output
    grows by the periodic lines and by one more line exactly when the
    latch goes from unset to set. *)
Theorem one_line_every_tenth_frame {F : Type} `{FloatOps F}
    (frames : list icm42688_sample_s) (st : app_state F) :
  0 <= print_count st < 10 ->
  let n := Z.of_nat (List.length frames) in
  let st' := run_samples st frames in
  print_count st' = (print_count st + n) mod 10 /\
  Z.of_nat (List.length (filter is_data (stdout st')))
  = Z.of_nat (List.length (filter is_data (stdout st)))
    + (print_count st + n) / 10 /\
  Z.of_nat (List.length (stdout st'))
  = Z.of_nat (List.length (stdout st)) + (print_count st + n) / 10
    + (if negb (accel_scale_sanity_fixed (scale st))
          && accel_scale_sanity_fixed (scale st')
       then 1 else 0).
Proof.
  revert st. induction frames as [| s frames IH]; intros st Hc; cbv zeta.
  - cbn [List.length run_samples fold_left Z.of_nat]. rewrite Z.add_0_r.
    rewrite Z.mod_small by lia. rewrite Z.div_small by lia.
    destruct (accel_scale_sanity_fixed (scale st)); cbn [negb andb];
      repeat split; lia.
  - unfold run_samples. cbn [fold_left].
    fold (run_samples (fst (fst (process_sample st s))) frames).
    destruct (process_sample_print st s Hc) as (Hp & Hd & Hl).
    cbv zeta in Hp, Hd, Hl.
    assert (H01 : accel_scale_sanity_fixed (scale st) = true ->
                  accel_scale_sanity_fixed
                    (scale (fst (fst (process_sample st s)))) = true)
      by (intros Hfix; exact (proj2 (run_samples_latched [s] st Hfix))).
    set (st1 := fst (fst (process_sample st s))) in *.
    assert (H1n : accel_scale_sanity_fixed (scale st1) = true ->
                  accel_scale_sanity_fixed
                    (scale (run_samples st1 frames)) = true)
      by (intros Hfix; exact (proj2 (run_samples_latched frames st1 Hfix))).
    assert (Hc1 : 0 <= print_count st1 < 10)
      by (rewrite Hp; apply Z.mod_pos_bound; lia).
    destruct (IH st1 Hc1) as (IHp & IHd & IHl). cbv zeta in IHp, IHd, IHl.
    rewrite IHp, IHd, IHl, Hd, Hl, Hp.
    replace (Z.of_nat (List.length (s :: frames)))
      with (1 + Z.of_nat (List.length frames))
      by (cbn [List.length]; lia).
    set (m := Z.of_nat (List.length frames)).
    set (c := print_count st) in *.
    assert (Hm : 0 <= m) by (unfold m; lia).
    assert (Hdiv : (c + 1) / 10 + ((c + 1) mod 10 + m) / 10
                   = (c + (1 + m)) / 10).
    { destruct (Z.eq_dec (c + 1) 10) as [Hten | Hnot].
      - rewrite Hten. change (10 mod 10) with 0. change (10 / 10) with 1.
        replace (c + (1 + m)) with (m + 1 * 10) by lia.
        rewrite Z.div_add by lia. rewrite Z.add_0_l. lia.
      - rewrite Z.mod_small by lia. rewrite Z.div_small by lia.
        replace (c + (1 + m)) with (c + 1 + m) by lia. lia. }
    split; [| split].
    + rewrite Z.add_mod_idemp_l by lia. f_equal. lia.
    + lia.
    + destruct (accel_scale_sanity_fixed (scale st)),
               (accel_scale_sanity_fixed (scale st1)),
               (accel_scale_sanity_fixed (scale (run_samples st1 frames)));
        cbn [negb andb];
        try (specialize (H01 eq_refl); discriminate H01);
        try (specialize (H1n eq_refl); discriminate H1n);
        lia.
Qed.

(** With the scales just fetched (2048 counts per g, the [[IOCTL]] line
    out) and twelve frames at 2 g: the fifth frame corrects the scale and
    writes the [[SANITY]] line, the tenth writes the periodic line, and
    the counter stands at 2. *)
Lemma one_line_every_tenth_frame_witness :
  print_count (run_samples (F := Binary32.float32)
                 (with_scales app_init 2048 164) (repeat Cases.at_2g 12))
  = 2 /\
  List.length (filter is_data
                 (stdout (run_samples (F := Binary32.float32)
                            (with_scales app_init 2048 164)
                            (repeat Cases.at_2g 12)))) = 1%nat /\
  List.length (stdout (run_samples (F := Binary32.float32)
                         (with_scales app_init 2048 164)
                         (repeat Cases.at_2g 12))) = 3%nat.
Proof.
  assert (Hc : 0 <= print_count (F := Binary32.float32)
                      (with_scales app_init 2048 164) < 10)
    by (cbn; lia).
  destruct (one_line_every_tenth_frame (F := Binary32.float32)
              (repeat Cases.at_2g 12) (with_scales app_init 2048 164) Hc)
    as (Hp & Hd & Hl).
  cbv zeta in Hp, Hd, Hl. split; [| split].
  - rewrite Hp. reflexivity.
  - apply Nat2Z.inj. rewrite Hd. reflexivity.
  - apply Nat2Z.inj. rewrite Hl. vm_compute. reflexivity.
Defined.

(** X19.  Starting with both counters below 5 (at zero if the latch is set)
    and, if the latch is not set, with a scale above 512 and below 65536, any
    sequence of processed frames leaves the counters in 0..4, at zero once
    the latch is set, and the scale inside the guards while it is not. *)
Theorem sanity_counters_stay_below_trigger {F : Type} `{FloatOps F}
    (frames : list icm42688_sample_s) (st : app_state F) :
  counters_ok (scale st) ->
  counters_ok (scale (run_samples st frames)).
Proof.
  revert st. induction frames as [| s frames IH]; intros st Hok.
  - exact Hok.
  - unfold run_samples. cbn [fold_left].
    fold (run_samples (fst (fst (process_sample st s))) frames).
    apply IH. destruct (process_sample_scale st s) as [_ Hsc].
    cbv zeta in Hsc. rewrite Hsc. apply sanity_check_counters. exact Hok.
Qed.

(** The initial state with the scales of the driver's default
    configuration, and 7 frames at 2 g: the scale has been doubled and
    the counters are back at zero. *)
Lemma sanity_counters_stay_below_trigger_witness :
  counters_ok
    (scale (run_samples (F := Binary32.float32)
              (with_scales app_init 2048 164) (repeat Cases.at_2g 7))) /\
  accel_scale_sanity_fixed
    (scale (run_samples (F := Binary32.float32)
              (with_scales app_init 2048 164) (repeat Cases.at_2g 7)))
  = true.
Proof.
  split.
  - apply (sanity_counters_stay_below_trigger (F := Binary32.float32)).
    unfold counters_ok. cbn [with_scales scale app_init anorm_high_cnt
      anorm_low_cnt accel_scale_sanity_fixed accel_lsb_per_g].
    repeat split; try lia; try discriminate; vm_compute; reflexivity.
  - vm_compute. reflexivity.
Defined.

(* ===================================================================== *)
(** * 28. The acquisition pipeline: scale correction and bias, continued *)
(* ===================================================================== *)

Section ExactBias.
Local Open Scope R_scope.

Lemma ema_exact_step (b v : R) : ema b v - v = (995 / 1000) * (b - v).
Proof.
  unfold ema, beta_bias, dec. cbn [fadd fsub fmul fdiv of_int Exact.ops]. lra.
Qed.

Lemma ema_n_exact n : forall b v : R,
  ema_n n b v - v = (995 / 1000) ^ n * (b - v).
Proof.
  induction n as [| n IH]; intros b v.
  - cbn [ema_n pow]. lra.
  - cbn [ema_n pow]. rewrite IH, ema_exact_step. lra.
Qed.

Lemma ema_n_converges (b v eps : R) :
  0 < eps ->
  exists N : nat, forall n : nat, (N <= n)%nat -> Rabs (ema_n n b v - v) < eps.
Proof.
  intros Heps.
  destruct (Req_dec b v) as [-> | Hne].
  - exists 0%nat. intros n _. rewrite ema_n_exact.
    replace ((995 / 1000) ^ n * (v - v)) with 0 by ring.
    rewrite Rabs_R0. exact Heps.
  - assert (Hd : 0 < Rabs (b - v)) by (apply Rabs_pos_lt; lra).
    destruct (pow_lt_1_zero (995 / 1000)) with (y := eps / Rabs (b - v))
      as [N HN].
    + rewrite Rabs_pos_eq; lra.
    + apply Rdiv_lt_0_compat; assumption.
    + exists N. intros n Hn. rewrite ema_n_exact, Rabs_mult.
      specialize (HN n Hn).
      apply Rmult_lt_compat_r with (r := Rabs (b - v)) in HN; [| exact Hd].
      replace (eps / Rabs (b - v) * Rabs (b - v)) with eps in HN
        by (field; lra).
      exact HN.
Qed.

End ExactBias.

(** X20.  A stable frame moves each of the six bias accumulators toward the
    frame's own value on that axis, the accel z axis like the others.
    Computed without rounding, [n] stable frames with the value [v] leave an
    accumulator at distance [0.995 ^ n] times its initial distance from [v],
    so that it converges to [v]: at rest the z bias tends to the measured 1 g
    and the bias-removed z value to zero. *)
Theorem bias_converges_to_stable_value :
  (forall (F : Type) (HF : FloatOps F) (b val : axes F),
      bias_update true b val = axes_map2 ema b val) /\
  (forall (n : nat) (b v : R),
      (ema_n n b v - v = (995 / 1000) ^ n * (b - v))%R) /\
  (forall b v eps : R,
      (0 < eps)%R ->
      exists N : nat,
        forall n : nat, (N <= n)%nat -> (Rabs (ema_n n b v - v) < eps)%R) /\
  (forall (n : nat) (val b : axes R),
      (a_z (remove_bias val
              {| a_x := a_x b; a_y := a_y b;
                 a_z := ema_n n (a_z b) (a_z val);
                 g_x := g_x b; g_y := g_y b; g_z := g_z b |})
       = (995 / 1000) ^ n * (a_z val - a_z b))%R).
Proof.
  split; [| split; [| split]].
  - intros F HF b val. reflexivity.
  - intros n b v. apply ema_n_exact.
  - intros b v eps. apply ema_n_converges.
  - intros n val b. cbn [remove_bias a_z].
    pose proof (ema_n_exact n (a_z b) (a_z val)) as He.
    cbn [fsub Exact.ops]. lra.
Qed.

(** X21.  Over any sequence of processed frames the accel scale is what it
    was, or the latch has been set and the scale has been doubled or halved
    once; and once the latch is set, no further frames change the scale. *)
Theorem scale_corrected_at_most_once {F : Type} `{FloatOps F}
    (st : app_state F) (frames more : list icm42688_sample_s) :
  let st1 := run_samples st frames in
  let st2 := run_samples st1 more in
  (accel_lsb_per_g (scale st1) = accel_lsb_per_g (scale st) /\
   accel_scale_sanity_fixed (scale st1) = accel_scale_sanity_fixed (scale st)
   \/
   accel_scale_sanity_fixed (scale st) = false /\
   accel_scale_sanity_fixed (scale st1) = true /\
   (accel_lsb_per_g (scale st1)
    = (accel_lsb_per_g (scale st) * of_int 2)%flt \/
    accel_lsb_per_g (scale st1)
    = (accel_lsb_per_g (scale st) * dec 1 2)%flt)) /\
  (accel_scale_sanity_fixed (scale st1) = true ->
   accel_lsb_per_g (scale st2) = accel_lsb_per_g (scale st1) /\
   accel_scale_sanity_fixed (scale st2) = true).
Proof.
  cbv zeta. split.
  - apply run_samples_adjusts_once.
  - intros Hfix. apply run_samples_latched. exact Hfix.
Qed.

(** X22.  With the scales ready and the latch not set, a run of frames whose
    norm at the current scale lies in the high band, long enough to bring the
    high counter to 5, doubles a scale below 65536; a run in the low band
    (and outside the high one), long enough for the low counter, halves a
    scale above 512.  Either sets the latch. *)
Theorem band_run_corrects_scale {F : Type} `{FloatOps F}
    (st : app_state F) (frames : list icm42688_sample_s) :
  fs_ready st = true ->
  accel_scale_sanity_fixed (scale st) = false ->
  frames <> [] ->
  let lsb := accel_lsb_per_g (scale st) in
  let st' := run_samples st frames in
  ((lsb <? of_int 65536)%flt = true ->
   5 <= anorm_high_cnt (scale st) + Z.of_nat (List.length frames) ->
   Forall (fun s => in_high_band (anorm_at lsb s) = true) frames ->
   accel_lsb_per_g (scale st') = (lsb * of_int 2)%flt /\
   accel_scale_sanity_fixed (scale st') = true) /\
  (fgtb lsb (of_int 512) = true ->
   5 <= anorm_low_cnt (scale st) + Z.of_nat (List.length frames) ->
   Forall (fun s => in_high_band (anorm_at lsb s) = false /\
                    in_low_band (anorm_at lsb s) = true) frames ->
   accel_lsb_per_g (scale st') = (lsb * dec 1 2)%flt /\
   accel_scale_sanity_fixed (scale st') = true).
Proof.
  intros Hready Hfix Hne. cbv zeta. split.
  - intros Hlt Hcnt Hall. apply high_run_doubles; assumption.
  - intros Hgt Hcnt Hall. apply low_run_halves; assumption.
Qed.

(** At 2048 counts per g, five frames with 4096 counts on z (2 g) double
    the scale to 4096, and five frames with 1024 counts on z (0.5 g) halve
    it to 1024. *)
Lemma band_run_corrects_scale_witness :
  accel_lsb_per_g
    (scale (run_samples (F := Binary32.float32)
              (with_scales app_init 2048 164) (repeat Cases.at_2g 5)))
  = of_int 4096 /\
  accel_lsb_per_g
    (scale (run_samples (F := Binary32.float32)
              (with_scales app_init 2048 164) (repeat Cases.at_half_g 5)))
  = of_int 1024.
Proof.
  assert (Hready : fs_ready (F := Binary32.float32)
                     (with_scales app_init 2048 164) = true) by reflexivity.
  assert (Hfix : accel_scale_sanity_fixed
                   (scale (F := Binary32.float32)
                      (with_scales app_init 2048 164)) = false)
    by reflexivity.
  split.
  - assert (Hne : repeat Cases.at_2g 5 <> []) by discriminate.
    destruct (proj1 (band_run_corrects_scale (F := Binary32.float32)
                       (with_scales app_init 2048 164)
                       (repeat Cases.at_2g 5) Hready Hfix Hne))
      as [Hl _].
    + vm_compute. reflexivity.
    + cbn. lia.
    + repeat (apply Forall_cons; [vm_compute; reflexivity|]).
      apply Forall_nil.
    + rewrite Hl. vm_compute. reflexivity.
  - assert (Hne : repeat Cases.at_half_g 5 <> []) by discriminate.
    destruct (proj2 (band_run_corrects_scale (F := Binary32.float32)
                       (with_scales app_init 2048 164)
                       (repeat Cases.at_half_g 5) Hready Hfix Hne))
      as [Hl _].
    + vm_compute. reflexivity.
    + cbn. lia.
    + repeat (apply Forall_cons;
              [split; vm_compute; reflexivity|]).
      apply Forall_nil.
    + rewrite Hl. vm_compute. reflexivity.
Defined.

(* ===================================================================== *)
(** * 29. The LED utility *)
(* ===================================================================== *)

Module LedFacts.
Import Led.
Import Stdlib.Strings.String.

Section Generic.
Context {W : Type} `{System W}.

(** With the device open, [ensure_open] does nothing. *)
Lemma ensure_open_ready (g : globals) (w : W) :
  g_led_initialized g = true -> 0 <= g_led_fd g ->
  ensure_open g w = ((inr tt, g), w).
Proof.
  intros Hi Hfd. apply Z.ltb_ge in Hfd.
  unfold ensure_open. rewrite Hi. cbn [negb].
  unfold bind, ret. change (OK <? 0) with false. cbv iota.
  rewrite Hfd. reflexivity.
Qed.

(** Not yet initialised, and [open] succeeds. *)
Lemma ensure_open_opens (g : globals) (w w1 : W) (fd : Z) :
  g_led_initialized g = false ->
  open_leds w = (fd, w1) -> 0 <= fd ->
  ensure_open g w
  = ((inr tt, {| g_led_fd := fd; g_led_initialized := true |}), w1).
Proof.
  intros Hi Ho Hfd. apply Z.ltb_ge in Hfd.
  unfold ensure_open, led_control_init. rewrite Hi. cbn [negb].
  unfold bind at 1. unfold bind at 1. rewrite Ho, Hfd.
  unfold ret. change (OK <? 0) with false. cbv iota beta.
  cbn [g_led_fd]. rewrite Hfd. reflexivity.
Qed.

(** Not yet initialised, and [open] fails. *)
Lemma ensure_open_fails (g : globals) (w w1 : W) (fd : Z) :
  g_led_initialized g = false ->
  open_leds w = (fd, w1) -> fd < 0 -> 0 < errno w1 ->
  ensure_open g w
  = ((inl (- errno w1), {| g_led_fd := fd; g_led_initialized := false |}),
     w1).
Proof.
  intros Hi Ho Hfd He. apply Z.ltb_lt in Hfd.
  assert (Hneg : (- errno w1 <? 0) = true) by (apply Z.ltb_lt; lia).
  unfold ensure_open, led_control_init. rewrite Hi. cbn [negb].
  unfold bind at 1. unfold bind at 1. rewrite Ho, Hfd.
  unfold bind, get_errno, ret. rewrite Hneg. reflexivity.
Qed.

(** [led_control_set] once the descriptor is there. *)
Lemma led_control_set_ready (g : globals) (led_id : Z) (state : bool) (w : W) :
  g_led_initialized g = true -> 0 <= g_led_fd g ->
  led_control_set g led_id state w
  = (let (r, w2) := ioctl_setled (g_led_fd g) led_id (negb state) w in
     ((if r <? 0 then - errno w2 else OK, g), w2)).
Proof.
  intros Hi Hfd. unfold led_control_set.
  step_with (ensure_open_ready g w Hi Hfd).
  unfold bind at 1.
  destruct (ioctl_setled (g_led_fd g) led_id (negb state) w) as [r w2].
  destruct (r <? 0); reflexivity.
Qed.

End Generic.

(** X23.  Starting from globals in which [g_led_initialized] implies a
    non-negative descriptor, and with an [open] that leaves a positive
    [errno] when it fails, [led_control_set] either returns [-errno] of the
    failed [open] without any ioctl, or issues exactly one ioctl, on a
    non-negative descriptor, with [ul_on] the negation of the requested
    state, and returns [OK] or [-errno] of that ioctl.  It does not return by
    its [-ENODEV] branch.  The globals it leaves satisfy the same
    implication. *)
Theorem led_set_outcomes {W : Type} `{System W}
    (g : globals) (led_id : Z) (state : bool) (w : W) :
  (g_led_initialized g = true -> 0 <= g_led_fd g) ->
  (fst (open_leds w) < 0 -> 0 < errno (snd (open_leds w))) ->
  let fd := fst (open_leds w) in
  let w1 := snd (open_leds w) in
  (g_led_initialized g = false /\ fd < 0 /\
   led_control_set g led_id state w
   = ((- errno w1, {| g_led_fd := fd; g_led_initialized := false |}), w1))
  \/
  (exists g1 w0,
      (g_led_initialized g = true /\ g1 = g /\ w0 = w \/
       g_led_initialized g = false /\ 0 <= fd /\
       g1 = {| g_led_fd := fd; g_led_initialized := true |} /\ w0 = w1) /\
      g_led_initialized g1 = true /\ 0 <= g_led_fd g1 /\
      led_control_set g led_id state w
      = (let (r, w2) := ioctl_setled (g_led_fd g1) led_id (negb state) w0 in
         ((if r <? 0 then - errno w2 else OK, g1), w2))).
Proof.
  intros Hinv Herr. cbv zeta.
  destruct (g_led_initialized g) eqn:Hi.
  - right. exists g, w. specialize (Hinv eq_refl).
    split; [left; auto|]. split; [exact Hi|]. split; [exact Hinv|].
    apply led_control_set_ready; assumption.
  - destruct (open_leds w) as [fd w1] eqn:Ho. cbn [fst snd] in *.
    destruct (Z.ltb_spec fd 0) as [Hneg | Hpos].
    + left. split; [reflexivity|]. split; [exact Hneg|].
      unfold led_control_set.
      step_with (ensure_open_fails g w w1 fd Hi Ho Hneg (Herr Hneg)).
      reflexivity.
    + right. exists {| g_led_fd := fd; g_led_initialized := true |}, w1.
      split; [right; auto|]. split; [reflexivity|]. split; [exact Hpos|].
      unfold led_control_set.
      step_with (ensure_open_opens g w w1 fd Hi Ho Hpos).
      cbn [g_led_fd]. unfold bind at 1.
      destruct (ioctl_setled fd led_id (negb state) w1) as [r w2].
      destruct (r <? 0); reflexivity.
Qed.

(** On the simulated board, switching the LED on from the initial globals
    opens the device and issues one ioctl with [ul_on] false. *)
Lemma led_set_outcomes_witness :
  led_control_set boot 0 true (board [])
  = ((OK, {| g_led_fd := 3; g_led_initialized := true |}),
     later (board []) [] [EvOpen 3; EvSetLed 3 0 false]).
Proof.
  destruct (led_set_outcomes boot 0 true (board []))
    as [(_ & Hneg & _)
       | (g1 & w0 & [(Hi & _) | (_ & _ & -> & ->)] & _ & _ & Hset)].
  - intros Hi. discriminate Hi.
  - cbn. lia.
  - cbn in Hneg. lia.
  - discriminate Hi.
  - rewrite Hset. reflexivity.
Defined.

(** X24.  [main] with [on] or [off], on a board whose LED device opens: the
    device is opened, one ioctl is issued for LED 0 with [ul_on] the negation
    of the requested state, the descriptor is closed, and the globals are
    back at their initial values.  The exit code is [OK] or [-errno] of the
    ioctl.  Further arguments are ignored. *)
Theorem main_switches_and_cleans_up {W : Type} `{System W}
    (fuel : nat) (name : string) (rest : list string) (state : bool)
    (w w1 w2 w3 : W) (fd r c : Z) :
  open_leds w = (fd, w1) -> 0 <= fd ->
  ioctl_setled fd 0 (negb state) w1 = (r, w2) ->
  close fd w2 = (c, w3) ->
  main fuel (name :: (if state then "on" else "off")%string :: rest) boot w
  = ((Some (if r <? 0 then - errno w2 else OK), boot), w3).
Proof.
  intros Ho Hfd Hio Hc.
  assert (Hfd' : (fd <? 0) = false) by (apply Z.ltb_ge; exact Hfd).
  assert (Hfd'' : (0 <=? fd) = true) by (apply Z.leb_le; exact Hfd).
  set (g1 := {| g_led_fd := fd; g_led_initialized := true |}).
  assert (Hinit : led_control_init boot w = ((OK, g1), w1)).
  { unfold led_control_init. cbn [boot g_led_initialized].
    step_with Ho. rewrite Hfd'. reflexivity. }
  assert (Hset : led_control_set g1 LED_USER_LED state w1
                 = ((if r <? 0 then - errno w2 else OK, g1), w2)).
  { rewrite led_control_set_ready by (cbn; auto).
    cbn [g1 g_led_fd]. unfold LED_USER_LED. rewrite Hio. reflexivity. }
  assert (Hde : led_control_deinit g1 w2 = ((OK, boot), w3)).
  { unfold led_control_deinit. cbn [g1 g_led_fd]. rewrite Hfd''.
    unfold bind, ret. rewrite Hc. reflexivity. }
  unfold main. destruct state; cbn [parse_args String.eqb Ascii.eqb
    Bool.eqb]; cbv iota;
    step_with Hinit; change (OK <? 0) with false; cbv iota;
    unfold LED_CMD_ON, LED_CMD_OFF;
    cbn [Z.eqb Pos.eqb]; unfold bind at 1; unfold bind at 1;
    rewrite Hset; unfold ret at 1; cbv beta iota;
    step_with Hde; reflexivity.
Qed.

(** [on] on the simulated board: open, LED 0 with [ul_on] false, close. *)
Lemma main_switches_and_cleans_up_witness :
  main 0 ["led_control"; "on"]%string boot (board [])
  = ((Some OK, boot),
     later (board []) [] [EvOpen 3; EvSetLed 3 0 false; EvClose 3]).
Proof.
  assert (Ho : open_leds (board []) = (3, later (board []) [] [EvOpen 3]))
    by reflexivity.
  assert (Hio : ioctl_setled 3 0 (negb true) (later (board []) [] [EvOpen 3])
                = (0, later (board []) [] [EvOpen 3; EvSetLed 3 0 false]))
    by reflexivity.
  assert (Hc : close 3 (later (board []) [] [EvOpen 3; EvSetLed 3 0 false])
               = (0, later (board []) []
                       [EvOpen 3; EvSetLed 3 0 false; EvClose 3]))
    by reflexivity.
  assert (Hfd : 0 <= 3) by lia.
  exact (main_switches_and_cleans_up 0 "led_control"%string [] true
           _ _ _ _ 3 0 0 Ho Hfd Hio Hc).
Defined.

(** X25.  [main] returns -1 without touching the device or the globals when
    it is given no command or an unknown one; and when the command is valid
    but the device cannot be opened, it returns [-errno] of the [open] with
    no ioctl and no [close]. *)
Theorem main_early_returns {W : Type} `{System W}
    (fuel : nat) (g : globals) (w : W) :
  (forall argv,
      (List.length argv < 2)%nat ->
      main fuel argv g w = ((Some (-1), g), w)) /\
  (forall name cmd rest,
      cmd <> "on"%string -> cmd <> "off"%string -> cmd <> "blink"%string ->
      main fuel (name :: cmd :: rest) g w = ((Some (-1), g), w)) /\
  (forall argv fd w1,
      parse_args argv <> None ->
      g_led_initialized g = false ->
      open_leds w = (fd, w1) -> fd < 0 -> 0 < errno w1 ->
      main fuel argv g w
      = ((Some (- errno w1),
          {| g_led_fd := fd; g_led_initialized := false |}), w1)).
Proof.
  split; [| split].
  - intros argv Hlen. unfold main.
    destruct argv as [| a [| b rest]]; cbn [List.length] in Hlen;
      [reflexivity | reflexivity | lia].
  - intros name cmd rest Hon Hoff Hblink. unfold main, parse_args.
    apply String.eqb_neq in Hon, Hoff, Hblink.
    rewrite Hon, Hoff, Hblink. reflexivity.
  - intros argv fd w1 Hargs Hi Ho Hfd He. unfold main.
    destruct (parse_args argv) as [[command period] |]; [| contradiction].
    apply Z.ltb_lt in Hfd.
    assert (Hneg : (- errno w1 <? 0) = true) by (apply Z.ltb_lt; lia).
    assert (Hinit : led_control_init g w
                    = ((- errno w1,
                        {| g_led_fd := fd; g_led_initialized := false |}),
                       w1)).
    { unfold led_control_init. rewrite Hi. step_with Ho. rewrite Hfd.
      reflexivity. }
    step_with Hinit. rewrite Hneg. reflexivity.
Qed.

(** X26.  The period given to [blink] reaches [led_control_blink] reduced
    modulo 65536: two positive periods that differ by a multiple of 65536
    give the same run.  A period that is not positive gives the run of the
    default. *)
Theorem blink_period_modulo_65536 {W : Type} `{System W}
    (fuel : nat) (name a b : string) (rest rest' : list string)
    (g : globals) (w : W) :
  (0 < atoi a -> 0 < atoi b ->
   atoi a mod 65536 = atoi b mod 65536 ->
   main fuel (name :: "blink" :: a :: rest)%string g w
   = main fuel (name :: "blink" :: b :: rest')%string g w) /\
  (atoi a <= 0 ->
   main fuel (name :: "blink" :: a :: rest)%string g w
   = main fuel [name; "blink"]%string g w).
Proof.
  split.
  - intros Ha Hb Hmod. unfold main.
    cbn [parse_args String.eqb Ascii.eqb Bool.eqb]. cbv iota.
    apply Z.leb_gt in Ha, Hb. rewrite Ha, Hb.
    unfold to_uint16. rewrite Hmod. reflexivity.
  - intros Ha. unfold main.
    cbn [parse_args String.eqb Ascii.eqb Bool.eqb]. cbv iota.
    apply Z.leb_le in Ha. rewrite Ha. reflexivity.
Qed.

(** On the simulated board [blink 66036] runs as [blink 500] does. *)
Lemma blink_period_modulo_65536_witness :
  main 3 ["led_control"; "blink"; "66036"]%string boot
    (board [None; None; Some x03])
  = main 3 ["led_control"; "blink"; "500"]%string boot
      (board [None; None; Some x03]).
Proof.
  apply (proj1 (blink_period_modulo_65536 3 "led_control" "66036" "500"
                  [] [] boot (board [None; None; Some x03]))%string).
  - vm_compute. reflexivity.
  - vm_compute. reflexivity.
  - vm_compute. reflexivity.
Defined.

(** X27.  When Ctrl+C is there at the first poll, [led_control_blink]
    switches the LED off (one ioctl with [ul_on] true) and returns [OK]
    whatever that ioctl returned. *)
Theorem blink_stop_ignores_switch_off_result {W : Type} `{System W}
    (fuel : nat) (g : globals) (led_id period : Z) (w w1 : W) :
  g_led_initialized g = true -> 0 <= g_led_fd g ->
  check_for_input w = (true, w1) ->
  led_control_blink (S fuel) g led_id period w
  = ((Some OK, g), snd (ioctl_setled (g_led_fd g) led_id true w1)).
Proof.
  intros Hi Hfd Hc. unfold led_control_blink.
  step_with (ensure_open_ready g w Hi Hfd).
  assert (Hloop : blink_loop (S fuel) g led_id period w
                  = ((Some Stopped, g), w1)).
  { cbn [blink_loop]. unfold blink_cycle.
    unfold bind at 1. unfold bind at 1. rewrite Hc. reflexivity. }
  step_with Hloop.
  unfold bind. rewrite (led_control_set_ready g led_id false w1 Hi Hfd).
  cbn [negb].
  destruct (ioctl_setled (g_led_fd g) led_id true w1) as [r w2].
  reflexivity.
Qed.

(** A board whose ioctl fails, with Ctrl+C waiting: the switch-off fails
    and [led_control_blink] returns [OK]. *)
Lemma blink_stop_ignores_switch_off_result_witness :
  fst (led_control_blink 1 {| g_led_fd := 3; g_led_initialized := true |}
         0 500
         {| keys := [Some x03]; has_leds := true; ioctl_ok := false;
            log := [] |})
  = (Some OK, {| g_led_fd := 3; g_led_initialized := true |}) /\
  fst (led_control_set {| g_led_fd := 3; g_led_initialized := true |}
         0 false
         {| keys := []; has_leds := true; ioctl_ok := false; log := [] |})
  = (- EIO, {| g_led_fd := 3; g_led_initialized := true |}).
Proof.
  split; [| reflexivity].
  rewrite (blink_stop_ignores_switch_off_result 0
             {| g_led_fd := 3; g_led_initialized := true |} 0 500
             {| keys := [Some x03]; has_leds := true; ioctl_ok := false;
                log := [] |}
             {| keys := []; has_leds := true; ioctl_ok := false;
                log := [] |}).
  - reflexivity.
  - reflexivity.
  - cbn. lia.
  - reflexivity.
Defined.

Section OnTheBoard.

Lemma later_self (s : sim) : later s (keys s) [] = s.
Proof. destruct s. unfold later. cbn. rewrite app_nil_r. reflexivity. Qed.

Lemma later_later (s : sim) k m k' m' :
  later (later s k m) k' m' = later s k' (m ++ m').
Proof. unfold later. cbn. rewrite app_assoc. reflexivity. Qed.

(** One poll takes one key, if there is one. *)
Lemma check_for_input_board (s : sim) :
  check_for_input s
  = match keys s with
    | [] => (false, s)
    | k :: rest => (is_stop k, later s rest [])
    end.
Proof.
  unfold check_for_input, bind, ret, later. cbn [select_stdin sim_system].
  destruct (keys s) as [| [c |] rest] eqn:Hk.
  - reflexivity.
  - cbn. rewrite Hk. cbn. rewrite app_nil_r. reflexivity.
  - cbn. rewrite app_nil_r. reflexivity.
Qed.

Lemma led_control_set_board (g : globals) led_id state (s : sim) :
  g_led_initialized g = true -> 0 <= g_led_fd g -> ioctl_ok s = true ->
  led_control_set g led_id state s
  = ((OK, g),
     later s (keys s) [EvSetLed (g_led_fd g) led_id (negb state)]).
Proof.
  intros Hi Hfd Hok. rewrite led_control_set_ready by assumption.
  cbn [ioctl_setled sim_system]. rewrite Hok. reflexivity.
Qed.

Lemma keys_later (s : sim) k m : keys (later s k m) = k.
Proof. reflexivity. Qed.

(** The polling loop on keys that hold a Ctrl+C after [pre]: it is stopped
    by the Ctrl+C, or it ends with the Ctrl+C still ahead. *)
Lemma wait_loop_board rest : forall n (s : sim) pre,
  keys s = pre ++ Some x03 :: rest ->
  Forall (fun k => is_stop k = false) pre ->
  exists more,
    wait_loop n s = (true, later s rest more) \/
    exists pre',
      wait_loop n s = (false, later s (pre' ++ Some x03 :: rest) more) /\
      Forall (fun k => is_stop k = false) pre' /\
      (List.length pre' <= List.length pre)%nat.
Proof.
  induction n as [| n IH]; intros s pre Hk Hpre.
  - exists []. right. exists pre. rewrite <- Hk, later_self.
    split; [reflexivity|]. split; [exact Hpre | lia].
  - destruct pre as [| k pre1].
    + exists []. left. cbn [wait_loop]. unfold bind at 1.
      rewrite check_for_input_board, Hk. reflexivity.
    + inversion Hpre as [| k' pre' Hks Hpre1]; subst.
      assert (Hstep : wait_loop (S n) s
                      = wait_loop n (later s (pre1 ++ Some x03 :: rest)
                                       [EvSleep 50000])).
      { cbn [wait_loop]. unfold bind at 1.
        rewrite check_for_input_board, Hk. cbn [app]. rewrite Hks.
        unfold bind at 1. cbn [usleep sim_system].
        change (logged (EvSleep 50000)
                  (later s (pre1 ++ Some x03 :: rest) []))
          with (later (later s (pre1 ++ Some x03 :: rest) [])
                  (pre1 ++ Some x03 :: rest) [EvSleep 50000]).
        rewrite later_later. reflexivity. }
      rewrite Hstep.
      destruct (IH (later s (pre1 ++ Some x03 :: rest) [EvSleep 50000])
                  pre1 eq_refl Hpre1) as [more [Hstop | (pre' & Hw & Hp & Hl)]].
      * exists ([EvSleep 50000] ++ more). left.
        rewrite Hstop, later_later. reflexivity.
      * exists ([EvSleep 50000] ++ more). right. exists pre'.
        rewrite Hw, later_later. split; [reflexivity|].
        split; [exact Hp | cbn [List.length]; lia].
Qed.

(** One round of the blink loop on such keys: it is stopped by the Ctrl+C,
    or it ends with fewer keys before the Ctrl+C. *)
Lemma blink_cycle_board rest (g : globals) led_id period (s : sim) pre :
  g_led_initialized g = true -> 0 <= g_led_fd g -> ioctl_ok s = true ->
  keys s = pre ++ Some x03 :: rest ->
  Forall (fun k => is_stop k = false) pre ->
  exists more,
    blink_cycle g led_id period s = ((Stopped, g), later s rest more) \/
    exists pre',
      blink_cycle g led_id period s
      = ((Again, g), later s (pre' ++ Some x03 :: rest) more) /\
      Forall (fun k => is_stop k = false) pre' /\
      (List.length pre' < List.length pre)%nat.
Proof.
  intros Hi Hfd Hok Hk Hpre.
  destruct pre as [| k pre1].
  - exists []. left. unfold blink_cycle. unfold bind at 1.
    rewrite check_for_input_board, Hk. reflexivity.
  - inversion Hpre as [| k' pre' Hks Hpre1]; subst.
    set (on := EvSetLed (g_led_fd g) led_id false).
    set (off := EvSetLed (g_led_fd g) led_id true).
    assert (Hhead : blink_cycle g led_id period s
                    = (c <- wait_loop (polls period) ;;
                       if c then ret (Stopped, g) else
                       '(r, g) <- led_control_set g led_id false ;;
                       if r <? 0 then ret (Failed r, g) else
                       c <- wait_loop (polls period) ;;
                       if c then ret (Stopped, g) else ret (Again, g))%io
                        (later s (pre1 ++ Some x03 :: rest) [on])).
    { unfold blink_cycle. unfold bind at 1.
      rewrite check_for_input_board, Hk. cbn [app]. rewrite Hks.
      unfold bind at 1.
      rewrite (led_control_set_board g led_id true
                 (later s (pre1 ++ Some x03 :: rest) []) Hi Hfd Hok).
      change (OK <? 0) with false. cbv iota.
      rewrite keys_later, later_later. reflexivity. }
    destruct (wait_loop_board rest (polls period)
                (later s (pre1 ++ Some x03 :: rest) [on]) pre1 eq_refl Hpre1)
      as [m2 [Hstop | (pre2 & Hw & Hp2 & Hl2)]].
    + exists ([on] ++ m2). left. rewrite Hhead. unfold bind at 1.
      rewrite Hstop, later_later. reflexivity.
    + assert (Hmid : blink_cycle g led_id period s
                     = (c <- wait_loop (polls period) ;;
                        if c then ret (Stopped, g) else ret (Again, g))%io
                         (later s (pre2 ++ Some x03 :: rest)
                            (([on] ++ m2) ++ [off]))).
      { rewrite Hhead. unfold bind at 1. rewrite Hw, later_later. cbv iota.
        unfold bind at 1.
        rewrite (led_control_set_board g led_id false
                   (later s (pre2 ++ Some x03 :: rest) ([on] ++ m2))
                   Hi Hfd Hok).
        change (OK <? 0) with false. cbv iota.
        rewrite keys_later, later_later. reflexivity. }
      destruct (wait_loop_board rest (polls period)
                  (later s (pre2 ++ Some x03 :: rest) (([on] ++ m2) ++ [off]))
                  pre2 eq_refl Hp2)
        as [m4 [Hstop | (pre4 & Hw4 & Hp4 & Hl4)]].
      * exists ((([on] ++ m2) ++ [off]) ++ m4). left. rewrite Hmid.
        unfold bind at 1. rewrite Hstop, later_later. reflexivity.
      * exists ((([on] ++ m2) ++ [off]) ++ m4). right. exists pre4.
        split; [| split; [exact Hp4 | cbn [List.length]; lia]].
        rewrite Hmid. unfold bind at 1. rewrite Hw4, later_later.
        reflexivity.
Qed.

Lemma blink_loop_board rest (g : globals) led_id period :
  g_led_initialized g = true -> 0 <= g_led_fd g ->
  forall fuel (s : sim) pre,
    ioctl_ok s = true ->
    keys s = pre ++ Some x03 :: rest ->
    Forall (fun k => is_stop k = false) pre ->
    (List.length pre < fuel)%nat ->
    exists more,
      blink_loop fuel g led_id period s
      = ((Some Stopped, g), later s rest more).
Proof.
  intros Hi Hfd. induction fuel as [| fuel IH]; intros s pre Hok Hk Hpre Hlen;
    [lia|].
  cbn [blink_loop]. unfold bind at 1.
  destruct (blink_cycle_board rest g led_id period s pre Hi Hfd Hok Hk Hpre)
    as [m1 [Hstop | (pre1 & Hc & Hp1 & Hl1)]].
  - exists m1. rewrite Hstop. reflexivity.
  - rewrite Hc.
    destruct (IH (later s (pre1 ++ Some x03 :: rest) m1) pre1 Hok eq_refl Hp1)
      as [m2 Hloop]; [lia|].
    exists (m1 ++ m2). rewrite Hloop, later_later. reflexivity.
Qed.

End OnTheBoard.

(** X28.  On the simulated board, with the device open and its ioctl working:
    if a Ctrl+C arrives after [pre] other polls, [led_control_blink] returns
    [OK] within [length pre + 1] rounds of its loop, for every period; it has
    taken the keys up to the Ctrl+C, and its last call switches the LED off
    (the ioctl with [ul_on] true). *)
Theorem blink_stops_on_ctrl_c
    (fuel : nat) (g : globals) (led_id period : Z) (s : sim)
    (pre rest : list (option byte)) :
  g_led_initialized g = true -> 0 <= g_led_fd g -> ioctl_ok s = true ->
  keys s = pre ++ Some x03 :: rest ->
  Forall (fun k => is_stop k = false) pre ->
  (List.length pre < fuel)%nat ->
  exists more,
    led_control_blink fuel g led_id period s
    = ((Some OK, g),
       later s rest (more ++ [EvSetLed (g_led_fd g) led_id true])).
Proof.
  intros Hi Hfd Hok Hk Hpre Hlen. unfold led_control_blink.
  step_with (ensure_open_ready g s Hi Hfd).
  destruct (blink_loop_board rest g led_id period Hi Hfd fuel s pre
              Hok Hk Hpre Hlen) as [more Hloop].
  exists more. step_with Hloop.
  unfold bind.
  rewrite (led_control_set_board g led_id false (later s rest more) Hi Hfd Hok).
  cbn [keys later negb]. unfold ret. rewrite later_later. reflexivity.
Qed.

(** Two empty polls, a key that is not Ctrl+C, then Ctrl+C, with a period
    of 100 ms: the LED is switched on, two sleeps of 50 ms follow, the LED
    is switched off, the Ctrl+C ends the second wait at once and the LED is
    switched off again. *)
Lemma blink_stops_on_ctrl_c_witness :
  led_control_blink 4 {| g_led_fd := 3; g_led_initialized := true |} 0 100
    (board [None; Some x61; None; Some x03; None])
  = ((Some OK, {| g_led_fd := 3; g_led_initialized := true |}),
     later (board [None; Some x61; None; Some x03; None]) [None]
       [EvSetLed 3 0 false; EvSleep 50000; EvSleep 50000;
        EvSetLed 3 0 true; EvSetLed 3 0 true]).
Proof.
  destruct (blink_stops_on_ctrl_c 4
              {| g_led_fd := 3; g_led_initialized := true |} 0 100
              (board [None; Some x61; None; Some x03; None])
              [None; Some x61; None] [None])
    as [more Hb].
  - reflexivity.
  - cbn. lia.
  - reflexivity.
  - reflexivity.
  - repeat (apply Forall_cons; [reflexivity|]). apply Forall_nil.
  - cbn. lia.
  - vm_compute. reflexivity.
Defined.

End LedFacts.
